(** * Thermobar, amphibole.py: dispatch, coupled solve, Ridolfi (2021) selection

  A shallow embedding of the control flow of [src/Thermobar/amphibole.py]:
  the amphibole-only pressure and temperature dispatchers
  ([calculate_amp_only_press], [calculate_amp_only_temp]), the coupled
  solver ([calculate_amp_only_press_temp]) and, inside the pressure
  dispatcher, the selection loop and the input checks of the
  [P_Ridolfi2021] branch.

  Numbers are IEEE binary64 floats ([PrimFloat.float]), as numpy's float64;
  a comparison with NaN is false, as in Python. *)

From Stdlib Require Import Floats.
From stdpp Require Import base option list strings gmap.

Set Warnings "-inexact-float".
Open Scope string_scope.

(* ===================================================================== *)
(** ** Python exceptions and the result of a call *)
(* ===================================================================== *)

Module Py.

(** The exceptions the modelled code can raise.  [CoreError] stands for
    whatever a function of [Thermobar.core] raises. *)
Inductive exn : Type :=
| ValueError (msg : string)
| KeyError (key : string)
| IndexKeyError (i : nat)
| TypeError (msg : string)
| UnboundLocalError (var : string)
| AttributeError (name : string)
| Exception (msg : string)
| CoreError (msg : string).

Inductive result (A : Type) : Type :=
| Ok (a : A)
| Raise (e : exn).
Arguments Ok {A} a.
Arguments Raise {A} e.

#[export] Instance result_ret : MRet result := λ A a, Ok a.
#[export] Instance result_bind : MBind result := λ A B k m,
  match m with
  | Ok a => k a
  | Raise e => Raise e
  end.

#[export] Instance result_fmap : FMap result := λ A B f m,
  match m with
  | Ok a => Ok (f a)
  | Raise e => Raise e
  end.

Definition is_ok {A} (m : result A) : bool :=
  match m with Ok _ => true | Raise _ => false end.

(** [for x in xs: st = body(x, st)], stopping at the first exception. *)
Fixpoint for_each {A S} (xs : list A) (body : A → S → result S) (st : S)
  : result S :=
  match xs with
  | [] => Ok st
  | x :: xs' => st' ← body x st; for_each xs' body st'
  end.

End Py.
Import Py.

(* ===================================================================== *)
(** ** numpy and pandas values *)
(* ===================================================================== *)

Module NP.

(** A number handed to or returned by an equation: a Python or numpy scalar,
    or a pandas Series (a numpy array) with the default index 0..n-1, which is
    the list of its values. *)
Inductive val : Type :=
| Scalar (x : float)
| Series (xs : list float).

(** Two Series are combined label by label; a label that only one side has
    is filled with NaN on the other before the operation. *)
Fixpoint align (op : float → float → float) (xs ys : list float) : list float :=
  match xs, ys with
  | x :: xs', y :: ys' => op x y :: align op xs' ys'
  | [], _ => (λ y, op nan y) <$> ys
  | _, [] => (λ x, op x nan) <$> xs
  end.

(** Unary and binary element-wise operations, a scalar being broadcast. *)
Definition lift1 (f : float → float) (v : val) : val :=
  match v with
  | Scalar x => Scalar (f x)
  | Series xs => Series (f <$> xs)
  end.

Definition lift2 (op : float → float → float) (u v : val) : val :=
  match u, v with
  | Scalar x, Scalar y => Scalar (op x y)
  | Scalar x, Series ys => Series ((λ y, op x y) <$> ys)
  | Series xs, Scalar y => Series ((λ x, op x y) <$> xs)
  | Series xs, Series ys => Series (align op xs ys)
  end.

(** The value at label [i]. *)
Definition vget (v : val) (i : nat) : option float :=
  match v with
  | Scalar x => Some x
  | Series xs => xs !! i
  end.

(** [len(v)] and [v[i]] as Python evaluates them. *)
Definition vlen (v : val) : result nat :=
  match v with
  | Scalar _ => Raise (TypeError "object of type 'float' has no len()")
  | Series xs => Ok (length xs)
  end.

Definition vindex (v : val) (i : nat) : result float :=
  match v with
  | Scalar _ => Raise (TypeError "'float' object is not subscriptable")
  | Series xs =>
      match xs !! i with
      | Some x => Ok x
      | None => Raise (IndexKeyError i)
      end
  end.

(** A boolean mask, as a comparison of two values gives it. *)
Inductive mask : Type :=
| BScalar (b : bool)
| BSeries (bs : list bool).

Definition cmp (rel : float → float → bool) (u v : val) : mask :=
  match u, v with
  | Scalar x, Scalar y => BScalar (rel x y)
  | Scalar x, Series ys => BSeries ((λ y, rel x y) <$> ys)
  | Series xs, Scalar y => BSeries ((λ x, rel x y) <$> xs)
  | Series xs, Series ys => BSeries (zip_with rel xs ys)
  end.

Definition mget (m : mask) (i : nat) : option bool :=
  match m with
  | BScalar b => Some b
  | BSeries bs => bs !! i
  end.

(** Whether the mask selects row [i]; a row the mask does not have is not
    selected. *)
Definition selects (m : mask) (i : nat) : bool := default false (mget m i).

(** [frame.loc[m, column] = v] on a column of the frame: the rows the mask
    selects take [v], the others keep what they had. *)
Definition loc_set {A} (m : mask) (v : A) (col : list A) : list A :=
  imap (λ i c, if selects m i then v else c) col.

(** [frame[column] = v] on a frame of [n] rows: a scalar fills the column, a
    Series is laid on the frame's index, NaN where it has no value. *)
Definition as_column (n : nat) (v : val) : list float :=
  (λ i, default nan (vget v i)) <$> seq 0 n.

Definition full {A} (n : nat) (x : A) : list A := replicate n x.

End NP.
Import NP.

Declare Scope val_scope.
Delimit Scope val_scope with val.
Bind Scope val_scope with val.
Notation "# x" := (Scalar x%float) (at level 5, format "# x") : val_scope.
Infix "+" := (lift2 PrimFloat.add) : val_scope.
Infix "-" := (lift2 PrimFloat.sub) : val_scope.
Infix "*" := (lift2 PrimFloat.mul) : val_scope.
Infix "/" := (lift2 PrimFloat.div) : val_scope.
Notation "- x" := (lift1 PrimFloat.opp x) : val_scope.

(** Python's [x > y] on floats. *)
Definition gtb (x y : float) : bool := (y <? x)%float.
Infix ">?" := gtb (at level 70, no associativity) : float_scope.
Infix "<?" := (cmp PrimFloat.ltb) (at level 70, no associativity) : val_scope.
Infix ">?" := (cmp gtb) (at level 70, no associativity) : val_scope.

(* ===================================================================== *)
(** ** The selection loop of the P_Ridolfi2021 branch (lines 350-390) *)
(* ===================================================================== *)

Module Selection.

Local Open Scope float_scope.

(** The two arrays the loop fills: [P_MPa] and [name]. *)
Definition arrays : Type := list float * list string.

(** [P_MPa[i] = p; name[i] = label]. *)
Definition store (i : nat) (p : float) (label : string) (st : arrays) : arrays :=
  (<[i := p]> st.1, <[i := label]> st.2).

(** The body of [for i in range(0, len(P_MPa_1a))].  A Series is read at [i]
    where the chain first needs it, so that a missing label raises only on
    the path that reads it. *)
Definition loop_body
    (P_MPa_1a P_MPa_1b P_MPa_1c P_MPa_1d P_MPa_1e XPae deltaPdb Sum_input : val)
    (i : nat) (st : arrays) : result arrays :=
  b ← vindex P_MPa_1b i;
  st' ← (if b <? 335 then Ok (store i b "1b" st)
         else if b <? 399 then
           c ← vindex P_MPa_1c i; Ok (store i ((b + c) / 2) "(1b+1c)/2" st)
         else
           c ← vindex P_MPa_1c i;
           if c <? 415 then Ok (store i c "1c" st)
           else
             d ← vindex P_MPa_1d i;
             if d <? 470 then Ok (store i c "1c" st)
             else
               x ← vindex XPae i;
               if x >? 0.22 then Ok (store i ((c + d) / 2) "1c+1d" st)
               else
                 dl ← vindex deltaPdb i;
                 if dl >? 350 then
                   e ← vindex P_MPa_1e i; Ok (store i e "1e" st)
                 else if dl >? 210 then Ok (store i d "1d" st)
                 else if dl <? 75 then Ok (store i c "1c" st)
                 else if x <? -0.2 then
                   Ok (store i ((b + c) / 2) "(1b+1c)/2" st)
                 else if x >? 0.05 then
                   Ok (store i ((c + d) / 2) "(1c+1d)/2" st)
                 else
                   a ← vindex P_MPa_1a i; Ok (store i a "1a" st));
  s ← vindex Sum_input i;
  Ok (if s <? 90 then (<[i := nan]> st'.1, st'.2) else st').

(** Lines 350-390: [XPae], [deltaPdb], the two [np.empty] arrays, whose
    contents are whatever [empty_float] and [empty_str] say, and the loop. *)
Definition selection_loop (empty_float : nat → float) (empty_str : nat → string)
    (P_MPa_1a P_MPa_1b P_MPa_1c P_MPa_1d P_MPa_1e Sum_input : val)
  : result arrays :=
  let XPae := ((P_MPa_1a - P_MPa_1e) / P_MPa_1a)%val in
  let deltaPdb := (P_MPa_1d - P_MPa_1b)%val in
  n ← vlen P_MPa_1a;
  let P_MPa := empty_float <$> seq 0 n in
  let name := empty_str <$> seq 0 n in
  for_each (seq 0 n)
    (loop_body P_MPa_1a P_MPa_1b P_MPa_1c P_MPa_1d P_MPa_1e XPae deltaPdb
       Sum_input)
    (P_MPa, name).

(** What one pass stores when every Series has a value at [i]: the pressure
    and the label of the [if]/[elif] chain. *)
Definition select (a b c d e : float) : float * string :=
  let xpae := (a - e) / a in
  let deltapdb := d - b in
  if b <? 335 then (b, "1b")
  else if b <? 399 then ((b + c) / 2, "(1b+1c)/2")
  else if c <? 415 then (c, "1c")
  else if d <? 470 then (c, "1c")
  else if xpae >? 0.22 then ((c + d) / 2, "1c+1d")
  else if deltapdb >? 350 then (e, "1e")
  else if deltapdb >? 210 then (d, "1d")
  else if deltapdb <? 75 then (c, "1c")
  else if xpae <? -0.2 then ((b + c) / 2, "(1b+1c)/2")
  else if xpae >? 0.05 then ((c + d) / 2, "(1c+1d)/2")
  else (a, "1a").

End Selection.

(* ===================================================================== *)
(** ** What the module takes from numpy, pandas and Thermobar.core *)
(* ===================================================================== *)

(** A Python dict with strings for keys, and the columns of a DataFrame:
    the entries in the order they were inserted, no key twice. *)
Definition dict (A : Type) : Type := list (string * A).

Fixpoint dict_get {A} (key : string) (d : dict A) : option A :=
  match d with
  | [] => None
  | (k, v) :: d' => if String.eqb k key then Some v else dict_get key d'
  end.

(** [d[key] = v]: an entry that exists keeps its place, a new one goes to
    the end. *)
Fixpoint dict_set {A} (key : string) (v : A) (d : dict A) : dict A :=
  match d with
  | [] => [(key, v)]
  | (k, v') :: d' =>
      if String.eqb k key then (k, v) :: d' else (k, v') :: dict_set key v d'
  end.

Definition dict_del {A} (key : string) (d : dict A) : dict A :=
  filter (λ kv, kv.1 ≠ key) d.

(** A DataFrame of numeric columns over the default index: [len(df)] rows and
    the columns by name, in their order. *)
Record DataFrame : Type := {
  df_len : nat;
  df_cols : dict (list float) }.

(** [df[name]]: the column as a Series over the frame's index, [KeyError] when
    the frame has no such column. *)
Definition col (df : DataFrame) (name : string) : result val :=
  match dict_get name (df_cols df) with
  | Some xs => Ok (Series (as_column (df_len df) (Series xs)))
  | None => Raise (KeyError name)
  end.

(** [name in df]. *)
Definition has_col (df : DataFrame) (name : string) : bool :=
  bool_decide (is_Some (dict_get name (df_cols df))).

(** [df[name] = v]. *)
Definition set_col (df : DataFrame) (name : string) (v : val) : DataFrame :=
  {| df_len := df_len df;
     df_cols := dict_set name (as_column (df_len df) v) (df_cols df) |}.

(** [df.drop([name], axis='columns')]: [KeyError] when the column is absent. *)
Definition drop_col (df : DataFrame) (name : string) : result DataFrame :=
  if has_col df name
  then Ok {| df_len := df_len df; df_cols := dict_del name (df_cols df) |}
  else Raise (KeyError name).

(** [df.insert(0, name, v)]: the new column comes first; [ValueError] when
    the column already exists. *)
Definition insert_col (df : DataFrame) (name : string) (v : val)
  : result DataFrame :=
  if has_col df name
  then Raise (ValueError ("cannot insert " +:+ name +:+ ", already exists"))
  else Ok {| df_len := df_len df;
             df_cols := (name, as_column (df_len df) v) :: df_cols df |}.

(** The functions the module calls and does not define: numpy's element-wise
    functions, the contents of a fresh [np.empty] array, pandas' row sums, and
    the normalisation routines of [Thermobar.core], each of which may raise. *)
Record Env : Type := {
  np_exp : float → float;
  np_log : float → float;
  np_power : float → float → float;
  np_empty_float : nat → float;
  np_empty_str : nat → string;
  sum_columns : DataFrame → val;
  calculate_13cations_amphibole_ridolfi : option DataFrame → result DataFrame;
  calculate_23oxygens_amphibole : option DataFrame → result DataFrame;
  get_amp_sites_mutch : DataFrame → result DataFrame;
  amp_components_ferric_ferrous_mutch : DataFrame → DataFrame → result DataFrame;
  get_amp_sites_ferric_ferrous_mutch : DataFrame → result DataFrame }.

(* ===================================================================== *)
(** ** Python functions with a signature, and functools.partial *)
(* ===================================================================== *)

(** A function [def f(T=None, *, k1, ..., kn)] or [def f(T, *, k1, ..., kn)]:
    what [inspect.signature] shows of it and its body.  The body receives the
    positional argument ([None] for Python's [None]) and the keywords. *)
Record pyfunc : Type := {
  func_name : string;
  pos_name : string;
  pos_default_is_None : bool;
  kwonly : list string;
  body : option val → dict val → result val }.

(** A keyword-only parameter the call does not give is a [TypeError]. *)
Definition arg (kw : dict val) (name : string) : result val :=
  match dict_get name kw with
  | Some v => Ok v
  | None =>
      Raise (TypeError ("missing 1 required keyword-only argument: '"
                        +:+ name +:+ "'"))
  end.

(** The call [f(x, **kw)] ([pos = Some x]) and the call with the keywords
    alone ([pos = None]). *)
Definition call (f : pyfunc) (pos : option val) (kw : dict val)
  : result val :=
  match pos with
  | None =>
      if pos_default_is_None f then body f None kw
      else Raise (TypeError ("missing 1 required positional argument: '"
                             +:+ pos_name f +:+ "'"))
  | Some x => body f (Some x) kw
  end.

(** [functools.partial(func, **keywords)], and its call with one positional
    argument. *)
Record partial : Type := {
  p_func : pyfunc;
  p_keywords : dict val }.

Definition call_partial (p : partial) (x : val) : result val :=
  call (p_func p) (Some x) (p_keywords p).

(** [{name: table[name] for name, p in signature(f).parameters.items()
     if p.kind == KEYWORD_ONLY}], built in the order of the signature. *)
Fixpoint kwargs_from (table : DataFrame) (names : list string)
  : result (dict val) :=
  match names with
  | [] => Ok []
  | name :: names' =>
      v ← col table name;
      kw ← kwargs_from table names';
      Ok ((name, v) :: kw)
  end.

(* ===================================================================== *)
(** ** The input checks of the Ridolfi branch (lines 395-502) *)
(* ===================================================================== *)

(** [Calcs_R]: the copy of [cat13] and the columns the branch adds to it,
    each a column of [len(cat13)] rows. *)
Module Calcs.
Record t : Type := {
  cat13_columns : DataFrame;
  P_kbar_calc : list float;
  Input_Check : list bool;
  Fail_Msg : list string;
  equation : list string;
  H2O_calc : list float;
  Fe2O3_calc : list float;
  FeO_calc : list float;
  Total_recalc : list float;
  Sum_input : list float;
  Charge : list float;
  APE : list float;
  Fe3_calc : list float;
  Fe2_calc : list float;
  O_F_Cl : list float;
  Total : list float;
  Mgno_Fe2 : list float;
  Na_calc : list float;
  B_Sum : list float }.
End Calcs.

(** [frame.loc[m, column] = v] with a Series [v]: the selected rows take the
    value [v] has at their label. *)
Definition loc_assign (m : mask) (v : val) (column : list float) : list float :=
  imap (λ i c, if selects m i then default nan (vget v i) else c) column.

(** [column == False] on a column of booleans. *)
Definition is_False (column : list bool) : mask := BSeries (negb <$> column).

(** Lines 395-502, from [Calcs_R=cat13.copy()] to the reordering of the
    columns; [P_MPa] and [name] are the arrays the loop filled.  A column of
    [cat13] or [amp_comps] is read where the source first reads it. *)
Definition input_checks (cat13 amp_comps : DataFrame)
    (Sum_input P_MPa_1a : val) (P_MPa : list float) (name : list string)
  : result Calcs.t :=
  let n := df_len cat13 in
  let P_MPa := Series P_MPa in
  let P_kbar_calc := as_column n (P_MPa / #100) in
  let equation := name in
  let Sum_input_col := as_column n Sum_input in
  let Low_sum := (Sum_input <? #90)%val in
  F_Amp_13_cat ← col cat13 "F_Amp_13_cat";
  Cl_Amp_13_cat ← col cat13 "Cl_Amp_13_cat";
  cation_sum_Si_Mg ← col cat13 "cation_sum_Si_Mg";
  let H2O_calc :=
    as_column n ((#2 - F_Amp_13_cat - Cl_Amp_13_cat) * cation_sum_Si_Mg
                 * #17 / #13 / #2) in
  let H2O_calc := loc_set Low_sum nan H2O_calc in
  SiO2_Amp_13_cat ← col cat13 "SiO2_Amp_13_cat";
  TiO2_Amp_13_cat ← col cat13 "TiO2_Amp_13_cat";
  Al2O3_Amp_13_cat ← col cat13 "Al2O3_Amp_13_cat";
  Cr2O3_Amp_13_cat ← col cat13 "Cr2O3_Amp_13_cat";
  FeOt_Amp_13_cat ← col cat13 "FeOt_Amp_13_cat";
  MnO_Amp_13_cat ← col cat13 "MnO_Amp_13_cat";
  MgO_Amp_13_cat ← col cat13 "MgO_Amp_13_cat";
  CaO_Amp_13_cat ← col cat13 "CaO_Amp_13_cat";
  Na2O_Amp_13_cat ← col cat13 "Na2O_Amp_13_cat";
  K2O_Amp_13_cat ← col cat13 "K2O_Amp_13_cat";
  let Charge :=
    as_column n (SiO2_Amp_13_cat * #4 + TiO2_Amp_13_cat * #4
                 + Al2O3_Amp_13_cat * #3 + Cr2O3_Amp_13_cat * #3
                 + FeOt_Amp_13_cat * #2 + MnO_Amp_13_cat * #2
                 + MgO_Amp_13_cat * #2 + CaO_Amp_13_cat * #2
                 + Na2O_Amp_13_cat + K2O_Amp_13_cat) in
  (* Lines 408-411: APE, and the rows with APE > 60 marked in 'Input_Check'
     and 'Fail Msg'; lines 435-436 then assign both columns anew. *)
  let APE :=
    as_column n (lift1 abs (P_MPa_1a - P_MPa) / (P_MPa_1a + P_MPa) * #200) in
  let Fe3_calc := as_column n (#46 - Series Charge) in
  let High_Charge := (Series Charge >? #46)%val in
  let Fe3_calc := loc_set High_Charge 0%float Fe3_calc in
  let Fe2_calc := as_column n (FeOt_Amp_13_cat - Series Fe3_calc) in
  let Fe2O3_calc :=
    as_column n (Series Fe3_calc * cation_sum_Si_Mg * #159.691 / #13 / #2) in
  let Fe2O3_calc := loc_set Low_sum nan Fe2O3_calc in
  let FeO_calc :=
    as_column n (Series Fe2_calc * cation_sum_Si_Mg * #71.846 / #13) in
  let Fe2O3_calc := loc_set Low_sum nan Fe2O3_calc in
  F_Amp ← col amp_comps "F_Amp";
  Cl_Amp ← col amp_comps "Cl_Amp";
  let O_F_Cl :=
    as_column n (- (F_Amp * #0.421070639014633
                    + Cl_Amp * #0.225636758525372)) in
  let O_F_Cl := loc_set Low_sum nan O_F_Cl in
  FeOt_Amp ← col amp_comps "FeOt_Amp";
  let Total_recalc :=
    as_column n (Sum_input - FeOt_Amp + Series H2O_calc + Series Fe2O3_calc
                 + Series FeO_calc + Series O_F_Cl) in
  let Total := loc_set Low_sum nan (full n nan) in
  (* Set up a column for a fail message *)
  let Fail_Msg := full n "" in
  let Input_Check := full n true in
  (* Check that old total isn't <90 *)
  let Input_Check := loc_set Low_sum false Input_Check in
  let Fail_Msg := loc_set Low_sum "Cation oxide Total<90" Fail_Msg in
  (* First check, that new total is >98.5 *)
  let Low_total_Recalc := (Series Total_recalc <? #98.5)%val in
  let Input_Check := loc_set Low_total_Recalc false Input_Check in
  let Fail_Msg := loc_set Low_total_Recalc "Recalc Total<98.5" Fail_Msg in
  (* Next, check that new total isn't >102 *)
  let High_total_Recalc := (Series Total_recalc >? #102)%val in
  let Input_Check := loc_set High_total_Recalc false Input_Check in
  let Fail_Msg := loc_set High_total_Recalc "Recalc Total>102" Fail_Msg in
  (* Next, check that charge isn't >46.5 ("unbalanced") *)
  let Unbalanced_Charge := (Series Charge >? #46.5)%val in
  let Input_Check := loc_set Unbalanced_Charge false Input_Check in
  let Fail_Msg :=
    loc_set Unbalanced_Charge "unbalanced charge (>46.5)" Fail_Msg in
  (* Next check that Fe2+ is greater than 0, else unbalanced *)
  let Negative_Fe2 := (Series Fe2_calc <? #0)%val in
  let Input_Check := loc_set Negative_Fe2 false Input_Check in
  let Fail_Msg := loc_set Negative_Fe2 "unbalanced charge (Fe2<0)" Fail_Msg in
  (* Check that Mg# calculated using just Fe2 is >54, else low Mg *)
  let Mgno_Fe2 :=
    as_column n (MgO_Amp_13_cat / (MgO_Amp_13_cat + Series Fe2_calc)) in
  let Low_Mgno := (#100 * Series Mgno_Fe2 <? #54)%val in
  let Input_Check := loc_set Low_Mgno false Input_Check in
  let Fail_Msg := loc_set Low_Mgno "Low Mg# (<54)" Fail_Msg in
  (* If Column CU<1.5,"low Ca" *)
  let Ca_low := (CaO_Amp_13_cat <? #1.5)%val in
  let Input_Check := loc_set Ca_low false Input_Check in
  let Fail_Msg := loc_set Ca_low "Low Ca (<1.5)" Fail_Msg in
  (* If Column CU>2.05, "high Ca" *)
  let Ca_high := (CaO_Amp_13_cat >? #2.05)%val in
  let Input_Check := loc_set Ca_high false Input_Check in
  let Fail_Msg := loc_set Ca_high "High Ca (>2.05)" Fail_Msg in
  (* Check that CW<1.99, else "Low B cations" *)
  let Na_calc := as_column n (#2 - CaO_Amp_13_cat) in
  let Ca_greaterthanNa := (Na2O_Amp_13_cat <? #2 - CaO_Amp_13_cat)%val in
  let Na_calc := loc_assign Ca_greaterthanNa Na2O_Amp_13_cat Na_calc in
  let B_Sum := as_column n (Series Na_calc + CaO_Amp_13_cat) in
  let Low_B_Cations := (Series B_Sum <? #1.99)%val in
  let Input_Check := loc_set Low_B_Cations false Input_Check in
  let Fail_Msg := loc_set Low_B_Cations "Low B Cations" Fail_Msg in
  (* P_MPa *)
  let Failed_input := is_False Input_Check in
  let P_kbar_calc := loc_set Failed_input nan P_kbar_calc in
  Ok {| Calcs.cat13_columns := cat13;
        Calcs.P_kbar_calc := P_kbar_calc;
        Calcs.Input_Check := Input_Check;
        Calcs.Fail_Msg := Fail_Msg;
        Calcs.equation := equation;
        Calcs.H2O_calc := H2O_calc;
        Calcs.Fe2O3_calc := Fe2O3_calc;
        Calcs.FeO_calc := FeO_calc;
        Calcs.Total_recalc := Total_recalc;
        Calcs.Sum_input := Sum_input_col;
        Calcs.Charge := Charge;
        Calcs.APE := APE;
        Calcs.Fe3_calc := Fe3_calc;
        Calcs.Fe2_calc := Fe2_calc;
        Calcs.O_F_Cl := O_F_Cl;
        Calcs.Total := Total;
        Calcs.Mgno_Fe2 := Mgno_Fe2;
        Calcs.Na_calc := Na_calc;
        Calcs.B_Sum := B_Sum |}.

(* ===================================================================== *)
(** ** Calls with effects: output, warnings, the caller's DataFrame *)
(* ===================================================================== *)

(** The outcome of a call on the DataFrame object passed as [amp_comps]
    ([None] for Python's [None]): what it returned or raised, the object
    after the call, which the pressure dispatcher writes to, and the lines it
    printed and the warnings it issued, in order. *)
Record outcome (A : Type) : Type := Outcome {
  returned : result A;
  amp_comps : option DataFrame;
  stdout : list string;
  warnings : list string }.
Arguments Outcome {A} _ _ _ _.
Arguments returned {A} _.
Arguments amp_comps {A} _.
Arguments stdout {A} _.
Arguments warnings {A} _.

(** A call that follows the printing of [lines] and the issuing of
    [messages]. *)
Definition after {A} (lines messages : list string) (o : outcome A)
  : outcome A :=
  Outcome (returned o) (amp_comps o) (lines ++ stdout o)
    (messages ++ warnings o).

Definition M (A : Type) : Type := option DataFrame → outcome A.

#[export] Instance M_ret : MRet M := λ A a t, Outcome (Ok a) t [] [].
#[export] Instance M_bind : MBind M := λ A B k m t,
  match m t with
  | Outcome (Ok a) t' lines messages => after lines messages (k a t')
  | Outcome (Raise e) t' lines messages => Outcome (Raise e) t' lines messages
  end.

Definition raise {A} (e : exn) : M A := λ t, Outcome (Raise e) t [] [].

Definition lift {A} (r : result A) : M A := λ t, Outcome r t [] [].

Definition print (line : string) : M unit := λ t, Outcome (Ok ()) t [line] [].

Definition warn (message : string) : M unit := λ t,
  Outcome (Ok ()) t [] [message].

(** The object behind the name [amp_comps], and a write to it. *)
Definition the_amp_comps : M (option DataFrame) := λ t, Outcome (Ok t) t [] [].

Definition write_amp_comps (df : DataFrame) : M unit := λ _,
  Outcome (Ok ()) (Some df) [] [].

(** [amp_comps[...]], [name in amp_comps] and [amp_comps.drop(...)] need a
    DataFrame: on [None] they raise [on_None]. *)
Definition the_frame (on_None : exn) : M DataFrame :=
  o ← the_amp_comps;
  match o with
  | Some df => mret df
  | None => raise on_None
  end.

Definition not_subscriptable : exn :=
  TypeError "'NoneType' object is not subscriptable".
Definition not_iterable : exn :=
  TypeError "argument of type 'NoneType' is not iterable".
Definition no_drop : exn := AttributeError "drop".

(** The argument [T] (or [P]) of a dispatcher: [None], a string, or a
    number, which is a scalar or a Series. *)
Inductive pyarg : Type :=
| PyNone
| PyStr (s : string)
| PyNum (v : val).

(** What the dispatchers and the solver return. *)
Inductive pyobj : Type :=
| Num (v : val)
| Partial (p : partial)
| KrawFrame (PH2O_kbar_calc Mgno_Amp : val)
| Frame (df : DataFrame)
| CalcsFrame (Calcs_R : Calcs.t)
| PTFrame (P_kbar_calc T_K_calc : val).

(** The double quote, for the messages that quote [Solve]. *)
Definition dquote : string :=
  String (Ascii.Ascii false true false false false true false false) EmptyString.

(** [isinstance(x, pd.Series)] on an argument. *)
Definition series_of (x : pyarg) : option (list float) :=
  match x with
  | PyNum (Series xs) => Some xs
  | _ => None
  end.

(** ['Ridolfi2012' in equationP]. *)
Definition contains (needle s : string) : bool :=
  bool_decide (is_Some (String.index 0 needle s)).

(** The index of a frame of [n] rows, as a column. *)
Definition index_column (n : nat) : val :=
  Series ((λ i, of_uint63 (Uint63.of_Z (Z.of_nat i))) <$> seq 0 n).

(* ===================================================================== *)
(** ** The equations (lines 15-145 and 640-679, 731-740) *)
(* ===================================================================== *)

(** A body that computes with its positional argument needs a number there:
    arithmetic on Python's [None] is a [TypeError]. *)
Definition number (name : string) (x : option val) : result val :=
  match x with
  | Some v => Ok v
  | None =>
      Raise (TypeError ("unsupported operand type(s): '" +:+ name
                        +:+ "' is None"))
  end.

Section Amphibole.

Context (env : Env).

Local Open Scope val_scope.
Local Abbreviation exp := (lift1 (np_exp env)).
Local Abbreviation log := (lift1 (np_log env)).
Local Abbreviation pow := (lift2 (np_power env)).

(** Amphibole-only barometer (PH2O) from Krawczynski et al. (2012) *)
Definition P_Kraw2012 : pyfunc := {|
  func_name := "P_Kraw2012"; pos_name := "T";
  pos_default_is_None := true;
  kwonly := ["Mgno_Amp"; "deltaNNO"];
  body := λ T kw,
    Mgno_Amp ← arg kw "Mgno_Amp";
    deltaNNO ← arg kw "deltaNNO";
    Ok (#0.01 * pow (Mgno_Amp / #52.7 - #0.014 * deltaNNO) #15.12) |}.

(** Amphibole-only barometer: Equation 1a of Ridolfi and Renzulli (2012).
    Calibrated between 1.3-22 kbars *)
Definition P_Ridolfi2012_1a : pyfunc := {|
  func_name := "P_Ridolfi2012_1a"; pos_name := "T";
  pos_default_is_None := true;
  kwonly := ["SiO2_Amp_13_cat"; "TiO2_Amp_13_cat"; "FeOt_Amp_13_cat";
             "MgO_Amp_13_cat"; "CaO_Amp_13_cat"; "K2O_Amp_13_cat";
             "Na2O_Amp_13_cat"; "Al2O3_Amp_13_cat"];
  body := λ T kw,
    SiO2_Amp_13_cat ← arg kw "SiO2_Amp_13_cat";
    TiO2_Amp_13_cat ← arg kw "TiO2_Amp_13_cat";
    FeOt_Amp_13_cat ← arg kw "FeOt_Amp_13_cat";
    MgO_Amp_13_cat ← arg kw "MgO_Amp_13_cat";
    CaO_Amp_13_cat ← arg kw "CaO_Amp_13_cat";
    K2O_Amp_13_cat ← arg kw "K2O_Amp_13_cat";
    Na2O_Amp_13_cat ← arg kw "Na2O_Amp_13_cat";
    Al2O3_Amp_13_cat ← arg kw "Al2O3_Amp_13_cat";
    Ok (#0.01 * exp (#125.9332115 - #9.587571403 * SiO2_Amp_13_cat -
        #10.11615567 * TiO2_Amp_13_cat - #8.173455128 * Al2O3_Amp_13_cat -
        #9.226076274 * FeOt_Amp_13_cat - #8.793390507 * MgO_Amp_13_cat -
        #1.6658613 * CaO_Amp_13_cat + #2.48347198 * Na2O_Amp_13_cat +
        #2.519184959 * K2O_Amp_13_cat)) |}.

(** Amphibole-only barometer: Equation 1b of Ridolfi and Renzulli (2012).
    Calibrated between 1.3-5 kbars *)
Definition P_Ridolfi2012_1b : pyfunc := {|
  func_name := "P_Ridolfi2012_1b"; pos_name := "T";
  pos_default_is_None := true;
  kwonly := ["SiO2_Amp_13_cat"; "TiO2_Amp_13_cat"; "FeOt_Amp_13_cat";
             "MgO_Amp_13_cat"; "CaO_Amp_13_cat"; "K2O_Amp_13_cat";
             "Na2O_Amp_13_cat"; "Al2O3_Amp_13_cat"];
  body := λ T kw,
    SiO2_Amp_13_cat ← arg kw "SiO2_Amp_13_cat";
    TiO2_Amp_13_cat ← arg kw "TiO2_Amp_13_cat";
    FeOt_Amp_13_cat ← arg kw "FeOt_Amp_13_cat";
    MgO_Amp_13_cat ← arg kw "MgO_Amp_13_cat";
    CaO_Amp_13_cat ← arg kw "CaO_Amp_13_cat";
    K2O_Amp_13_cat ← arg kw "K2O_Amp_13_cat";
    Na2O_Amp_13_cat ← arg kw "Na2O_Amp_13_cat";
    Al2O3_Amp_13_cat ← arg kw "Al2O3_Amp_13_cat";
    Ok (#0.01 * exp (#38.722545085 - #2.695663047 * SiO2_Amp_13_cat -
        #2.35647038717941 * TiO2_Amp_13_cat - #1.30063975020919 *
        Al2O3_Amp_13_cat - #2.7779767369382 * FeOt_Amp_13_cat -
        #2.48384821395444 * MgO_Amp_13_cat - #0.661386638563983 *
        CaO_Amp_13_cat - #0.270530207793162 * Na2O_Amp_13_cat +
        #0.111696322092308 * K2O_Amp_13_cat)) |}.

(** Amphibole-only barometer: Equation 1c of Ridolfi and Renzulli (2012).
    Calibrated between 1.3-5 kbars *)
Definition P_Ridolfi2012_1c : pyfunc := {|
  func_name := "P_Ridolfi2012_1c"; pos_name := "T";
  pos_default_is_None := true;
  kwonly := ["SiO2_Amp_13_cat"; "TiO2_Amp_13_cat"; "FeOt_Amp_13_cat";
             "MgO_Amp_13_cat"; "CaO_Amp_13_cat"; "K2O_Amp_13_cat";
             "Na2O_Amp_13_cat"; "Al2O3_Amp_13_cat"];
  body := λ T kw,
    SiO2_Amp_13_cat ← arg kw "SiO2_Amp_13_cat";
    TiO2_Amp_13_cat ← arg kw "TiO2_Amp_13_cat";
    FeOt_Amp_13_cat ← arg kw "FeOt_Amp_13_cat";
    MgO_Amp_13_cat ← arg kw "MgO_Amp_13_cat";
    CaO_Amp_13_cat ← arg kw "CaO_Amp_13_cat";
    K2O_Amp_13_cat ← arg kw "K2O_Amp_13_cat";
    Na2O_Amp_13_cat ← arg kw "Na2O_Amp_13_cat";
    Al2O3_Amp_13_cat ← arg kw "Al2O3_Amp_13_cat";
    Ok (#0.01 * (#24023.367332 - #1925.298250 * SiO2_Amp_13_cat -
        #1720.63250944418 * TiO2_Amp_13_cat - #1478.53847391822 *
        Al2O3_Amp_13_cat - #1843.19249824537 * FeOt_Amp_13_cat -
        #1746.94437497404 * MgO_Amp_13_cat - #158.279055907371 *
        CaO_Amp_13_cat - #40.4443246813322 * Na2O_Amp_13_cat +
        #253.51576430265 * K2O_Amp_13_cat)) |}.

(** Amphibole-only barometer: Equation 1d of Ridolfi and Renzulli (2012). .
    Calibrated between 4-15 kbars *)
Definition P_Ridolfi2012_1d : pyfunc := {|
  func_name := "P_Ridolfi2012_1d"; pos_name := "T";
  pos_default_is_None := true;
  kwonly := ["SiO2_Amp_13_cat"; "TiO2_Amp_13_cat"; "FeOt_Amp_13_cat";
             "MgO_Amp_13_cat"; "CaO_Amp_13_cat"; "K2O_Amp_13_cat";
             "Na2O_Amp_13_cat"; "Al2O3_Amp_13_cat"];
  body := λ T kw,
    SiO2_Amp_13_cat ← arg kw "SiO2_Amp_13_cat";
    TiO2_Amp_13_cat ← arg kw "TiO2_Amp_13_cat";
    FeOt_Amp_13_cat ← arg kw "FeOt_Amp_13_cat";
    MgO_Amp_13_cat ← arg kw "MgO_Amp_13_cat";
    CaO_Amp_13_cat ← arg kw "CaO_Amp_13_cat";
    K2O_Amp_13_cat ← arg kw "K2O_Amp_13_cat";
    Na2O_Amp_13_cat ← arg kw "Na2O_Amp_13_cat";
    Al2O3_Amp_13_cat ← arg kw "Al2O3_Amp_13_cat";
    Ok (#0.01 * (#26105.7092067 - #1991.93398583468 * SiO2_Amp_13_cat -
        #3034.9724955129 * TiO2_Amp_13_cat - #1472.2242262718 *
        Al2O3_Amp_13_cat - #2454.76485311127 * FeOt_Amp_13_cat -
        #2125.79095875747 * MgO_Amp_13_cat - #830.644984403603 *
        CaO_Amp_13_cat + #2708.82902160291 * Na2O_Amp_13_cat +
        #2204.10480275638 * K2O_Amp_13_cat)) |}.

(** Amphibole-only barometer: Equation 1e of Ridolfi and Renzulli (2012).
    Calibrated between 930-2200 kbars *)
Definition P_Ridolfi2012_1e : pyfunc := {|
  func_name := "P_Ridolfi2012_1e"; pos_name := "T";
  pos_default_is_None := true;
  kwonly := ["SiO2_Amp_13_cat"; "TiO2_Amp_13_cat"; "FeOt_Amp_13_cat";
             "MgO_Amp_13_cat"; "CaO_Amp_13_cat"; "K2O_Amp_13_cat";
             "Na2O_Amp_13_cat"; "Al2O3_Amp_13_cat"];
  body := λ T kw,
    SiO2_Amp_13_cat ← arg kw "SiO2_Amp_13_cat";
    TiO2_Amp_13_cat ← arg kw "TiO2_Amp_13_cat";
    FeOt_Amp_13_cat ← arg kw "FeOt_Amp_13_cat";
    MgO_Amp_13_cat ← arg kw "MgO_Amp_13_cat";
    CaO_Amp_13_cat ← arg kw "CaO_Amp_13_cat";
    K2O_Amp_13_cat ← arg kw "K2O_Amp_13_cat";
    Na2O_Amp_13_cat ← arg kw "Na2O_Amp_13_cat";
    Al2O3_Amp_13_cat ← arg kw "Al2O3_Amp_13_cat";
    Ok (#0.01 * exp (#26.5426319326957 - #1.20851740386237 * SiO2_Amp_13_cat -
        #3.85930939071001 * TiO2_Amp_13_cat - #1.10536070667051 *
        Al2O3_Amp_13_cat - #2.90677947035468 * FeOt_Amp_13_cat -
        #2.64825741548332 * MgO_Amp_13_cat + #0.513357584438019 *
        CaO_Amp_13_cat + #2.9751971464851 * Na2O_Amp_13_cat +
        #1.81467032749331 * K2O_Amp_13_cat)) |}.

(** Amphibole-only (Al) barometer: Ridolfi et al. (2010) *)
Definition P_Ridolfi2010 : pyfunc := {|
  func_name := "P_Ridolfi2010"; pos_name := "T";
  pos_default_is_None := true;
  kwonly := ["Al2O3_Amp_cat_23ox"; "cation_sum_Si_Ca"];
  body := λ T kw,
    Al2O3_Amp_cat_23ox ← arg kw "Al2O3_Amp_cat_23ox";
    cation_sum_Si_Ca ← arg kw "cation_sum_Si_Ca";
    Ok (#10 * (#19.209 * exp (#1.438 * Al2O3_Amp_cat_23ox * #13 /
        cation_sum_Si_Ca)) / #1000) |}.

(** Amphibole-only (Al) barometer: Hammerstrom and Zen, 1986 eq.1 *)
Definition P_Hammerstrom1986_eq1 : pyfunc := {|
  func_name := "P_Hammerstrom1986_eq1"; pos_name := "T";
  pos_default_is_None := true;
  kwonly := ["Al2O3_Amp_cat_23ox"];
  body := λ T kw,
    Al2O3_Amp_cat_23ox ← arg kw "Al2O3_Amp_cat_23ox";
    Ok (#(-3.92) + #5.03 * Al2O3_Amp_cat_23ox) |}.

(** Amphibole-only (Al) barometer: Hammerstrom and Zen, 1986 eq.2 *)
Definition P_Hammerstrom1986_eq2 : pyfunc := {|
  func_name := "P_Hammerstrom1986_eq2"; pos_name := "T";
  pos_default_is_None := true;
  kwonly := ["Al2O3_Amp_cat_23ox"];
  body := λ T kw,
    Al2O3_Amp_cat_23ox ← arg kw "Al2O3_Amp_cat_23ox";
    Ok (#1.27 * pow Al2O3_Amp_cat_23ox #2.01) |}.

(** Amphibole-only (Al) barometer: Hammerstrom and Zen, 1986 eq.3 *)
Definition P_Hammerstrom1986_eq3 : pyfunc := {|
  func_name := "P_Hammerstrom1986_eq3"; pos_name := "T";
  pos_default_is_None := true;
  kwonly := ["Al2O3_Amp_cat_23ox"];
  body := λ T kw,
    Al2O3_Amp_cat_23ox ← arg kw "Al2O3_Amp_cat_23ox";
    Ok (#0.26 * exp (#1.48 * Al2O3_Amp_cat_23ox)) |}.

(** Amphibole-only (Al) barometer: Hollister et al. 1987 *)
Definition P_Hollister1987 : pyfunc := {|
  func_name := "P_Hollister1987"; pos_name := "T";
  pos_default_is_None := true;
  kwonly := ["Al2O3_Amp_cat_23ox"];
  body := λ T kw,
    Al2O3_Amp_cat_23ox ← arg kw "Al2O3_Amp_cat_23ox";
    Ok (#(-4.76) + #5.64 * Al2O3_Amp_cat_23ox) |}.

(** Amphibole-only (Al) barometer: Johnson and Rutherford, 1989 *)
Definition P_Johnson1989 : pyfunc := {|
  func_name := "P_Johnson1989"; pos_name := "T";
  pos_default_is_None := true;
  kwonly := ["Al2O3_Amp_cat_23ox"];
  body := λ T kw,
    Al2O3_Amp_cat_23ox ← arg kw "Al2O3_Amp_cat_23ox";
    Ok (#(-3.46) + #4.23 * Al2O3_Amp_cat_23ox) |}.

(** Amphibole-only (Al) barometer: Anderson and Smith (1995) *)
Definition P_Anderson1995 : pyfunc := {|
  func_name := "P_Anderson1995"; pos_name := "T";
  pos_default_is_None := false;
  kwonly := ["Al2O3_Amp_cat_23ox"];
  body := λ T kw,
    Al2O3_Amp_cat_23ox ← arg kw "Al2O3_Amp_cat_23ox";
    T ← number "T" T;
    Ok (#4.76 * Al2O3_Amp_cat_23ox - #3.01 - (T - #273.15 - #675) / #85 *
        (#0.53 * Al2O3_Amp_cat_23ox + #0.005294 * (T - #273.15 - #675))) |}.

(** Amphibole-only (Al) barometer: Blundy et al. 1990 *)
Definition P_Blundy1990 : pyfunc := {|
  func_name := "P_Blundy1990"; pos_name := "T";
  pos_default_is_None := true;
  kwonly := ["Al2O3_Amp_cat_23ox"];
  body := λ T kw,
    Al2O3_Amp_cat_23ox ← arg kw "Al2O3_Amp_cat_23ox";
    Ok (#5.03 * Al2O3_Amp_cat_23ox - #3.53) |}.

(** Amphibole-only (Al) barometer: Schmidt 1992 *)
Definition P_Schmidt1992 : pyfunc := {|
  func_name := "P_Schmidt1992"; pos_name := "T";
  pos_default_is_None := true;
  kwonly := ["Al2O3_Amp_cat_23ox"];
  body := λ T kw,
    Al2O3_Amp_cat_23ox ← arg kw "Al2O3_Amp_cat_23ox";
    Ok (#(-3.01) + #4.76 * Al2O3_Amp_cat_23ox) |}.

(** Amphibole-only thermometer: Equation 5 of Putirka et al. (2016) *)
Definition T_Put2016_eq5 : pyfunc := {|
  func_name := "T_Put2016_eq5"; pos_name := "P";
  pos_default_is_None := true;
  kwonly := ["SiO2_Amp_cat_23ox"; "TiO2_Amp_cat_23ox"; "FeOt_Amp_cat_23ox";
             "Na2O_Amp_cat_23ox"];
  body := λ P kw,
    SiO2_Amp_cat_23ox ← arg kw "SiO2_Amp_cat_23ox";
    TiO2_Amp_cat_23ox ← arg kw "TiO2_Amp_cat_23ox";
    FeOt_Amp_cat_23ox ← arg kw "FeOt_Amp_cat_23ox";
    Na2O_Amp_cat_23ox ← arg kw "Na2O_Amp_cat_23ox";
    Ok (#273.15 + #1781 - #132.74 * SiO2_Amp_cat_23ox + #116.6 *
        TiO2_Amp_cat_23ox - #69.41 * FeOt_Amp_cat_23ox + #101.62 *
        Na2O_Amp_cat_23ox) |}.

(** Amphibole-only thermometer: Equation 6 of Putirka et al. (2016) *)
Definition T_Put2016_eq6 : pyfunc := {|
  func_name := "T_Put2016_eq6"; pos_name := "P";
  pos_default_is_None := false;
  kwonly := ["SiO2_Amp_cat_23ox"; "TiO2_Amp_cat_23ox"; "FeOt_Amp_cat_23ox";
             "Na2O_Amp_cat_23ox"];
  body := λ P kw,
    SiO2_Amp_cat_23ox ← arg kw "SiO2_Amp_cat_23ox";
    TiO2_Amp_cat_23ox ← arg kw "TiO2_Amp_cat_23ox";
    FeOt_Amp_cat_23ox ← arg kw "FeOt_Amp_cat_23ox";
    Na2O_Amp_cat_23ox ← arg kw "Na2O_Amp_cat_23ox";
    P ← number "P" P;
    Ok (#273.15 + #1687 - #118.7 * SiO2_Amp_cat_23ox + #131.56 *
        TiO2_Amp_cat_23ox - #71.41 * FeOt_Amp_cat_23ox + #86.13 *
        Na2O_Amp_cat_23ox + #22.44 * P / #10) |}.

(** Amphibole-only thermometer: Si in Hbl, Putirka et al. (2016) *)
Definition T_Put2016_SiHbl : pyfunc := {|
  func_name := "T_Put2016_SiHbl"; pos_name := "P";
  pos_default_is_None := true;
  kwonly := ["SiO2_Amp_cat_23ox"];
  body := λ P kw,
    SiO2_Amp_cat_23ox ← arg kw "SiO2_Amp_cat_23ox";
    Ok (#273.15 + #2061 - #178.4 * SiO2_Amp_cat_23ox) |}.

(** Amphibole-only thermometer of Ridolfi and Renzuli, 2012 *)
Definition T_Ridolfi2012 : pyfunc := {|
  func_name := "T_Ridolfi2012"; pos_name := "P";
  pos_default_is_None := false;
  kwonly := ["SiO2_Amp_13_cat"; "TiO2_Amp_13_cat"; "FeOt_Amp_13_cat";
             "MgO_Amp_13_cat"; "CaO_Amp_13_cat"; "K2O_Amp_13_cat";
             "Na2O_Amp_13_cat"; "Al2O3_Amp_13_cat"];
  body := λ P kw,
    SiO2_Amp_13_cat ← arg kw "SiO2_Amp_13_cat";
    TiO2_Amp_13_cat ← arg kw "TiO2_Amp_13_cat";
    FeOt_Amp_13_cat ← arg kw "FeOt_Amp_13_cat";
    MgO_Amp_13_cat ← arg kw "MgO_Amp_13_cat";
    CaO_Amp_13_cat ← arg kw "CaO_Amp_13_cat";
    K2O_Amp_13_cat ← arg kw "K2O_Amp_13_cat";
    Na2O_Amp_13_cat ← arg kw "Na2O_Amp_13_cat";
    Al2O3_Amp_13_cat ← arg kw "Al2O3_Amp_13_cat";
    P ← number "P" P;
    Ok (#273.15 + #8899.682 - #691.423 * SiO2_Amp_13_cat - #391.548 *
        TiO2_Amp_13_cat - #666.149 * Al2O3_Amp_13_cat - #636.484 *
        FeOt_Amp_13_cat - #584.021 * MgO_Amp_13_cat - #23.215 * CaO_Amp_13_cat
        + #79.971 * Na2O_Amp_13_cat - #104.134 * K2O_Amp_13_cat + #78.993 *
        log (P * #100)) |}.

(** Amphibole-only thermometer: Eq8, Putirka et al. (2016) *)
Definition T_Put2016_eq8 : pyfunc := {|
  func_name := "T_Put2016_eq8"; pos_name := "P";
  pos_default_is_None := false;
  kwonly := ["SiO2_Amp_cat_23ox"; "TiO2_Amp_cat_23ox"; "MgO_Amp_cat_23ox";
             "Na2O_Amp_cat_23ox"];
  body := λ P kw,
    SiO2_Amp_cat_23ox ← arg kw "SiO2_Amp_cat_23ox";
    TiO2_Amp_cat_23ox ← arg kw "TiO2_Amp_cat_23ox";
    MgO_Amp_cat_23ox ← arg kw "MgO_Amp_cat_23ox";
    Na2O_Amp_cat_23ox ← arg kw "Na2O_Amp_cat_23ox";
    P ← number "P" P;
    Ok (#273.15 + #1201.4 - #97.93 * SiO2_Amp_cat_23ox + #201.82 *
        TiO2_Amp_cat_23ox + #72.85 * MgO_Amp_cat_23ox + #88.9 *
        Na2O_Amp_cat_23ox + #40.65 * P / #10) |}.

(** Amphibole-Liquid thermometer Saturation surface of amphibole, Putirka et
    al. (2016) *)
Definition T_Put2016_eq4a_amp_sat : pyfunc := {|
  func_name := "T_Put2016_eq4a_amp_sat"; pos_name := "P";
  pos_default_is_None := true;
  kwonly := ["FeOt_Liq_mol_frac_hyd"; "TiO2_Liq_mol_frac_hyd";
             "Al2O3_Liq_mol_frac_hyd"; "MnO_Liq_mol_frac_hyd";
             "MgO_Liq_mol_frac_hyd"; "Na2O_Amp_cat_23ox";
             "Na2O_Liq_mol_frac_hyd"];
  body := λ P kw,
    FeOt_Liq_mol_frac_hyd ← arg kw "FeOt_Liq_mol_frac_hyd";
    TiO2_Liq_mol_frac_hyd ← arg kw "TiO2_Liq_mol_frac_hyd";
    Al2O3_Liq_mol_frac_hyd ← arg kw "Al2O3_Liq_mol_frac_hyd";
    MnO_Liq_mol_frac_hyd ← arg kw "MnO_Liq_mol_frac_hyd";
    MgO_Liq_mol_frac_hyd ← arg kw "MgO_Liq_mol_frac_hyd";
    Na2O_Amp_cat_23ox ← arg kw "Na2O_Amp_cat_23ox";
    Na2O_Liq_mol_frac_hyd ← arg kw "Na2O_Liq_mol_frac_hyd";
    Ok (#273.15 + #6383.4 / (#(-12.07) + #45.4 * Al2O3_Liq_mol_frac_hyd +
        #12.21 * FeOt_Liq_mol_frac_hyd - #0.415 * log TiO2_Liq_mol_frac_hyd -
        #3.555 * log Al2O3_Liq_mol_frac_hyd - #0.832 * log
        Na2O_Liq_mol_frac_hyd - #0.481 * log ((FeOt_Liq_mol_frac_hyd +
        MgO_Liq_mol_frac_hyd + MnO_Liq_mol_frac_hyd) * Al2O3_Liq_mol_frac_hyd)
        - #0.679 * log (Na2O_Amp_cat_23ox / Na2O_Liq_mol_frac_hyd))) |}.

(** The registries: the functions of each kind, and each by its
    [__name__]. *)
Definition by_name (fs : list pyfunc) : gmap string pyfunc :=
  list_to_map ((λ p, (func_name p, p)) <$> fs).

Definition Amp_only_P_funcs : list pyfunc :=
  [P_Ridolfi2012_1a; P_Ridolfi2012_1b; P_Ridolfi2012_1c; P_Ridolfi2012_1d;
   P_Ridolfi2012_1e; P_Ridolfi2010; P_Hammerstrom1986_eq1;
   P_Hammerstrom1986_eq2; P_Hammerstrom1986_eq3; P_Hollister1987;
   P_Johnson1989; P_Blundy1990; P_Schmidt1992; P_Anderson1995; P_Kraw2012].

Definition Amp_only_P_funcs_by_name : gmap string pyfunc :=
  by_name Amp_only_P_funcs.

Definition Amp_only_T_funcs : list pyfunc :=
  [T_Put2016_eq5; T_Put2016_eq6; T_Put2016_SiHbl; T_Put2016_eq8;
   T_Ridolfi2012; T_Put2016_eq4a_amp_sat].

Definition Amp_only_T_funcs_by_name : gmap string pyfunc :=
  by_name Amp_only_T_funcs.

(* ===================================================================== *)
(** ** The dispatchers and the coupled solver *)
(* ===================================================================== *)

(** The checks both dispatchers make on the equation and on the argument
    that stands for the other unknown (lines 277-293 and 799-815): the lookup
    in the registry, the signature's default, the length of a Series. *)
Definition lookup_and_check (registry : gmap string pyfunc)
    (equation : string) (X : pyarg) (needs advisory mismatch : string)
  : M pyfunc :=
  func ← match registry !! equation with
         | Some f => mret f
         | None => raise (ValueError (equation +:+ " is not a valid equation"))
         end;
  _ ← (if negb (pos_default_is_None func) then
         match X with
         | PyNone => raise (ValueError (equation +:+ needs))
         | _ => mret ()
         end
       else
         match X with
         | PyNone => mret ()
         | _ => print advisory
         end);
  o ← the_amp_comps;
  _ ← match series_of X, o with
      | Some xs, Some df =>
          if bool_decide (length xs ≠ df_len df)
          then raise (ValueError mismatch)
          else mret ()
      | _, _ => mret ()
      end;
  mret func.

Definition requires_T : string :=
  " requires you to enter T, or specify T=" +:+ dquote +:+ "Solve" +:+ dquote.
Definition requires_P : string :=
  " requires you to enter P, or specify P=" +:+ dquote +:+ "Solve" +:+ dquote.
Definition advisory_T : string := "Youve selected a T-independent function".
Definition advisory_P : string := "Youve selected a P-independent function".
Definition mismatch_T : string :=
  "The panda series entered for Temperature isnt the same length as the dataframe of amphibole compositions".
Definition mismatch_P : string :=
  "The panda series entered for Pressure isnt the same length as the dataframe of amphibole compositions".

(** The end of both dispatchers (lines 610-619 and 835-844): a partial
    function for [Solve], the value without or with the argument otherwise;
    another string leaves the local variable unbound. *)
Definition evaluate (result_name : string) (func : pyfunc)
    (kwargs : dict val) (X : pyarg) : M pyobj :=
  match X with
  | PyStr s =>
      if bool_decide (s = "Solve")
      then mret (Partial {| p_func := func; p_keywords := kwargs |})
      else raise (UnboundLocalError result_name)
  | PyNone => v ← lift (call func None kwargs); mret (Num v)
  | PyNum x => v ← lift (call func (Some x) kwargs); mret (Num v)
  end.

(** Lines 295-306. *)
Definition kraw_branch (deltaNNO : option val) : M pyobj :=
  _ ← warn "This barometer gives the PH2O for the first appearance of amphibole. It should only be applied to the highest Mg# in each sample suite. Note, if there is CO2 in the system P=/ PH2O";
  deltaNNO ← match deltaNNO with
             | Some v => mret v
             | None =>
                 raise (ValueError
                          "P_Kraw2012 requires you to enter a deltaNNO value")
             end;
  df ← the_frame not_subscriptable;
  MgO_Amp ← lift (col df "MgO_Amp");
  FeOt_Amp ← lift (col df "FeOt_Amp");
  let Mgno_Amp :=
    #100 * (MgO_Amp / #40.3044)
    / (MgO_Amp / #40.3044 + FeOt_Amp / #71.844) in
  P_kbar ← lift (call P_Kraw2012 None
                   [("Mgno_Amp", Mgno_Amp); ("deltaNNO", deltaNNO)]);
  mret (KrawFrame P_kbar Mgno_Amp).

(** Lines 312-321. *)
Definition mutch_branch : M pyobj :=
  df ← the_frame not_iterable;
  ox23 ← lift (calculate_23oxygens_amphibole env (Some df));
  Amp_sites_initial ← lift (get_amp_sites_mutch env ox23);
  norm_cat ← lift (amp_components_ferric_ferrous_mutch env Amp_sites_initial ox23);
  final_cat ← lift (get_amp_sites_ferric_ferrous_mutch env norm_cat);
  Al_T ← lift (col final_cat "Al_T");
  Al_C ← lift (col final_cat "Al_C");
  let final_cat := set_col final_cat "Al_tot" (Al_T + Al_C) in
  Al_tot ← lift (col final_cat "Al_tot");
  Al_tot' ← lift (col final_cat "Al_tot");
  let P_kbar :=
    #0.5 + #0.331 * Al_tot + #0.995 * lift2 (np_power env) Al_tot' #2 in
  final_cat ← lift (insert_col final_cat "P_kbar_calc" P_kbar);
  mret (Frame final_cat).

(** Lines 323-582: the five pressures of Ridolfi and Renzulli (2012), the
    selection when [equationP] is [P_Ridolfi2021], and the input checks.
    [P_MPa] and [name] are assigned by the selection only. *)
Definition ridolfi_branch (equationP : string) : M pyobj :=
  o ← the_amp_comps;
  cat13 ← lift (calculate_13cations_amphibole_ridolfi env o);
  df ← the_frame no_drop;
  myAmps1_label ← lift (drop_col df "Sample_ID_Amp");
  let Sum_input := sum_columns env myAmps1_label in
  kwargs_1a ← lift (kwargs_from cat13 (kwonly P_Ridolfi2012_1a));
  kwargs_1b ← lift (kwargs_from cat13 (kwonly P_Ridolfi2012_1b));
  kwargs_1c ← lift (kwargs_from cat13 (kwonly P_Ridolfi2012_1c));
  kwargs_1d ← lift (kwargs_from cat13 (kwonly P_Ridolfi2012_1d));
  kwargs_1e ← lift (kwargs_from cat13 (kwonly P_Ridolfi2012_1e));
  a ← lift (call P_Ridolfi2012_1a (Some #0) kwargs_1a);
  let P_MPa_1a := #100 * a in
  b ← lift (call P_Ridolfi2012_1b (Some #0) kwargs_1b);
  let P_MPa_1b := #100 * b in
  c ← lift (call P_Ridolfi2012_1c (Some #0) kwargs_1c);
  let P_MPa_1c := #100 * c in
  d ← lift (call P_Ridolfi2012_1d (Some #0) kwargs_1d);
  let P_MPa_1d := #100 * d in
  e ← lift (call P_Ridolfi2012_1e (Some #0) kwargs_1e);
  let P_MPa_1e := #100 * e in
  selected ← (if bool_decide (equationP = "P_Ridolfi2021") then
                st ← lift (Selection.selection_loop (np_empty_float env)
                             (np_empty_str env) P_MPa_1a P_MPa_1b P_MPa_1c
                             P_MPa_1d P_MPa_1e Sum_input);
                mret (Some st)
              else mret None);
  match selected with
  | None => raise (UnboundLocalError "P_MPa")
  | Some (P_MPa, name) =>
      Calcs_R ← lift (input_checks cat13 df Sum_input P_MPa_1a P_MPa name);
      mret (CalcsFrame Calcs_R)
  end.

(** [calculate_amp_only_press(amp_comps, equationP, T, deltaNNO)]. *)
Definition calculate_amp_only_press (equationP : string) (T : pyarg)
    (deltaNNO : option val) : M pyobj :=
  func ← (if bool_decide (equationP ≠ "P_Ridolfi2021")
             && bool_decide (equationP ≠ "P_Mutch2016")
          then
            f ← lookup_and_check Amp_only_P_funcs_by_name equationP T
                  requires_T advisory_T mismatch_T;
            mret (Some f)
          else mret None);
  if bool_decide (equationP = "P_Kraw2012") then kraw_branch deltaNNO
  else
    df ← the_frame not_iterable;
    _ ← (if negb (has_col df "Sample_ID_Amp")
         then write_amp_comps
                (set_col df "Sample_ID_Amp" (index_column (df_len df)))
         else mret ());
    if bool_decide (equationP = "P_Mutch2016") then mutch_branch
    else if contains "Ridolfi2012" equationP
            || bool_decide (equationP = "P_Ridolfi2021")
    then ridolfi_branch equationP
    else
      ox23_amp ← (if bool_decide (equationP ≠ "Mutch2016")
                     && negb (contains "Ridolfi2012" equationP)
                     && bool_decide (equationP ≠ "P_Ridolfi2021")
                  then
                    o ← the_amp_comps;
                    t ← lift (calculate_23oxygens_amphibole env o);
                    mret (Some t)
                  else mret None);
      func ← match func with
             | Some f => mret f
             | None => raise (UnboundLocalError "sig")
             end;
      ox23_amp ← match ox23_amp with
                 | Some t => mret t
                 | None => raise (UnboundLocalError "ox23_amp")
                 end;
      kwargs ← lift (kwargs_from ox23_amp (kwonly func));
      evaluate "P_kbar" func kwargs T.

(** [calculate_amp_only_temp(amp_comps, equationT, P)]. *)
Definition calculate_amp_only_temp (equationT : string) (P : pyarg) : M pyobj :=
  func ← lookup_and_check Amp_only_T_funcs_by_name equationT P
           requires_P advisory_P mismatch_P;
  kwargs ← (if bool_decide (equationT = "T_Ridolfi2012") then
              _ ← match P with
                  | PyNone =>
                      raise (Exception "You have selected a P-dependent thermometer, please enter an option for P")
                  | _ => mret ()
                  end;
              o ← the_amp_comps;
              cat13 ← lift (calculate_13cations_amphibole_ridolfi env o);
              df ← the_frame no_drop;
              myAmps1_label ← lift (drop_col df "Sample_ID_Amp");
              let Sum_input := sum_columns env myAmps1_label in
              lift (kwargs_from cat13 (kwonly T_Ridolfi2012))
            else
              o ← the_amp_comps;
              amp_comps' ← lift (calculate_23oxygens_amphibole env o);
              lift (kwargs_from amp_comps' (kwonly func)));
  evaluate "T_K" func kwargs P.

(** [x.P_kbar_calc] on what the pressure dispatcher returned. *)
Definition P_kbar_calc_of (x : pyobj) : result pyobj :=
  match x with
  | CalcsFrame Calcs_R => Ok (Num (Series (Calcs.P_kbar_calc Calcs_R)))
  | Frame df =>
      match col df "P_kbar_calc" with
      | Ok v => Ok (Num v)
      | Raise _ => Raise (AttributeError "P_kbar_calc")
      end
  | PTFrame P_kbar_calc _ => Ok (Num P_kbar_calc)
  | _ => Raise (AttributeError "P_kbar_calc")
  end.

(** The local variables [P_guess] (unbound at first) and [T_K_guess]. *)
Definition guesses : Type := option val * val.

(** One pass of [for _ in range(iterations)] (lines 925-926). *)
Definition iteration (P_func T_func : partial) (st : guesses) : result guesses :=
  P_guess ← call_partial P_func st.2;
  T_K_guess ← call_partial T_func P_guess;
  Ok (Some P_guess, T_K_guess).

(** [pd.DataFrame(data={'P_kbar_calc': P_guess, 'T_K_calc': T_K_guess})]:
    pandas refuses two scalars without an index. *)
Definition PT_out (st : guesses) : result pyobj :=
  match st with
  | (None, _) => Raise (UnboundLocalError "P_guess")
  | (Some (Scalar _), Scalar _) =>
      Raise (ValueError "If using all scalar values, you must pass an index")
  | (Some P_guess, T_K_guess) => Ok (PTFrame P_guess T_K_guess)
  end.

(** Lines 910-930 of [calculate_amp_only_press_temp], on what the two
    dispatchers returned: the four [isinstance] tests in turn, then the
    frame. *)
Definition solve (P_func T_func : pyobj) (iterations : nat) (T_K_guess : val)
  : result pyobj :=
  let st : guesses := (None, T_K_guess) in
  let st :=
    match T_func, P_func with
    | Num (Series t), Num (Series p) => (Some (Series p), Series t)
    | _, _ => st
    end in
  st ← match T_func, P_func with
       | Num (Series t), Partial p =>
           P_guess ← call_partial p (Series t); Ok (Some P_guess, Series t)
       | _, _ => Ok st
       end;
  st ← match P_func, T_func with
       | Num (Series p), Partial t =>
           T_K_guess ← call_partial t (Series p);
           Ok (Some (Series p), T_K_guess)
       | _, _ => Ok st
       end;
  st ← match P_func, T_func with
       | Partial p, Partial t =>
           for_each (seq 0 iterations) (λ _, iteration p t) st
       | _, _ => Ok st
       end;
  PT_out st.

(** [calculate_amp_only_press_temp(amp_comps, equationT, equationP,
    iterations, T_K_guess)] (lines 849-930). *)
Definition calculate_amp_only_press_temp (equationT equationP : string)
    (iterations : nat) (T_K_guess : val) : M pyobj :=
  T_func ← calculate_amp_only_temp equationT (PyStr "Solve");
  P_func ← (if bool_decide (equationP ≠ "P_Ridolfi2021")
               && bool_decide (equationP ≠ "P_Mutch2016")
            then calculate_amp_only_press equationP (PyStr "Solve") None
            else
              r ← calculate_amp_only_press equationP (PyStr "Solve") None;
              lift (P_kbar_calc_of r));
  lift (solve P_func T_func iterations T_K_guess).

End Amphibole.

(* ===================================================================== *)
(** ** The documented selection procedure *)
(* ===================================================================== *)

(** The procedure as the specification words it: five estimates a to e per
    sample, ten guarded rules tried in order, the first whose guard holds
    gives the selection, and estimate a is selected when none holds. *)
Module Documented.

Local Open Scope float_scope.

Record estimates : Type := {
  est_a : float; est_b : float; est_c : float; est_d : float; est_e : float }.

(** [x = (a - e) / a] and [delta = d - b]. *)
Definition x (s : estimates) : float := (est_a s - est_e s) / est_a s.
Definition delta (s : estimates) : float := est_d s - est_b s.

Definition average (u v : float) : float := (u + v) / 2.

(** A rule: its guard and what it selects. *)
Definition rule : Type := (estimates → bool) * (estimates → float).

Definition rules : list rule :=
  [ (λ s, est_b s <? 335,  λ s, est_b s);
    (λ s, est_b s <? 399,  λ s, average (est_b s) (est_c s));
    (λ s, est_c s <? 415,  λ s, est_c s);
    (λ s, est_d s <? 470,  λ s, est_c s);
    (λ s, x s >? 0.22,     λ s, average (est_c s) (est_d s));
    (λ s, delta s >? 350,  λ s, est_e s);
    (λ s, delta s >? 210,  λ s, est_d s);
    (λ s, delta s <? 75,   λ s, est_c s);
    (λ s, x s <? -0.2,     λ s, average (est_b s) (est_c s));
    (λ s, x s >? 0.05,     λ s, average (est_c s) (est_d s)) ].

(** First match wins; the last rule has no guard. *)
Fixpoint first_match (rs : list rule) (otherwise : estimates → float)
    (s : estimates) : float :=
  match rs with
  | [] => otherwise s
  | (guard, selection) :: rs' =>
      if guard s then selection s else first_match rs' otherwise s
  end.

Definition selected_pressure (s : estimates) : float :=
  first_match rules est_a s.

(** The seven labels of the specification, and the label of each rule. *)
Inductive label : Type :=
| L_b | L_bc | L_c | L_cd | L_d | L_e | L_a.

(** The label the source writes for a selection: [1b] for b and so on. *)
Definition written (l : label) : string :=
  match l with
  | L_b => "1b"
  | L_bc => "(1b+1c)/2"
  | L_c => "1c"
  | L_cd => "(1c+1d)/2"
  | L_d => "1d"
  | L_e => "1e"
  | L_a => "1a"
  end.

End Documented.

(** A sample of a batch: the five pressures in MPa and the sum of its
    oxides, the values the Series of the loop hold at one label. *)
Record sample : Type := {
  s_1a : float; s_1b : float; s_1c : float; s_1d : float; s_1e : float;
  s_sum : float }.

Definition estimates_of (s : sample) : Documented.estimates :=
  {| Documented.est_a := s_1a s; Documented.est_b := s_1b s;
     Documented.est_c := s_1c s; Documented.est_d := s_1d s;
     Documented.est_e := s_1e s |}.

(** What the loop leaves in [P_MPa] and [name] for a sample. *)
Definition P_MPa_of (s : sample) : float :=
  if (s_sum s <? 90)%float then nan
  else (Selection.select (s_1a s) (s_1b s) (s_1c s) (s_1d s) (s_1e s)).1.

Definition name_of (s : sample) : string :=
  (Selection.select (s_1a s) (s_1b s) (s_1c s) (s_1d s) (s_1e s)).2.

(* ===================================================================== *)
(** ** The documented validation gate *)
(* ===================================================================== *)

(** The gate as the specification words it: a fixed sequence of checks, each
    a predicate over the derived quantities of a sample with a message; the
    pass flag is false when a check fails, and the reason is the message of
    the last failing check of the sequence. *)
Module Gate.

Local Open Scope float_scope.

(** The value a column holds for row [i]. *)
Definition cell (column : list float) (i : nat) : float :=
  default nan (column !! i).

Definition frame_cell (df : DataFrame) (name : string) (i : nat) : float :=
  match col df name with
  | Ok v => default nan (vget v i)
  | Raise _ => nan
  end.

(** Whether each check fails on row [i] of [Calcs_R], in the documented
    order, with its message. *)
Definition checks_in_order (Calcs_R : Calcs.t) (i : nat) : list (bool * string) :=
  let Ca := frame_cell (Calcs.cat13_columns Calcs_R) "CaO_Amp_13_cat" i in
  [ (cell (Calcs.Sum_input Calcs_R) i <? 90, "Cation oxide Total<90");
    (cell (Calcs.Total_recalc Calcs_R) i <? 98.5, "Recalc Total<98.5");
    (cell (Calcs.Total_recalc Calcs_R) i >? 102, "Recalc Total>102");
    (cell (Calcs.Charge Calcs_R) i >? 46.5, "unbalanced charge (>46.5)");
    (cell (Calcs.Fe2_calc Calcs_R) i <? 0, "unbalanced charge (Fe2<0)");
    (100 * cell (Calcs.Mgno_Fe2 Calcs_R) i <? 54, "Low Mg# (<54)");
    (Ca <? 1.5, "Low Ca (<1.5)");
    (Ca >? 2.05, "High Ca (>2.05)");
    (cell (Calcs.B_Sum Calcs_R) i <? 1.99, "Low B Cations") ].

Definition failing (checks : list (bool * string)) : list string :=
  snd <$> filter (λ c, c.1 = true) checks.

(** The message of the last failing check, the empty message when none
    fails; and the pass flag. *)
Definition last_failing (checks : list (bool * string)) : string :=
  default EmptyString (last (failing checks)).

Definition first_failing (checks : list (bool * string)) : string :=
  default EmptyString (head (failing checks)).

Definition passes (checks : list (bool * string)) : bool :=
  bool_decide (failing checks = []).

End Gate.

(* ===================================================================== *)
(** ** An environment and a batch to run the model on *)
(* ===================================================================== *)

(** Stand-ins for what the module imports, to run the dispatchers on a batch:
    approximations of numpy's functions, zero-filled [np.empty] arrays, row
    sums over the oxide columns, and normalisation routines that return the
    table they are given, the batch below holding the normalised columns
    already. *)
Module Example.

Local Open Scope float_scope.

Fixpoint square_times (n : nat) (x : float) : float :=
  match n with
  | O => x
  | S n' => square_times n' (x * x)
  end.

(** [(1 + x / 2^20) ^ (2^20)]. *)
Definition exp_approx (x : float) : float :=
  square_times 20 (1 + x / 1048576).

(** Twelve steps of Halley's iteration for [exp y = x]. *)
Fixpoint log_steps (n : nat) (x y : float) : float :=
  match n with
  | O => y
  | S n' =>
      let e := exp_approx y in
      log_steps n' x (y + 2 * (x - e) / (x + e))
  end.

Definition log_approx (x : float) : float := log_steps 12 x 0.

Definition oxides : list string :=
  ["SiO2_Amp"; "TiO2_Amp"; "Al2O3_Amp"; "FeOt_Amp"; "MnO_Amp"; "MgO_Amp";
   "CaO_Amp"; "Na2O_Amp"; "K2O_Amp"; "Cr2O3_Amp"; "F_Amp"; "Cl_Amp"].

Definition sum_oxides (df : DataFrame) : val :=
  foldl (λ acc name,
           match dict_get name (df_cols df) with
           | Some xs => (acc + Series xs)%val
           | None => acc
           end)
        (Series (replicate (df_len df) 0)) oxides.

Definition given (o : option DataFrame) : result DataFrame :=
  match o with
  | Some df => Ok df
  | None => Raise (CoreError "no table")
  end.

Definition env : Env := {|
  np_exp := exp_approx;
  np_log := log_approx;
  np_power := λ x y, exp_approx (y * log_approx x);
  np_empty_float := λ _, 0;
  np_empty_str := λ _, EmptyString;
  sum_columns := sum_oxides;
  calculate_13cations_amphibole_ridolfi := given;
  calculate_23oxygens_amphibole := given;
  get_amp_sites_mutch := Ok;
  amp_components_ferric_ferrous_mutch := λ _ ox23, Ok ox23;
  get_amp_sites_ferric_ferrous_mutch := Ok |}.

(** Three amphibole analyses: the first passes every check, the second has
    too little calcium, the third an oxide sum below 90. *)
Definition batch : DataFrame := {|
  df_len := 3;
  df_cols :=
    [ ("SiO2_Amp",  [42.5; 42.5; 33.0]);
      ("TiO2_Amp",  [2.3; 2.3; 2.3]);
      ("Al2O3_Amp", [11.8; 11.8; 11.8]);
      ("FeOt_Amp",  [12.1; 12.1; 12.1]);
      ("MnO_Amp",   [0.2; 0.2; 0.2]);
      ("MgO_Amp",   [14.2; 14.2; 14.2]);
      ("CaO_Amp",   [11.3; 11.3; 11.3]);
      ("Na2O_Amp",  [2.3; 2.3; 2.3]);
      ("K2O_Amp",   [0.6; 0.6; 0.6]);
      ("Cr2O3_Amp", [0.05; 0.05; 0.05]);
      ("F_Amp",     [0.1; 0.1; 0.1]);
      ("Cl_Amp",    [0.05; 0.05; 0.05]);
      ("SiO2_Amp_13_cat",  [6.2; 6.2; 6.2]);
      ("TiO2_Amp_13_cat",  [0.25; 0.25; 0.25]);
      ("Al2O3_Amp_13_cat", [2.03; 2.03; 2.03]);
      ("Cr2O3_Amp_13_cat", [0.006; 0.006; 0.006]);
      ("FeOt_Amp_13_cat",  [1.48; 1.48; 1.48]);
      ("MnO_Amp_13_cat",   [0.025; 0.025; 0.025]);
      ("MgO_Amp_13_cat",   [3.09; 3.09; 3.09]);
      ("CaO_Amp_13_cat",   [1.77; 1.2; 1.77]);
      ("Na2O_Amp_13_cat",  [0.65; 0.3; 0.65]);
      ("K2O_Amp_13_cat",   [0.11; 0.11; 0.11]);
      ("F_Amp_13_cat",     [0.046; 0.046; 0.046]);
      ("Cl_Amp_13_cat",    [0.012; 0.012; 0.012]);
      ("cation_sum_Si_Mg", [1.55; 1.55; 1.55]);
      ("SiO2_Amp_cat_23ox",  [6.3; 6.3; 6.3]);
      ("TiO2_Amp_cat_23ox",  [0.25; 0.25; 0.25]);
      ("Al2O3_Amp_cat_23ox", [2.05; 2.05; 2.05]);
      ("FeOt_Amp_cat_23ox",  [1.5; 1.5; 1.5]);
      ("MgO_Amp_cat_23ox",   [3.1; 3.1; 3.1]);
      ("Na2O_Amp_cat_23ox",  [0.66; 0.66; 0.66]);
      ("cation_sum_Si_Ca",   [15.0; 15.0; 15.0]) ] |}.

End Example.

(* ===================================================================== *)
(** ** Vocabulary of the statements *)
(* ===================================================================== *)

(** The defaults of [calculate_amp_only_press_temp] (line 849). *)
Definition default_iterations : nat := 30.
Definition default_T_K_guess : val := Scalar 1300.

(** [o(x)]: the call of what a dispatcher returned; only a partial function
    can be called. *)
Definition call_returned (o : pyobj) (x : val) : result pyobj :=
  match o with
  | Partial p => Num <$> call_partial p x
  | _ => Raise (TypeError "object is not callable")
  end.

(** A call, and then the call of what it returned with [x]. *)
Definition then_call (x : val) (m : M pyobj) : M pyobj := λ t,
  match m t with
  | Outcome (Ok o) t' lines messages =>
      Outcome (call_returned o x) t' lines messages
  | Outcome (Raise e) t' lines messages =>
      Outcome (Raise e) t' lines messages
  end.

(** A number fits the table when, if it is a Series, it has one value per
    row. *)
Definition fits (x : val) (table : option DataFrame) : Prop :=
  match x, table with
  | Series xs, Some df => length xs = df_len df
  | _, _ => True
  end.

(** The equations of a registry that take the other unknown, and those
    that do not. *)
Definition dependent (registry : gmap string pyfunc) (equation : string)
  : Prop :=
  ∃ f, registry !! equation = Some f ∧ pos_default_is_None f = false.

Definition independent (registry : gmap string pyfunc) (equation : string)
  : Prop :=
  ∃ f, registry !! equation = Some f ∧ pos_default_is_None f = true.

(** The documented solver: [T] starts at the guess and [P] undefined; a
    round is [P <- P_deferred(T); T <- T_deferred(P)]. *)
Module Solver.

Definition round (P_deferred T_deferred : val → result val)
    (st : option val * val) : result (option val * val) :=
  P ← P_deferred st.2;
  T ← T_deferred P;
  Ok (Some P, T).

Fixpoint rounds (n : nat) (P_deferred T_deferred : val → result val)
    (st : option val * val) : result (option val * val) :=
  match n with
  | O => Ok st
  | S n' =>
      st' ← round P_deferred T_deferred st;
      rounds n' P_deferred T_deferred st'
  end.

End Solver.

(** A call that does not write to the caller's table. *)
Definition leaves_table {A} (m : M A) : Prop := ∀ t, amp_comps (m t) = t.

(** The table with the column [Sample_ID_Amp], which holds its index when
    the table had no such column (lines 309-310). *)
Definition with_Sample_ID_Amp (df : DataFrame) : DataFrame :=
  if has_col df "Sample_ID_Amp" then df
  else set_col df "Sample_ID_Amp" (index_column (df_len df)).

(** An argument that passes the length check of the dispatchers, and what it
    makes them print for an equation whose argument defaults to [None]. *)
Definition arg_fits (X : pyarg) (t : option DataFrame) : Prop :=
  match X with
  | PyNum x => fits x t
  | _ => True
  end.

Definition said (advisory : string) (X : pyarg) : list string :=
  match X with
  | PyNone => []
  | _ => [advisory]
  end.

(** The warning of the P_Kraw2012 branch (lines 296-298). *)
Definition Kraw2012_warning : string :=
  "This barometer gives the PH2O for the first appearance of amphibole. It should only be applied to the highest Mg# in each sample suite. Note, if there is CO2 in the system P=/ PH2O".

(** The estimate a label of the column [equation] stands for. *)
Definition named_estimate (label : string) (s : sample) : option float :=
  if decide (label = "1a") then Some (s_1a s)
  else if decide (label = "1b") then Some (s_1b s)
  else if decide (label = "1c") then Some (s_1c s)
  else if decide (label = "1d") then Some (s_1d s)
  else if decide (label = "1e") then Some (s_1e s)
  else if decide (label = "(1b+1c)/2") then Some ((s_1b s + s_1c s) / 2)%float
  else if decide (label = "(1c+1d)/2") then Some ((s_1c s + s_1d s) / 2)%float
  else if decide (label = "1c+1d") then Some ((s_1c s + s_1d s) / 2)%float
  else None.

(** The messages the input checks write to [Fail Msg] (lines 440-492). *)
Definition reasons : list string :=
  ["Cation oxide Total<90"; "Recalc Total<98.5"; "Recalc Total>102";
   "unbalanced charge (>46.5)"; "unbalanced charge (Fe2<0)"; "Low Mg# (<54)";
   "Low Ca (<1.5)"; "High Ca (>2.05)"; "Low B Cations"].

(* ===================================================================== *)
(** ** Amphibole-liquid equations, dispatchers and solver
       (lines 682-760 and 933-1233) *)
(* ===================================================================== *)

(** What the other functions of the module take from numpy, pandas,
    matplotlib and Thermobar.core besides: the two normalisations of a
    liquid, the molar proportions of an amphibole, [pd.concat(frames,
    axis=1)], the site allocations of an amphibole, [np.sort], which keeps
    the size of its array, and [plt.step]. *)
Record Core : Type := {
  calculate_hydrous_cat_fractions_liquid : DataFrame → result DataFrame;
  calculate_anhydrous_cat_fractions_liquid : DataFrame → result DataFrame;
  calculate_mol_proportions_amphibole : option DataFrame → result DataFrame;
  pd_concat : list DataFrame → DataFrame;
  calculate_sites_ridolfi : option DataFrame → result DataFrame;
  get_amp_sites_avferric_zhang : option DataFrame → result DataFrame;
  get_amp_sites_from_input : option DataFrame → result DataFrame;
  np_sort : list float → list float;
  np_sort_length : ∀ xs, length (np_sort xs) = length xs;
  plt_step : list float → list float → result unit }.

(** The argument [eq_tests], which the code compares with [is False] and
    [is True]: any other object is neither. *)
Inductive pyflag : Type :=
| PyTrue
| PyFalse
| PyOtherFlag.

(** What the call of an equation leaves in [P_kbar] or [T_K]: a number, or
    the partial function of the marker [Solve]. *)
Inductive evaluated : Type :=
| Value (v : val)
| Deferred (p : partial).

Definition as_pyobj (e : evaluated) : pyobj :=
  match e with
  | Value v => Num v
  | Deferred p => Partial p
  end.

(** What an amphibole-liquid dispatcher returns: what the equation gave, or
    the frame of the equilibrium test, with the columns [P_kbar_calc] or
    [T_K_calc], [Kd-Fe-Mg] and [Eq Putirka 2016?]. *)
Inductive liq_obj : Type :=
| Plain (e : evaluated)
| Tested (column : string) (calc : evaluated) (Kd : list float)
    (Eq_Putirka_2016 : list string).

(** An array of dtype [str] holds strings of one character ([<U1]), and an
    array of dtype [U100] strings of a hundred: a longer string is cut when
    it is stored. *)
Definition stored (width : nat) (s : string) : string :=
  String.substring 0 width s.

(** [Kd >= 0.17 and Kd <= 0.39]. *)
Definition in_Putirka_range (Kd : float) : bool :=
  (0.17 <=? Kd)%float && (Kd <=? 0.39)%float.

(** Inside T_Put2016_eq9 [NaM4] is a numpy array: numpy and pandas combine
    it with a Series position by position, not label by label, and the
    result has the index of the Series. *)
Inductive ndval : Type :=
| NScalar (x : float)
| NSeries (xs : list float)
| NArray (xs : list float).

Definition of_val (v : val) : ndval :=
  match v with
  | Scalar x => NScalar x
  | Series xs => NSeries xs
  end.

(** A numpy array that a function returns is read as the Series of its
    values. *)
Definition to_val (u : ndval) : val :=
  match u with
  | NScalar x => Scalar x
  | NSeries xs => Series xs
  | NArray xs => Series xs
  end.

(** numpy's broadcasting of two one-dimensional arrays: equal lengths, or
    one of them of length one. *)
Definition broadcast (op : float → float → float) (xs ys : list float)
  : result (list float) :=
  if bool_decide (length xs = length ys) then Ok (zip_with op xs ys)
  else match xs, ys with
       | [x], _ => Ok ((λ y, op x y) <$> ys)
       | _, [y] => Ok ((λ x, op x y) <$> xs)
       | _, _ =>
           Raise (ValueError "operands could not be broadcast together")
       end.

(** A Series with an array: the values are broadcast, and the result is laid
    on the index of the Series, which it must fit. *)
Definition on_index_of (xs : list float) (values : result (list float))
  : result ndval :=
  r ← values;
  if bool_decide (length r = length xs) then Ok (NSeries r)
  else Raise (ValueError "Length of values does not match length of index").

Definition nd1 (f : float → float) (u : ndval) : ndval :=
  match u with
  | NScalar x => NScalar (f x)
  | NSeries xs => NSeries (f <$> xs)
  | NArray xs => NArray (f <$> xs)
  end.

Definition nd2 (op : float → float → float) (u v : ndval) : result ndval :=
  match u, v with
  | NScalar x, NScalar y => Ok (NScalar (op x y))
  | NScalar x, NSeries ys => Ok (NSeries ((λ y, op x y) <$> ys))
  | NSeries xs, NScalar y => Ok (NSeries ((λ x, op x y) <$> xs))
  | NScalar x, NArray ys => Ok (NArray ((λ y, op x y) <$> ys))
  | NArray xs, NScalar y => Ok (NArray ((λ x, op x y) <$> xs))
  | NSeries xs, NSeries ys => Ok (NSeries (align op xs ys))
  | NSeries xs, NArray ys => on_index_of xs (broadcast op xs ys)
  | NArray xs, NSeries ys => on_index_of ys (broadcast op xs ys)
  | NArray xs, NArray ys => NArray <$> broadcast op xs ys
  end.

Section Amphibole_liquid.

Context (env : Env) (core : Core).

Local Open Scope val_scope.
Local Abbreviation log := (lift1 (np_log env)).

(** Amphibole-Liquid barometer: Equation 7a of Putirka et al. (2016) *)
Definition P_Put2016_eq7a : pyfunc := {|
  func_name := "P_Put2016_eq7a"; pos_name := "T";
  pos_default_is_None := true;
  kwonly := ["Al2O3_Amp_cat_23ox"; "Na2O_Amp_cat_23ox"; "K2O_Amp_cat_23ox";
             "Al2O3_Liq_mol_frac_hyd"; "Na2O_Liq_mol_frac_hyd";
             "H2O_Liq_mol_frac_hyd"; "P2O5_Liq_mol_frac_hyd"];
  body := λ T kw,
    Al2O3_Amp_cat_23ox ← arg kw "Al2O3_Amp_cat_23ox";
    Na2O_Amp_cat_23ox ← arg kw "Na2O_Amp_cat_23ox";
    K2O_Amp_cat_23ox ← arg kw "K2O_Amp_cat_23ox";
    Al2O3_Liq_mol_frac_hyd ← arg kw "Al2O3_Liq_mol_frac_hyd";
    Na2O_Liq_mol_frac_hyd ← arg kw "Na2O_Liq_mol_frac_hyd";
    H2O_Liq_mol_frac_hyd ← arg kw "H2O_Liq_mol_frac_hyd";
    P2O5_Liq_mol_frac_hyd ← arg kw "P2O5_Liq_mol_frac_hyd";
    Ok (#10 * (#(-3.093) - #4.274 * log (Al2O3_Amp_cat_23ox /
        Al2O3_Liq_mol_frac_hyd) - #4.216 * log Al2O3_Liq_mol_frac_hyd + #63.3
        * P2O5_Liq_mol_frac_hyd + #1.264 * H2O_Liq_mol_frac_hyd + #2.457 *
        Al2O3_Amp_cat_23ox + #1.86 * K2O_Amp_cat_23ox + #0.4 * log
        (Na2O_Amp_cat_23ox / Na2O_Liq_mol_frac_hyd))) |}.

(** Amphibole-Liquid barometer: Equation 7b of Putirka et al. (2016) *)
Definition P_Put2016_eq7b : pyfunc := {|
  func_name := "P_Put2016_eq7b"; pos_name := "T";
  pos_default_is_None := true;
  kwonly := ["Al2O3_Liq_mol_frac_hyd"; "P2O5_Liq_mol_frac_hyd";
             "Al2O3_Amp_cat_23ox"; "SiO2_Liq_mol_frac_hyd";
             "Na2O_Liq_mol_frac_hyd"; "K2O_Liq_mol_frac_hyd";
             "CaO_Liq_mol_frac_hyd"];
  body := λ T kw,
    Al2O3_Liq_mol_frac_hyd ← arg kw "Al2O3_Liq_mol_frac_hyd";
    P2O5_Liq_mol_frac_hyd ← arg kw "P2O5_Liq_mol_frac_hyd";
    Al2O3_Amp_cat_23ox ← arg kw "Al2O3_Amp_cat_23ox";
    SiO2_Liq_mol_frac_hyd ← arg kw "SiO2_Liq_mol_frac_hyd";
    Na2O_Liq_mol_frac_hyd ← arg kw "Na2O_Liq_mol_frac_hyd";
    K2O_Liq_mol_frac_hyd ← arg kw "K2O_Liq_mol_frac_hyd";
    CaO_Liq_mol_frac_hyd ← arg kw "CaO_Liq_mol_frac_hyd";
    Ok (#(-64.79) - #6.064 * log (Al2O3_Amp_cat_23ox / Al2O3_Liq_mol_frac_hyd)
        + #61.75 * SiO2_Liq_mol_frac_hyd + #682 * P2O5_Liq_mol_frac_hyd -
        #101.9 * CaO_Liq_mol_frac_hyd + #7.85 * Al2O3_Amp_cat_23ox - #46.46 *
        log SiO2_Liq_mol_frac_hyd - #4.81 * log (Na2O_Liq_mol_frac_hyd +
        K2O_Liq_mol_frac_hyd)) |}.

(** Amphibole-Liquid barometer: Equation 7c of Putirka et al. (2016) *)
Definition P_Put2016_eq7c : pyfunc := {|
  func_name := "P_Put2016_eq7c"; pos_name := "T";
  pos_default_is_None := true;
  kwonly := ["Al2O3_Amp_cat_23ox"; "K2O_Amp_cat_23ox"; "P2O5_Liq_mol_frac";
             "Al2O3_Liq_mol_frac"; "Na2O_Amp_cat_23ox"; "Na2O_Liq_mol_frac"];
  body := λ T kw,
    Al2O3_Amp_cat_23ox ← arg kw "Al2O3_Amp_cat_23ox";
    K2O_Amp_cat_23ox ← arg kw "K2O_Amp_cat_23ox";
    P2O5_Liq_mol_frac ← arg kw "P2O5_Liq_mol_frac";
    Al2O3_Liq_mol_frac ← arg kw "Al2O3_Liq_mol_frac";
    Na2O_Amp_cat_23ox ← arg kw "Na2O_Amp_cat_23ox";
    Na2O_Liq_mol_frac ← arg kw "Na2O_Liq_mol_frac";
    Ok (#(-45.55) + #26.65 * Al2O3_Amp_cat_23ox + #22.52 * K2O_Amp_cat_23ox +
        #439 * P2O5_Liq_mol_frac - #51.1 * log Al2O3_Liq_mol_frac - #46.3 *
        log (Al2O3_Amp_cat_23ox / Al2O3_Liq_mol_frac) + #5.231 * log
        (Na2O_Amp_cat_23ox / Na2O_Liq_mol_frac)) |}.

(** Amphibole-Liquid thermometer: Eq4b, Putirka et al. (2016) *)
Definition T_Put2016_eq4b : pyfunc := {|
  func_name := "T_Put2016_eq4b"; pos_name := "P";
  pos_default_is_None := true;
  kwonly := ["H2O_Liq_mol_frac_hyd"; "FeOt_Amp_cat_23ox";
             "FeOt_Liq_mol_frac_hyd"; "MgO_Liq_mol_frac_hyd";
             "MnO_Liq_mol_frac_hyd"; "Al2O3_Liq_mol_frac_hyd";
             "TiO2_Amp_cat_23ox"; "TiO2_Liq_mol_frac_hyd"];
  body := λ P kw,
    H2O_Liq_mol_frac_hyd ← arg kw "H2O_Liq_mol_frac_hyd";
    FeOt_Amp_cat_23ox ← arg kw "FeOt_Amp_cat_23ox";
    FeOt_Liq_mol_frac_hyd ← arg kw "FeOt_Liq_mol_frac_hyd";
    MgO_Liq_mol_frac_hyd ← arg kw "MgO_Liq_mol_frac_hyd";
    MnO_Liq_mol_frac_hyd ← arg kw "MnO_Liq_mol_frac_hyd";
    Al2O3_Liq_mol_frac_hyd ← arg kw "Al2O3_Liq_mol_frac_hyd";
    TiO2_Amp_cat_23ox ← arg kw "TiO2_Amp_cat_23ox";
    TiO2_Liq_mol_frac_hyd ← arg kw "TiO2_Liq_mol_frac_hyd";
    Ok (#273.15 + #8037.85 / (#3.69 - #2.62 * H2O_Liq_mol_frac_hyd + #0.66 *
        FeOt_Amp_cat_23ox - #0.416 * log TiO2_Liq_mol_frac_hyd + #0.37 * log
        MgO_Liq_mol_frac_hyd - #1.05 * log ((FeOt_Liq_mol_frac_hyd +
        MgO_Liq_mol_frac_hyd + MnO_Liq_mol_frac_hyd) * Al2O3_Liq_mol_frac_hyd)
        - #0.462 * log (TiO2_Amp_cat_23ox / TiO2_Liq_mol_frac_hyd))) |}.

(** One pass of the loop of T_Put2016_eq9 (lines 751-755). *)
Definition NaM4_body (NaM4_1 : val) (i : nat) (NaM4 : list float)
  : result (list float) :=
  x ← vindex NaM4_1 i;
  Ok (if (x <=? 0.1)%float then <[i := 0%float]> NaM4 else <[i := x]> NaM4).

(** Amphibole-Liquid thermometer: Eq9, Putirka et al. (2016) *)
Definition T_Put2016_eq9 : pyfunc := {|
  func_name := "T_Put2016_eq9"; pos_name := "P";
  pos_default_is_None := true;
  kwonly := ["SiO2_Amp_cat_23ox"; "TiO2_Amp_cat_23ox"; "MgO_Amp_cat_23ox";
             "FeOt_Amp_cat_23ox"; "Na2O_Amp_cat_23ox";
             "FeOt_Liq_mol_frac_hyd"; "Al2O3_Amp_cat_23ox";
             "Al2O3_Liq_mol_frac_hyd"; "K2O_Amp_cat_23ox";
             "CaO_Amp_cat_23ox"; "Na2O_Liq_mol_frac_hyd";
             "K2O_Liq_mol_frac_hyd"];
  body := λ P kw,
    SiO2_Amp_cat_23ox ← arg kw "SiO2_Amp_cat_23ox";
    TiO2_Amp_cat_23ox ← arg kw "TiO2_Amp_cat_23ox";
    MgO_Amp_cat_23ox ← arg kw "MgO_Amp_cat_23ox";
    FeOt_Amp_cat_23ox ← arg kw "FeOt_Amp_cat_23ox";
    Na2O_Amp_cat_23ox ← arg kw "Na2O_Amp_cat_23ox";
    FeOt_Liq_mol_frac_hyd ← arg kw "FeOt_Liq_mol_frac_hyd";
    Al2O3_Amp_cat_23ox ← arg kw "Al2O3_Amp_cat_23ox";
    Al2O3_Liq_mol_frac_hyd ← arg kw "Al2O3_Liq_mol_frac_hyd";
    K2O_Amp_cat_23ox ← arg kw "K2O_Amp_cat_23ox";
    CaO_Amp_cat_23ox ← arg kw "CaO_Amp_cat_23ox";
    Na2O_Liq_mol_frac_hyd ← arg kw "Na2O_Liq_mol_frac_hyd";
    K2O_Liq_mol_frac_hyd ← arg kw "K2O_Liq_mol_frac_hyd";
    let NaM4_1 := #2 - FeOt_Amp_cat_23ox - CaO_Amp_cat_23ox in
    n ← vlen NaM4_1;
    NaM4 ← for_each (seq 0 n) (NaM4_body NaM4_1)
             (np_empty_float env <$> seq 0 n);
    HelzA ← nd2 PrimFloat.sub (of_val Na2O_Amp_cat_23ox) (NArray NaM4);
    ratio ← nd2 PrimFloat.div (of_val K2O_Amp_cat_23ox) HelzA;
    product ← nd2 PrimFloat.mul ratio
                (of_val (Na2O_Liq_mol_frac_hyd / K2O_Liq_mol_frac_hyd));
    let ln_KD_Na_K := nd1 (np_log env) product in
    last ← nd2 PrimFloat.mul (NScalar 0.15) ln_KD_Na_K;
    denominator ← nd2 PrimFloat.sub
                    (of_val (#9.75 + #0.934 * SiO2_Amp_cat_23ox - #1.454 *
                             TiO2_Amp_cat_23ox - #0.882 * MgO_Amp_cat_23ox -
                             #1.123 * Na2O_Amp_cat_23ox - #0.322 * log
                             FeOt_Liq_mol_frac_hyd - #0.7593 * log
                             (Al2O3_Amp_cat_23ox / Al2O3_Liq_mol_frac_hyd)))
                    last;
    quotient ← nd2 PrimFloat.div (NScalar 10073.5) denominator;
    T_K ← nd2 PrimFloat.add (NScalar 273.15) quotient;
    Ok (to_val T_K) |}.

(** The registries of lines 933-935 and 1039-1041. *)
Definition Amp_Liq_P_funcs : list pyfunc :=
  [P_Put2016_eq7a; P_Put2016_eq7b; P_Put2016_eq7c].

Definition Amp_Liq_P_funcs_by_name : gmap string pyfunc :=
  by_name Amp_Liq_P_funcs.

Definition Amp_Liq_T_funcs : list pyfunc :=
  [T_Put2016_eq4b; T_Put2016_eq4a_amp_sat env; T_Put2016_eq9].

Definition Amp_Liq_T_funcs_by_name : gmap string pyfunc :=
  by_name Amp_Liq_T_funcs.

Definition mismatch_T_liq : string :=
  "The panda series entered for Temperature isnt the same length as the dataframe of liquid compositions".
Definition mismatch_P_liq : string :=
  "The panda series entered for Pressure isnt the same length as the dataframe of liquid compositions".

(** The checks of lines 978-995 and 1078-1095: those of the amphibole-only
    dispatchers, the length of a Series being compared with the number of
    rows of [liq_comps]. *)
Definition liq_lookup_and_check (registry : gmap string pyfunc)
    (equation : string) (X : pyarg) (liq_comps : option DataFrame)
    (needs advisory mismatch : string) : M pyfunc :=
  func ← match registry !! equation with
         | Some f => mret f
         | None => raise (ValueError (equation +:+ " is not a valid equation"))
         end;
  _ ← (if negb (pos_default_is_None func) then
         match X with
         | PyNone => raise (ValueError (equation +:+ needs))
         | _ => mret ()
         end
       else
         match X with
         | PyNone => mret ()
         | _ => print advisory
         end);
  _ ← match series_of X, liq_comps with
      | Some xs, Some df =>
          if bool_decide (length xs ≠ df_len df)
          then raise (ValueError mismatch)
          else mret ()
      | _, _ => mret ()
      end;
  mret func.

(** [liq_comps_c = liq_comps.copy()] and, with a value for [H2O_Liq],
    [liq_comps_c['H2O_Liq'] = H2O_Liq]. *)
Definition with_H2O_Liq (liq_comps : DataFrame) (H2O_Liq : option val)
  : DataFrame :=
  match H2O_Liq with
  | Some h => set_col liq_comps "H2O_Liq" h
  | None => liq_comps
  end.

(** Lines 1012-1019 and 1108-1115: the value of the equation, which a string
    other than [Solve] leaves unassigned. *)
Definition evaluate_liq (func : pyfunc) (kwargs : dict val) (X : pyarg)
  : M (option evaluated) :=
  match X with
  | PyStr s =>
      if bool_decide (s = "Solve")
      then mret (Some (Deferred {| p_func := func; p_keywords := kwargs |}))
      else mret None
  | PyNone => v ← lift (call func None kwargs); mret (Some (Value v))
  | PyNum x => v ← lift (call func (Some x) kwargs); mret (Some (Value v))
  end.

(** [Kd], the Fe-Mg exchange coefficient of lines 1025, 1122 and 1220;
    [liq_comps_hy] is read after the two columns of [MolProp]. *)
Definition Kd_Fe_Mg (MolProp : DataFrame) (liq_comps_hy : option DataFrame)
  : result val :=
  FeOt_Amp ← col MolProp "FeOt_Amp_mol_prop";
  MgO_Amp ← col MolProp "MgO_Amp_mol_prop";
  liq_comps_hy ← match liq_comps_hy with
                 | Some df => Ok df
                 | None => Raise (UnboundLocalError "liq_comps_hy")
                 end;
  FeOt_Liq ← col liq_comps_hy "FeOt_Liq_mol_frac_hyd";
  MgO_Liq ← col liq_comps_hy "MgO_Liq_mol_frac_hyd";
  Ok ((FeOt_Amp / MgO_Amp) / (FeOt_Liq / MgO_Liq)).

(** One pass of the loop that fills [b] (lines 1029-1034), an array of
    dtype [str]. *)
Definition Eq_body (Kd : val) (i : nat) (b : list string)
  : result (list string) :=
  k ← vindex Kd i;
  Ok (if in_Putirka_range k then <[i := stored 1 "Yes"]> b
      else <[i := stored 1 "No"]> b).

(** [b = np.empty(n, dtype=str)] and the loop. *)
Definition Eq_Putirka_2016_column (n : nat) (Kd : val) : result (list string) :=
  for_each (seq 0 n) (Eq_body Kd)
    ((λ i, stored 1 (np_empty_str env i)) <$> seq 0 n).

(** The labels a value brings to the index of a frame built from it: those
    of a Series; a scalar or another object brings none. *)
Definition labels (e : evaluated) : option nat :=
  match e with
  | Value (Series xs) => Some (length xs)
  | _ => None
  end.

(** A value laid on an index of [n] labels. *)
Definition reindexed (n : nat) (e : evaluated) : evaluated :=
  match e with
  | Value v => Value (Series (as_column n v))
  | Deferred p => Deferred p
  end.

(** The index of [pd.DataFrame(data={...})] for two values and an array of
    [m] entries: the union of the indexes of the Series, which the array
    must fit, and the positions of the array without a Series. *)
Definition frame_index (u v : evaluated) (m : nat) : result nat :=
  match labels u, labels v with
  | None, None => Ok m
  | lu, lv =>
      let n := default 0 lu `max` default 0 lv in
      if bool_decide (m = n) then Ok n
      else Raise (ValueError "array length does not match index length")
  end.

(** [pd.DataFrame(data={column: calc, 'Kd-Fe-Mg': Kd, "Eq Putirka 2016?": b})]. *)
Definition tests_frame (column : string) (calc : evaluated) (Kd : val)
    (b : list string) : result liq_obj :=
  n ← frame_index calc (Value Kd) (length b);
  Ok (Tested column (reindexed n calc) (as_column n Kd) b).

(** The end of both dispatchers (lines 1021-1035 and 1118-1132): the value
    for [eq_tests is False], the frame of the test for [eq_tests is True],
    and for another object [Out], which nothing assigned. *)
Definition finish (local column : string) (calc : option evaluated)
    (liq_comps_hy : option DataFrame) (eq_tests : pyflag) : M liq_obj :=
  match eq_tests with
  | PyFalse =>
      match calc with
      | Some e => mret (Plain e)
      | None => raise (UnboundLocalError local)
      end
  | PyTrue =>
      amp ← the_amp_comps;
      MolProp ← lift (calculate_mol_proportions_amphibole core amp);
      Kd ← lift (Kd_Fe_Mg MolProp liq_comps_hy);
      b ← lift (Eq_Putirka_2016_column (df_len MolProp) Kd);
      calc ← match calc with
             | Some e => mret e
             | None => raise (UnboundLocalError local)
             end;
      lift (tests_frame column calc Kd b)
  | PyOtherFlag => raise (UnboundLocalError "Out")
  end.

(** [calculate_amp_liq_press(amp_comps, liq_comps, meltmatch, equationP, T,
    eq_tests, H2O_Liq)] (lines 938-1035). *)
Definition calculate_amp_liq_press (liq_comps meltmatch : option DataFrame)
    (equationP : string) (T : pyarg) (eq_tests : pyflag)
    (H2O_Liq : option val) : M liq_obj :=
  func ← liq_lookup_and_check Amp_Liq_P_funcs_by_name equationP T liq_comps
           requires_T advisory_T mismatch_T_liq;
  amp ← the_amp_comps;
  bound ← match liq_comps, amp with
          | Some liq, Some _ =>
              let liq_comps_c := with_H2O_Liq liq H2O_Liq in
              amp_comps_23 ← lift (calculate_23oxygens_amphibole env amp);
              liq_comps_hy ← lift (calculate_hydrous_cat_fractions_liquid
                                     core liq_comps_c);
              liq_comps_an ← lift (calculate_anhydrous_cat_fractions_liquid
                                     core liq_comps_c);
              mret (Some (pd_concat core
                            [amp_comps_23; liq_comps_hy; liq_comps_an]),
                    Some liq_comps_hy)
          | _, _ => mret (meltmatch, None)
          end;
  Combo_liq_amps ← match bound.1 with
                   | Some df => mret df
                   | None => raise (UnboundLocalError "Combo_liq_amps")
                   end;
  kwargs ← lift (kwargs_from Combo_liq_amps (kwonly func));
  P_kbar ← evaluate_liq func kwargs T;
  finish "P_kbar" "P_kbar_calc" P_kbar bound.2 eq_tests.

(** [calculate_amp_liq_temp(amp_comps, liq_comps, equationT, P, H2O_Liq,
    eq_tests)] (lines 1043-1132). *)
Definition calculate_amp_liq_temp (liq_comps : option DataFrame)
    (equationT : string) (P : pyarg) (H2O_Liq : option val)
    (eq_tests : pyflag) : M liq_obj :=
  func ← liq_lookup_and_check Amp_Liq_T_funcs_by_name equationT P liq_comps
           requires_P advisory_P mismatch_P_liq;
  let liq_comps_c := (λ liq, with_H2O_Liq liq H2O_Liq) <$> liq_comps in
  amp ← the_amp_comps;
  amp_comps_23 ← lift (calculate_23oxygens_amphibole env amp);
  liq_comps_c ← match liq_comps_c with
                | Some df => mret df
                | None => raise (UnboundLocalError "liq_comps_c")
                end;
  liq_comps_hy ← lift (calculate_hydrous_cat_fractions_liquid core
                         liq_comps_c);
  liq_comps_an ← lift (calculate_anhydrous_cat_fractions_liquid core
                         liq_comps_c);
  let Combo_liq_amps :=
    pd_concat core [amp_comps_23; liq_comps_hy; liq_comps_an] in
  kwargs ← lift (kwargs_from Combo_liq_amps (kwonly func));
  T_K ← evaluate_liq func kwargs P;
  finish "T_K" "T_K_calc" T_K (Some liq_comps_hy) eq_tests.

(** Lines 1190-1207, the statements of lines 910-930 again: a frame of the
    equilibrium test is neither a Series nor a partial function, so that no
    branch assigns [P_guess]. *)
Definition solve_liq (P_func T_func : liq_obj) (iterations : nat)
    (T_K_guess : val) : result pyobj :=
  match P_func, T_func with
  | Plain P, Plain T => solve (as_pyobj P) (as_pyobj T) iterations T_K_guess
  | _, _ => Raise (UnboundLocalError "P_guess")
  end.

(** [len(PT_out)]: the frame has the labels of its two columns. *)
Definition frame_len (PT : pyobj) : nat :=
  match PT with
  | PTFrame P T =>
      default 0 (labels (Value P)) `max` default 0 (labels (Value T))
  | _ => 0
  end.

(** [calculate_amp_liq_press_temp(liq_comps, amp_comps, equationT,
    equationP, iterations, T_K_guess, H2O_Liq, eq_tests)] (lines 1139-1233);
    [None] is Python's [None], returned when the function ends without a
    [return]. *)
Definition calculate_amp_liq_press_temp (liq_comps : option DataFrame)
    (equationT equationP : string) (iterations : nat) (T_K_guess : val)
    (H2O_Liq : option val) (eq_tests : pyflag) : M (option pyobj) :=
  liq_comps_c ← match liq_comps with
                | Some liq => mret (with_H2O_Liq liq H2O_Liq)
                | None => raise (AttributeError "copy")
                end;
  T_func ← calculate_amp_liq_temp (Some liq_comps_c) equationT
             (PyStr "Solve") None PyFalse;
  P_func ← calculate_amp_liq_press (Some liq_comps_c) None equationP
             (PyStr "Solve") PyFalse None;
  PT_out ← lift (solve_liq P_func T_func iterations T_K_guess);
  match eq_tests with
  | PyFalse => mret (Some PT_out)
  | PyTrue =>
      liq_comps_hy ← lift (calculate_hydrous_cat_fractions_liquid core
                             liq_comps_c);
      amp ← the_amp_comps;
      MolProp ← lift (calculate_mol_proportions_amphibole core amp);
      Kd ← lift (Kd_Fe_Mg MolProp (Some liq_comps_hy));
      b ← lift (Eq_Putirka_2016_column (df_len MolProp) Kd);
      if bool_decide (length b = frame_len PT_out) then mret None
      else raise (ValueError
                    "Length of values does not match length of index")
  | PyOtherFlag => mret None
  end.

End Amphibole_liquid.

(* ===================================================================== *)
(** ** Melt compositions from amphibole, and all barometers at once
       (lines 157-235 and 621-635) *)
(* ===================================================================== *)

Section Melt.

Context (env : Env) (core : Core).

Local Open Scope val_scope.
Local Abbreviation exp := (lift1 (np_exp env)).
Local Abbreviation log := (lift1 (np_log env)).

(** Line 160. *)
Definition Ridolfi21_deltaNNO_calc (amp_sites : DataFrame) : result val :=
  Al_IV_T ← col amp_sites "Al_IV_T";
  Al_VI_C ← col amp_sites "Al_VI_C";
  Ti_C ← col amp_sites "Ti_C";
  Fe3_C ← col amp_sites "Fe3_C";
  Mg_C ← col amp_sites "Mg_C";
  Fe2_C ← col amp_sites "Fe2_C";
  Mn_C ← col amp_sites "Mn_C";
  Ca_B ← col amp_sites "Ca_B";
  Na_A ← col amp_sites "Na_A";
  K_A ← col amp_sites "K_A";
  Ok (#(-10.3216023230583) * Al_IV_T + #4.47045484316415 * Al_VI_C +
      #7.55122550171372 * Ti_C + #5.46318534905121 * Fe3_C - #4.73884449358073
      * Mg_C - #7.20328571556139 * Fe2_C - #17.5610110666215 * Mn_C +
      #13.762022684517 * Ca_B + #13.7560270877436 * Na_A + #27.5944871599305 *
      K_A).

(** Line 166. *)
Definition Ridolfi21_H2O_calc (amp_sites : DataFrame) : result val :=
  Al_IV_T ← col amp_sites "Al_IV_T";
  Al_VI_C ← col amp_sites "Al_VI_C";
  Ti_C ← col amp_sites "Ti_C";
  Fe3_C ← col amp_sites "Fe3_C";
  Mg_C ← col amp_sites "Mg_C";
  Fe2_C ← col amp_sites "Fe2_C";
  Mn_C ← col amp_sites "Mn_C";
  Ca_B ← col amp_sites "Ca_B";
  Na_A ← col amp_sites "Na_A";
  K_A ← col amp_sites "K_A";
  Ok (exp (#(-1.374845602) * Al_IV_T + #1.7103210931239 * Al_VI_C +
      #0.85944576818503 * Ti_C + #1.18881568772057 * Fe3_C -
      #0.675980097369545 * Mg_C - #0.390086849565756 * Fe2_C -
      #6.40208103925722 * Mn_C + #2.54899046000297 * Ca_B + #1.37094801209146
      * Na_A + #1.25720999388625 * K_A)).

(** Line 176. *)
Definition Zhang17_SiO2_Eq1 (amp_sites : DataFrame) : result val :=
  Si_T_ideal ← col amp_sites "Si_T_ideal";
  Al_VI_C_ideal ← col amp_sites "Al_VI_C_ideal";
  Mg_C_ideal ← col amp_sites "Mg_C_ideal";
  Mg_B_ideal ← col amp_sites "Mg_B_ideal";
  Fe3_C_ideal ← col amp_sites "Fe3_C_ideal";
  Fe2_C_ideal ← col amp_sites "Fe2_C_ideal";
  Fe2_B_ideal ← col amp_sites "Fe2_B_ideal";
  Ti_T_ideal ← col amp_sites "Ti_T_ideal";
  Ti_C_ideal ← col amp_sites "Ti_C_ideal";
  Ca_B_ideal ← col amp_sites "Ca_B_ideal";
  Na_A_ideal ← col amp_sites "Na_A_ideal";
  Ok (#(-736.7170) + #288.733 * log Si_T_ideal + #56.536 * Al_VI_C_ideal +
      #27.169 * (Mg_C_ideal + Mg_B_ideal) + #62.665 * Fe3_C_ideal + #34.814 *
      (Fe2_C_ideal + Fe2_B_ideal) + #83.989 * (Ti_T_ideal + Ti_C_ideal) +
      #44.225 * Ca_B_ideal + #14.049 * Na_A_ideal).

(** Line 181. *)
Definition Zhang17_SiO2_Eq2 (amp_sites : DataFrame) : result val :=
  Si_T_ideal ← col amp_sites "Si_T_ideal";
  Al_VI_C_ideal ← col amp_sites "Al_VI_C_ideal";
  Fe3_C_ideal ← col amp_sites "Fe3_C_ideal";
  Fe2_C_ideal ← col amp_sites "Fe2_C_ideal";
  Fe2_B_ideal ← col amp_sites "Fe2_B_ideal";
  Ti_T_ideal ← col amp_sites "Ti_T_ideal";
  Ti_C_ideal ← col amp_sites "Ti_C_ideal";
  Ca_B_ideal ← col amp_sites "Ca_B_ideal";
  Ok (#(-399.9891) + #212.9463 * log Si_T_ideal + #11.7464 * Al_VI_C_ideal +
      #23.5653 * Fe3_C_ideal + #6.8467 * (Fe2_C_ideal + Fe2_B_ideal) +
      #24.7743 * (Ti_T_ideal + Ti_C_ideal) + #24.4399 * Ca_B_ideal).

(** Line 185. *)
Definition Zhang17_SiO2_Eq4 (amp_sites : DataFrame) : result val :=
  Si_T_ideal ← col amp_sites "Si_T_ideal";
  Mg_C_ideal ← col amp_sites "Mg_C_ideal";
  Mg_B_ideal ← col amp_sites "Mg_B_ideal";
  Ok (#(-222.614) + #167.517 * log Si_T_ideal - #7.156 * (Mg_C_ideal +
      Mg_B_ideal)).

(** Line 188. *)
Definition Zhang17_TiO2_Eq6 (amp_sites : DataFrame) : result val :=
  Si_T_ideal ← col amp_sites "Si_T_ideal";
  Al_VI_C_ideal ← col amp_sites "Al_VI_C_ideal";
  Fe3_C_ideal ← col amp_sites "Fe3_C_ideal";
  Fe2_C_ideal ← col amp_sites "Fe2_C_ideal";
  Fe2_B_ideal ← col amp_sites "Fe2_B_ideal";
  Ca_B_ideal ← col amp_sites "Ca_B_ideal";
  Na_A_ideal ← col amp_sites "Na_A_ideal";
  Ok (exp (#22.4650 - #2.5975 * Si_T_ideal - #1.15502 * Al_VI_C_ideal -
      #2.23287 * Fe3_C_ideal - #1.03193 * (Fe2_C_ideal + Fe2_B_ideal) -
      #1.98253 * Ca_B_ideal - #1.55912 * Na_A_ideal)).

(** Line 192. *)
Definition Zhang17_FeO_Eq7 (amp_sites : DataFrame) : result val :=
  Si_T_ideal ← col amp_sites "Si_T_ideal";
  Al_VI_C_ideal ← col amp_sites "Al_VI_C_ideal";
  Fe3_C_ideal ← col amp_sites "Fe3_C_ideal";
  Fe2_C_ideal ← col amp_sites "Fe2_C_ideal";
  Fe2_B_ideal ← col amp_sites "Fe2_B_ideal";
  Ti_C_ideal ← col amp_sites "Ti_C_ideal";
  Ca_B_ideal ← col amp_sites "Ca_B_ideal";
  Ok (exp (#24.4613 - #2.72308 * Si_T_ideal - #1.07345 * Al_VI_C_ideal -
      #1.0466 * Fe3_C_ideal - #0.25801 * (Fe2_C_ideal + Fe2_B_ideal) -
      #1.93601 * Ti_C_ideal - #2.52281 * Ca_B_ideal)).

(** Line 196. *)
Definition Zhang17_FeO_Eq8 (amp_sites : DataFrame) : result val :=
  Si_T_ideal ← col amp_sites "Si_T_ideal";
  Mg_C_ideal ← col amp_sites "Mg_C_ideal";
  Ca_B_ideal ← col amp_sites "Ca_B_ideal";
  Ok (exp (#15.6864 - #2.09657 * Si_T_ideal + #0.36457 * Mg_C_ideal - #1.33131
      * Ca_B_ideal)).

(** Line 199. *)
Definition Zhang17_MgO_Eq9 (amp_sites : DataFrame) : result val :=
  Si_T_ideal ← col amp_sites "Si_T_ideal";
  Al_VI_C_ideal ← col amp_sites "Al_VI_C_ideal";
  Mg_C_ideal ← col amp_sites "Mg_C_ideal";
  Ok (exp (#12.6618 - #2.63189 * Si_T_ideal + #1.04995 * Al_VI_C_ideal +
      #1.26035 * Mg_C_ideal)).

(** Line 202. *)
Definition Zhang17_CaO_Eq10 (amp_sites : DataFrame) : result val :=
  Si_T_ideal ← col amp_sites "Si_T_ideal";
  Mg_C_ideal ← col amp_sites "Mg_C_ideal";
  Na_A_ideal ← col amp_sites "Na_A_ideal";
  Ok (#41.2784 - #7.1955 * Si_T_ideal + #3.6412 * Mg_C_ideal - #5.0437 *
      Na_A_ideal).

(** Line 205. *)
Definition Zhang17_CaO_Eq11 (amp_sites : DataFrame) : result val :=
  Si_T_ideal ← col amp_sites "Si_T_ideal";
  Al_VI_C_ideal ← col amp_sites "Al_VI_C_ideal";
  Mg_C_ideal ← col amp_sites "Mg_C_ideal";
  Ok (exp (#6.4192 - #1.17372 * Si_T_ideal + #1.31976 * Al_VI_C_ideal +
      #0.67733 * Mg_C_ideal)).

(** Line 208. *)
Definition Zhang17_K2O_Eq12 (amp_sites : DataFrame) : result val :=
  Si_T_ideal ← col amp_sites "Si_T_ideal";
  Al_VI_C_ideal ← col amp_sites "Al_VI_C_ideal";
  Mg_C_ideal ← col amp_sites "Mg_C_ideal";
  Fe3_C_ideal ← col amp_sites "Fe3_C_ideal";
  Fe2_C_ideal ← col amp_sites "Fe2_C_ideal";
  Fe2_B_ideal ← col amp_sites "Fe2_B_ideal";
  Ti_C_ideal ← col amp_sites "Ti_C_ideal";
  Ca_B_ideal ← col amp_sites "Ca_B_ideal";
  Na_A_ideal ← col amp_sites "Na_A_ideal";
  Ok (#100.5909 - #4.3246 * Si_T_ideal - #17.8256 * Al_VI_C_ideal - #10.0901 *
      Mg_C_ideal - #15.683 * Fe3_C_ideal - #8.8004 * (Fe2_C_ideal +
      Fe2_B_ideal) - #19.7448 * Ti_C_ideal - #6.3727 * Ca_B_ideal - #5.8069 *
      Na_A_ideal).

(** Line 213. *)
Definition Zhang17_K2O_Eq13 (amp_sites : DataFrame) : result val :=
  Si_T_ideal ← col amp_sites "Si_T_ideal";
  Fe3_C_ideal ← col amp_sites "Fe3_C_ideal";
  Fe2_C_ideal ← col amp_sites "Fe2_C_ideal";
  Fe2_B_ideal ← col amp_sites "Fe2_B_ideal";
  Ti_C_ideal ← col amp_sites "Ti_C_ideal";
  Ca_B_ideal ← col amp_sites "Ca_B_ideal";
  Ok (#(-16.53) + #1.6878 * Si_T_ideal + #1.2354 * (Fe3_C_ideal + Fe2_C_ideal
      + Fe2_B_ideal) + #5.0404 * Ti_C_ideal + #2.9703 * Ca_B_ideal).

(** Line 217. *)
Definition Zhang17_Al2O3_Eq14 (amp_sites : DataFrame) : result val :=
  Al_VI_C_ideal ← col amp_sites "Al_VI_C_ideal";
  Mg_C_ideal ← col amp_sites "Mg_C_ideal";
  Fe3_C_ideal ← col amp_sites "Fe3_C_ideal";
  Ti_C_ideal ← col amp_sites "Ti_C_ideal";
  Na_A_ideal ← col amp_sites "Na_A_ideal";
  Ok (#4.573 + #6.9408 * Al_VI_C_ideal + #1.0059 * Mg_C_ideal + #4.5448 *
      Fe3_C_ideal + #5.9679 * Ti_C_ideal + #7.1501 * Na_A_ideal).

(** Line 223. *)
Definition Zhang17_SiO2_Eq3 (T_K : val) (amp_sites : DataFrame) : result val :=
  Si_T_ideal ← col amp_sites "Si_T_ideal";
  Mg_C_ideal ← col amp_sites "Mg_C_ideal";
  Mg_B_ideal ← col amp_sites "Mg_B_ideal";
  Ok (#(-228) + #0.01065 * (T_K - #273.15) + #165 * log Si_T_ideal - #7.219 *
      (Mg_C_ideal + Mg_B_ideal)).

(** Line 226. *)
Definition Zhang17_TiO2_Eq5 (T_K : val) (amp_sites : DataFrame) : result val :=
  Si_T_ideal ← col amp_sites "Si_T_ideal";
  Al_VI_C_ideal ← col amp_sites "Al_VI_C_ideal";
  Fe3_C_ideal ← col amp_sites "Fe3_C_ideal";
  Fe2_C_ideal ← col amp_sites "Fe2_C_ideal";
  Fe2_B_ideal ← col amp_sites "Fe2_B_ideal";
  Ca_B_ideal ← col amp_sites "Ca_B_ideal";
  Na_A_ideal ← col amp_sites "Na_A_ideal";
  Ok (exp (#23.4870 - #0.0011 * (T_K - #273.15) + #(-2.5692) * Si_T_ideal -
      #1.3919 * Al_VI_C_ideal - #2.1195361 * Fe3_C_ideal - #1.0510775 *
      (Fe2_C_ideal + Fe2_B_ideal) - #2.0634034 * Ca_B_ideal - #1.5960633 *
      Na_A_ideal)).

(** [amp_sites.insert(0, name, formula)] and [amp_sites[name] = formula],
    the formula being evaluated on the frame as it is then. *)
Definition inserted (a : string * (DataFrame → result val))
    (amp_sites : DataFrame) : result DataFrame :=
  v ← a.2 amp_sites; insert_col amp_sites a.1 v.

Definition assigned (a : string * (DataFrame → result val))
    (amp_sites : DataFrame) : result DataFrame :=
  v ← a.2 amp_sites; Ok (set_col amp_sites a.1 v).

(** Lines 160-169: the two columns of the branch of Ridolfi (2021). *)
Definition Ridolfi21_columns : list (string * (DataFrame → result val)) :=
  [("deltaNNO_calc", Ridolfi21_deltaNNO_calc);
   ("H2O_calc", Ridolfi21_H2O_calc)].

(** Lines 176-221: the twelve columns of the branch of Zhang et al. (2017)
    that do not need the temperature, and (lines 224-230) the two that
    do. *)
Definition Zhang17_columns : list (string * (DataFrame → result val)) :=
  [("SiO2_Eq1", Zhang17_SiO2_Eq1); ("SiO2_Eq2", Zhang17_SiO2_Eq2);
   ("SiO2_Eq4", Zhang17_SiO2_Eq4); ("TiO2_Eq6", Zhang17_TiO2_Eq6);
   ("FeO_Eq7", Zhang17_FeO_Eq7); ("FeO_Eq8", Zhang17_FeO_Eq8);
   ("MgO_Eq9", Zhang17_MgO_Eq9); ("CaO_Eq10", Zhang17_CaO_Eq10);
   ("CaO_Eq11", Zhang17_CaO_Eq11); ("K2O_Eq12", Zhang17_K2O_Eq12);
   ("K2O_Eq13", Zhang17_K2O_Eq13); ("Al2O3_Eq14", Zhang17_Al2O3_Eq14)].

Definition Zhang17_columns_with (T_K : val)
  : list (string * (DataFrame → result val)) :=
  [("SiO2_Eq3", Zhang17_SiO2_Eq3 T_K); ("TiO2_Eq5", Zhang17_TiO2_Eq5 T_K)].

Definition Zhang17_warning : string :=
  "You must enter a value for T in Kelvin to get results from equation3".

(** [calculate_amp_only_melt_comps(amp_comps, equation, T_K)] (lines
    157-235); [None] is Python's [None], returned when the function ends
    without a [return]: the only [return] stands in the branch of
    [Zhang17]. *)
Definition calculate_amp_only_melt_comps (equation : option string)
    (T_K : option val) : M (option DataFrame) :=
  _ ← (if bool_decide (equation = Some "Ridolfi21") then
         amp ← the_amp_comps;
         amp_sites ← lift (calculate_sites_ridolfi core amp);
         _ ← lift (for_each Ridolfi21_columns inserted amp_sites);
         mret ()
       else mret ());
  if bool_decide (equation = Some "Zhang17") then
    _ ← match T_K with
        | None => warn Zhang17_warning
        | Some _ => mret ()
        end;
    amp ← the_amp_comps;
    amp_sites ← lift (get_amp_sites_avferric_zhang core amp);
    amp_sites ← lift (for_each Zhang17_columns assigned amp_sites);
    amp_sites ← match T_K with
                | Some T_K =>
                    lift (for_each (Zhang17_columns_with T_K) assigned
                            amp_sites)
                | None => mret amp_sites
                end;
    mret (Some amp_sites)
  else mret None.





End Melt.

(* ===================================================================== *)
(** ** What the properties of the amphibole-liquid functions speak of *)
(* ===================================================================== *)

(** What the column [Eq Putirka 2016?] holds for a value of [Kd]. *)
Definition Eq_label (Kd : float) : string :=
  if in_Putirka_range Kd then "Y" else "N".

(** The call, without the other unknown, of what a dispatcher returned for
    the marker. *)
Definition call_directly (r : liq_obj) : result liq_obj :=
  match r with
  | Plain (Deferred p) =>
      (λ v, Plain (Value v)) <$> call (p_func p) None (p_keywords p)
  | _ => Ok r
  end.

(** Na on M4 for a sample (lines 749-755), and the temperature of the
    equation for the twelve values of a sample. *)
Definition NaM4_of (x : float) : float :=
  if (x <=? 0.1)%float then 0%float else x.

Definition eq9_row (env : Env) (Si Ti Mg Fe Na FeL Al AlL K Ca NaL KL : float)
  : float :=
  let NaM4 := NaM4_of (2 - Fe - Ca) in
  (273.15 + 10073.5 /
     (9.75 + 0.934 * Si - 1.454 * Ti - 0.882 * Mg - 1.123 * Na
      - 0.322 * np_log env FeL - 0.7593 * np_log env (Al / AlL)
      - 0.15 * np_log env (K / (Na - NaM4) * (NaL / KL))))%float.

(** A column of [n] rows given by its values. *)
Definition column (n : nat) (c : nat → float) : list float := c <$> seq 0 n.

(* ===================================================================== *)
(** ** What the properties of the melt compositions and of the
       P_Ridolfi2021 path speak of *)
(* ===================================================================== *)

(** The site columns that the formulas of Zhang et al. (2017), and those of
    Ridolfi (2021), read. *)
Definition Zhang17_sites : list string :=
  ["Si_T_ideal"; "Al_VI_C_ideal"; "Mg_C_ideal"; "Mg_B_ideal"; "Fe3_C_ideal";
   "Fe2_C_ideal"; "Fe2_B_ideal"; "Ti_T_ideal"; "Ti_C_ideal"; "Ca_B_ideal";
   "Na_A_ideal"].


(** A formula that reads nothing of a frame but the columns [names]. *)
Definition reads_only (names : list string) (f : DataFrame → result val)
  : Prop :=
  ∀ df df',
    df_len df = df_len df' →
    (∀ n, n ∈ names → dict_get n (df_cols df) = dict_get n (df_cols df')) →
    f df = f df'.

(** A formula that fails only with the [KeyError] of a column of [names]
    that the frame lacks. *)
Definition needs_only (names : list string) (f : DataFrame → result val)
  : Prop :=
  ∀ df,
    match f df with
    | Ok _ => True
    | Raise e => ∃ n, n ∈ names ∧ has_col df n = false ∧ e = KeyError n
    end.

(** The pressure in MPa that an equation of Ridolfi and Renzulli (2012)
    gives for row [i] of the table of cations, as lines 330-345 compute
    it. *)
Definition P_MPa_in (f : pyfunc) (cat13 : DataFrame) (i : nat)
  : option float :=
  match kwargs_from cat13 (kwonly f) with
  | Ok kw =>
      match call f (Some (Scalar 0)) kw with
      | Ok v => vget (lift2 PrimFloat.mul (Scalar 100) v) i
      | Raise _ => None
      end
  | Raise _ => None
  end.

(** Stand-ins to run the amphibole-liquid functions: an amphibole table that
    holds its normalised columns and molar proportions, a liquid table that
    holds its hydrous and anhydrous fractions, normalisations that return
    the table they are given, and a concatenation that keeps the first
    column of each name. *)
Module Example_liq.

Local Open Scope float_scope.

Definition amp : DataFrame := {|
  df_len := 3;
  df_cols :=
    [ ("SiO2_Amp_cat_23ox",  [6.3; 6.3; 6.3]);
      ("TiO2_Amp_cat_23ox",  [0.25; 0.25; 0.25]);
      ("Al2O3_Amp_cat_23ox", [2.05; 2.05; 2.05]);
      ("FeOt_Amp_cat_23ox",  [1.5; 0.2; 1.5]);
      ("MgO_Amp_cat_23ox",   [3.1; 3.1; 3.1]);
      ("CaO_Amp_cat_23ox",   [1.8; 1.6; 1.8]);
      ("Na2O_Amp_cat_23ox",  [0.66; 0.66; 0.66]);
      ("K2O_Amp_cat_23ox",   [0.11; 0.11; 0.11]);
      ("FeOt_Amp_mol_prop",  [0.17; 0.17; 0.17]);
      ("MgO_Amp_mol_prop",   [0.35; 0.35; 0.10]) ] |}.

Definition liq : DataFrame := {|
  df_len := 3;
  df_cols :=
    [ ("SiO2_Liq_mol_frac_hyd",  [0.55; 0.55; 0.55]);
      ("TiO2_Liq_mol_frac_hyd",  [0.008; 0.008; 0.008]);
      ("Al2O3_Liq_mol_frac_hyd", [0.10; 0.10; 0.10]);
      ("FeOt_Liq_mol_frac_hyd",  [0.06; 0.06; 0.06]);
      ("MnO_Liq_mol_frac_hyd",   [0.001; 0.001; 0.001]);
      ("MgO_Liq_mol_frac_hyd",   [0.04; 0.04; 0.04]);
      ("CaO_Liq_mol_frac_hyd",   [0.07; 0.07; 0.07]);
      ("Na2O_Liq_mol_frac_hyd",  [0.04; 0.04; 0.04]);
      ("K2O_Liq_mol_frac_hyd",   [0.02; 0.02; 0.02]);
      ("P2O5_Liq_mol_frac_hyd",  [0.002; 0.002; 0.002]);
      ("H2O_Liq_mol_frac_hyd",   [0.10; 0.10; 0.10]);
      ("Al2O3_Liq_mol_frac",     [0.11; 0.11; 0.11]);
      ("Na2O_Liq_mol_frac",      [0.045; 0.045; 0.045]);
      ("P2O5_Liq_mol_frac",      [0.002; 0.002; 0.002]) ] |}.

(** The columns of the frames side by side, the first of each name kept. *)
Definition add_column (n : nat) (cols : dict (list float))
    (c : string * list float) : dict (list float) :=
  if bool_decide (is_Some (dict_get c.1 cols)) then cols
  else (cols ++ [(c.1, as_column n (Series c.2))])%list.

Definition first_of_each_name (frames : list DataFrame) : DataFrame :=
  let n := foldr (λ df, Nat.max (df_len df)) 0%nat frames in
  {| df_len := n;
     df_cols :=
       foldl (λ cols df, foldl (add_column n) cols (df_cols df)) [] frames |}.

Definition core : Core := {|
  calculate_hydrous_cat_fractions_liquid := Ok;
  calculate_anhydrous_cat_fractions_liquid := Ok;
  calculate_mol_proportions_amphibole := Example.given;
  pd_concat := first_of_each_name;
  calculate_sites_ridolfi := Example.given;
  get_amp_sites_avferric_zhang := Example.given;
  get_amp_sites_from_input := Example.given;
  np_sort := λ xs, xs;
  np_sort_length := λ xs, eq_refl;
  plt_step := λ _ _, Ok () |}.

End Example_liq.

(** A site table of two amphiboles with the columns that both sets of
    formulas read. *)
Module Example_melt.

Local Open Scope float_scope.

Definition sites : DataFrame := {|
  df_len := 2;
  df_cols :=
    [("Si_T_ideal", [6.3; 6.5]); ("Al_VI_C_ideal", [0.4; 0.3]);
     ("Mg_C_ideal", [3.1; 2.9]); ("Mg_B_ideal", [0.05; 0]);
     ("Fe3_C_ideal", [0.6; 0.5]); ("Fe2_C_ideal", [0.8; 1.1]);
     ("Fe2_B_ideal", [0.1; 0.08]); ("Ti_T_ideal", [0; 0]);
     ("Ti_C_ideal", [0.2; 0.25]); ("Ca_B_ideal", [1.8; 1.75]);
     ("Na_A_ideal", [0.5; 0.45]);
     ("Al_IV_T", [1.7; 1.5]); ("Al_VI_C", [0.4; 0.3]); ("Ti_C", [0.2; 0.25]);
     ("Fe3_C", [0.6; 0.5]); ("Mg_C", [3.1; 2.9]); ("Fe2_C", [0.8; 1.1]);
     ("Mn_C", [0.02; 0.03]); ("Ca_B", [1.8; 1.75]); ("Na_A", [0.5; 0.45]);
     ("K_A", [0.15; 0.2])] |}.

End Example_melt.

(* ===================================================================== *)
(** * Properties *)
(* ===================================================================== *)

Open Scope list_scope.
Open Scope nat_scope.

(** ** Series and columns, label by label *)

Lemma align_lookup op xs ys i x y :
  xs !! i = Some x → ys !! i = Some y →
  align op xs ys !! i = Some (op x y).
Proof.
  revert ys i. induction xs as [|x' xs IH]; intros [|y' ys] [|i] Hx Hy;
    simplify_eq/=; eauto.
Qed.

Lemma align_length_same op xs ys :
  length xs = length ys → length (align op xs ys) = length xs.
Proof.
  revert ys. induction xs as [|x xs IH]; intros [|y ys] H; simplify_eq/=; auto.
Qed.

Lemma for_each_app {A S} (xs ys : list A) (body : A → S → result S) st :
  for_each (xs ++ ys) body st = st' ← for_each xs body st; for_each ys body st'.
Proof.
  revert st. induction xs as [|x xs IH]; intros st; simpl.
  - reflexivity.
  - destruct (body x st) as [st'|e]; simpl; [apply IH | reflexivity].
Qed.

(** A loop over [range(n)] whose pass [i] stores [f i] at [i] leaves the
    array [f 0, ..., f (n-1)], whatever the array held. *)
Lemma fill_loop {A S} (body : nat → S → result S) (get : S → list A)
    (f : nat → A) n :
  (∀ i st, i < n → length (get st) = n →
     ∃ st', body i st = Ok st' ∧ get st' = <[i := f i]> (get st)) →
  ∀ st, length (get st) = n →
  ∃ st', for_each (seq 0 n) body st = Ok st' ∧ get st' = f <$> seq 0 n.
Proof.
  intros Hbody st Hlen.
  assert (∀ k, k ≤ n → ∃ st', for_each (seq 0 k) body st = Ok st' ∧
            get st' = (f <$> seq 0 k) ++ drop k (get st)) as Hk.
  { induction k as [|k IH]; intros Hle.
    - exists st. by rewrite drop_0.
    - destruct IH as (st1 & Hrun & Hget); [lia|].
      assert (length (get st1) = n) as Hlen1.
      { rewrite Hget, length_app, length_fmap, length_seq, length_drop. lia. }
      destruct (Hbody k st1) as (st2 & Hb & Hget2); [lia|done|].
      exists st2. split.
      + rewrite seq_S, for_each_app, Hrun. simpl. by rewrite Hb.
      + rewrite Hget2, Hget, seq_S, fmap_app. simpl.
        destruct (lookup_lt_is_Some_2 (get st) k) as [y Hy]; [lia|].
        rewrite (drop_S _ _ _ Hy).
        rewrite insert_app_r_alt by (rewrite length_fmap, length_seq; lia).
        rewrite length_fmap, length_seq, Nat.sub_diag. simpl.
        by rewrite <- app_assoc. }
  destruct (Hk n) as (st' & Hrun & Hget); [lia|].
  exists st'. split; [done|].
  rewrite Hget, drop_ge by lia. by rewrite app_nil_r.
Qed.

(** ** The selection loop *)

Lemma vindex_fmap {A} (f : A → float) (l : list A) i x :
  l !! i = Some x → vindex (Series (f <$> l)) i = Ok (f x).
Proof. intros H. simpl. by rewrite list_lookup_fmap, H. Qed.

Lemma vindex_lift2 op u v i x y :
  vindex u i = Ok x → vindex v i = Ok y →
  vindex (lift2 op u v) i = Ok (op x y).
Proof.
  destruct u as [?|xs], v as [?|ys]; simpl; try discriminate.
  destruct (xs !! i) as [x'|] eqn:Hx; [|discriminate].
  destruct (ys !! i) as [y'|] eqn:Hy; [|discriminate].
  intros [= ->] [= ->]. by rewrite (align_lookup _ _ _ _ _ _ Hx Hy).
Qed.

(** One pass of the loop on Series that have a value at [i]. *)
Lemma loop_body_ok A B C D E X Dl S i st a b c d e s :
  vindex A i = Ok a → vindex B i = Ok b → vindex C i = Ok c →
  vindex D i = Ok d → vindex E i = Ok e →
  vindex X i = Ok ((a - e) / a)%float → vindex Dl i = Ok (d - b)%float →
  vindex S i = Ok s →
  Selection.loop_body A B C D E X Dl S i st
  = Ok (<[i := if (s <? 90)%float then nan else (Selection.select a b c d e).1]>
          st.1,
        <[i := (Selection.select a b c d e).2]> st.2).
Proof.
  intros HA HB HC HD HE HX HDl HS. unfold Selection.loop_body, Selection.select.
  rewrite HB. simpl.
  repeat (match goal with
          | |- context [if ?t then _ else _] =>
              lazymatch t with
              | context [if _ then _ else _] => fail
              | _ => destruct t eqn:?
              end
          end;
          rewrite ?HA, ?HC, ?HD, ?HE, ?HX, ?HDl, ?HS; simpl);
    rewrite ?list_insert_insert_eq; reflexivity.
Qed.

Lemma fmap_seq_lookup {A B} (g : A → B) (l : list A) (dflt : B) :
  (λ i, from_option g dflt (l !! i)) <$> seq 0 (length l) = g <$> l.
Proof.
  apply list_eq. intros i. rewrite !list_lookup_fmap.
  destruct (decide (i < length l)) as [Hlt|Hge].
  - rewrite lookup_seq_lt by done. simpl.
    destruct (lookup_lt_is_Some_2 l i Hlt) as [x Hx]. by rewrite Hx.
  - rewrite lookup_seq_ge by lia. rewrite lookup_ge_None_2 by lia. done.
Qed.

(** The loop on a batch of samples: it raises nothing and leaves, for each
    sample, what the chain selects and its label, whatever the two arrays
    held at first. *)
Lemma selection_loop_samples empty_float empty_str (samples : list sample) :
  Selection.selection_loop empty_float empty_str
    (Series (s_1a <$> samples)) (Series (s_1b <$> samples))
    (Series (s_1c <$> samples)) (Series (s_1d <$> samples))
    (Series (s_1e <$> samples)) (Series (s_sum <$> samples))
  = Ok (P_MPa_of <$> samples, name_of <$> samples).
Proof.
  unfold Selection.selection_loop. cbn [vlen mbind result_bind].
  rewrite length_fmap. set (n := length samples).
  set (body := Selection.loop_body _ _ _ _ _ _ _ _).
  set (st0 := (empty_float <$> seq 0 n, empty_str <$> seq 0 n)).
  assert (∀ i st, i < n →
            body i st = Ok (<[i := from_option P_MPa_of nan (samples !! i)]> st.1,
                            <[i := from_option name_of "" (samples !! i)]> st.2))
    as Hbody.
  { intros i st Hi. destruct (lookup_lt_is_Some_2 samples i Hi) as [s Hs].
    rewrite Hs. simpl. unfold body, P_MPa_of, name_of.
    apply loop_body_ok; try (by apply vindex_fmap).
    - apply vindex_lift2; [apply vindex_lift2|]; by apply vindex_fmap.
    - apply vindex_lift2; by apply vindex_fmap. }
  destruct (fill_loop body fst (λ i, from_option P_MPa_of nan (samples !! i)) n)
    with (st := st0) as (st1 & Hrun1 & Hfst).
  { intros i st Hi _. rewrite (Hbody i st Hi). eauto. }
  { unfold st0. simpl. by rewrite length_fmap, length_seq. }
  destruct (fill_loop body snd (λ i, from_option name_of "" (samples !! i)) n)
    with (st := st0) as (st2 & Hrun2 & Hsnd).
  { intros i st Hi _. rewrite (Hbody i st Hi). eauto. }
  { unfold st0. simpl. by rewrite length_fmap, length_seq. }
  rewrite Hrun1 in Hrun2. injection Hrun2 as <-.
  rewrite Hrun1. f_equal. destruct st1 as [P names]. simpl in *.
  subst n. by rewrite Hfst, Hsnd, !fmap_seq_lookup.
Qed.

(** The chain of the source selects what the documented rules select. *)
Lemma select_documented a b c d e :
  (Selection.select a b c d e).1
  = Documented.selected_pressure
      {| Documented.est_a := a; Documented.est_b := b; Documented.est_c := c;
         Documented.est_d := d; Documented.est_e := e |}.
Proof.
  unfold Selection.select, Documented.selected_pressure, Documented.rules,
    Documented.first_match, Documented.x, Documented.delta, Documented.average.
  simpl.
  repeat match goal with
         | |- context [if ?t then _ else _] => destruct t
         end; reflexivity.
Qed.

(** C1: for every sample of a batch the selection loop of the P_Ridolfi2021
    branch stores in [P_MPa] the estimate the eleven documented rules select,
    tried in the documented order with the first match winning (and NaN when
    the sample's oxide sum is below 90, the overwrite that follows the
    selection); the loop raises nothing, whatever the arrays held before. *)
Theorem selection_loop_follows_documented_rules
    empty_float empty_str (samples : list sample) :
  fst <$> Selection.selection_loop empty_float empty_str
    (Series (s_1a <$> samples)) (Series (s_1b <$> samples))
    (Series (s_1c <$> samples)) (Series (s_1d <$> samples))
    (Series (s_1e <$> samples)) (Series (s_sum <$> samples))
  = Ok ((λ s, if (s_sum s <? 90)%float then nan
              else Documented.selected_pressure (estimates_of s)) <$> samples).
Proof.
  rewrite selection_loop_samples. simpl. f_equal.
  apply list_fmap_ext. intros i s _. unfold P_MPa_of, estimates_of.
  by rewrite select_documented.
Qed.

(** ** Columns and masks, row by row *)

Lemma as_column_length n v : length (as_column n v) = n.
Proof. unfold as_column. by rewrite length_fmap, length_seq. Qed.

Lemma as_column_lookup n v i :
  i < n → as_column n v !! i = Some (default nan (vget v i)).
Proof.
  intros Hi. unfold as_column.
  by rewrite list_lookup_fmap, lookup_seq_lt.
Qed.

Lemma loc_set_length {A} m (v : A) column :
  length (loc_set m v column) = length column.
Proof. unfold loc_set. by rewrite length_imap. Qed.

Lemma loc_set_lookup {A} m (v : A) column i :
  loc_set m v column !! i
  = (λ c, if selects m i then v else c) <$> column !! i.
Proof. unfold loc_set. by rewrite list_lookup_imap. Qed.

Lemma full_lookup {A} n (x : A) i : i < n → full n x !! i = Some x.
Proof. intros Hi. by apply lookup_replicate_2. Qed.

Lemma selects_series_scalar rel xs k i x :
  xs !! i = Some x → selects (cmp rel (Series xs) (Scalar k)) i = rel x k.
Proof.
  intros Hx. unfold selects. simpl. by rewrite list_lookup_fmap, Hx.
Qed.

Lemma selects_is_False column i b :
  column !! i = Some b → selects (is_False column) i = negb b.
Proof.
  intros Hb. unfold selects, is_False. simpl. by rewrite list_lookup_fmap, Hb.
Qed.

(** A comparison that is false on NaN selects a row exactly when the value
    laid on the frame's index satisfies it. *)
Lemma selects_as_column rel v k n i :
  rel nan k = false → i < n →
  selects (cmp rel v (Scalar k)) i
  = rel (default nan (as_column n v !! i)) k.
Proof.
  intros Hnan Hi. rewrite as_column_lookup by done. simpl.
  unfold selects. destruct v as [x|xs]; simpl; [done|].
  rewrite list_lookup_fmap. by destruct (xs !! i).
Qed.

(** ** The input checks, row by row *)

Lemma last_cons_default {A} (x : A) l d :
  default d (last (x :: l)) = default x (last l).
Proof. rewrite last_cons. by destruct (last l). Qed.

(** Overwriting a reason at each failing check leaves the message of the
    last failing check. *)
Lemma fold_last_failing (checks : list (bool * string)) init :
  foldl (λ (acc : string) (c : bool * string), if c.1 then c.2 else acc)
    init checks
  = default init (last (Gate.failing checks)).
Proof.
  revert init. induction checks as [|[b s] cs IH]; intros init; simpl.
  - reflexivity.
  - rewrite IH. unfold Gate.failing. rewrite filter_cons. simpl.
    destruct b; simpl; [|done].
    by rewrite last_cons_default.
Qed.

(** Clearing the flag at each failing check leaves it set exactly when no
    check fails. *)
Lemma fold_passes (checks : list (bool * string)) init :
  foldl (λ (acc : bool) (c : bool * string), if c.1 then false else acc)
    init checks
  = init && Gate.passes checks.
Proof.
  revert init. induction checks as [|[b s] cs IH]; intros init; simpl.
  - by rewrite andb_true_r.
  - rewrite IH. unfold Gate.passes, Gate.failing. rewrite filter_cons. simpl.
    destruct b; simpl.
    + by rewrite andb_false_r.
    + done.
Qed.

Lemma col_Ok df name v :
  col df name = Ok v →
  ∃ xs, v = Series xs ∧ length xs = df_len df.
Proof.
  unfold col. destruct (dict_get name (df_cols df)); intros [= <-].
  eexists. split; [done|]. apply as_column_length.
Qed.

Lemma selects_series rel xs k i x :
  xs !! i = Some x →
  selects (cmp rel (Series xs) (Scalar k)) i = rel x k.
Proof. apply selects_series_scalar. Qed.

Ltac name_column H proj X :=
  match type of H with
  | Ok ?r = _ =>
      let t := eval cbv beta iota delta [proj] in (proj r) in
      set (X := t) in *
  end.

Ltac cell_of X x Hx Hi :=
  let Hlen := fresh "Hlen" in
  assert (length X = _) as Hlen by apply as_column_length;
  destruct (lookup_lt_is_Some_2 X _ ltac:(rewrite Hlen; exact Hi)) as [x Hx];
  clear Hlen; clearbody X.

(** What the checks leave in row [i] of the three columns they write. *)
Lemma input_checks_row cat13 amp S A P name out i :
  input_checks cat13 amp S A P name = Ok out → i < df_len cat13 →
  Calcs.cat13_columns out = cat13 ∧
  Calcs.Fail_Msg out !! i
    = Some (Gate.last_failing (Gate.checks_in_order out i)) ∧
  Calcs.Input_Check out !! i
    = Some (Gate.passes (Gate.checks_in_order out i)) ∧
  Calcs.P_kbar_calc out !! i
    = Some (if Gate.passes (Gate.checks_in_order out i)
            then default nan ((λ p, p / 100)%float <$> P !! i) else nan).
Proof.
  intros H Hi. unfold input_checks in H.
  repeat match type of H with
  | context [col ?df ?nm] =>
      let E := fresh "E" in
      destruct (col df nm) as [?|?] eqn:E; cbn [mbind result_bind] in H; [|discriminate]
  end.
  name_column H Calcs.B_Sum B_Sum.
  name_column H Calcs.Mgno_Fe2 Mgno_Fe2.
  name_column H Calcs.Total_recalc Total_recalc.
  name_column H Calcs.Fe2_calc Fe2_calc.
  name_column H Calcs.Charge Charge.
  name_column H Calcs.Sum_input Sum_input.
  assert (selects (S <? #90)%val i = (Gate.cell Sum_input i <? 90)%float) as HS.
  { unfold Gate.cell. by apply selects_as_column. }
  cell_of B_Sum b_sum Hb Hi. cell_of Mgno_Fe2 mgno Hm Hi.
  cell_of Total_recalc tot Ht Hi. cell_of Fe2_calc fe2 Hf Hi.
  cell_of Charge charge Hc Hi. clearbody Sum_input.
  destruct (col_Ok _ _ _ E9) as (Ca & -> & HCa).
  destruct (lookup_lt_is_Some_2 Ca i ltac:(rewrite HCa; exact Hi)) as [ca Hca].
  injection H as <-.
  unfold Gate.checks_in_order, Gate.frame_cell.
  cbn [Calcs.Fail_Msg Calcs.Input_Check Calcs.P_kbar_calc Calcs.cat13_columns
       Calcs.Sum_input Calcs.Total_recalc Calcs.Charge Calcs.Fe2_calc
       Calcs.Mgno_Fe2 Calcs.B_Sum].
  rewrite E9. cbn [vget lift2 cmp].
  set (IC := loc_set _ false _).
  assert (IC !! i = Some (Gate.passes
    [((Gate.cell Sum_input i <? 90)%float, "Cation oxide Total<90");
     ((Gate.cell Total_recalc i <? 98.5)%float, "Recalc Total<98.5");
     ((Gate.cell Total_recalc i >? 102)%float, "Recalc Total>102");
     ((Gate.cell Charge i >? 46.5)%float, "unbalanced charge (>46.5)");
     ((Gate.cell Fe2_calc i <? 0)%float, "unbalanced charge (Fe2<0)");
     ((100 * Gate.cell Mgno_Fe2 i <? 54)%float, "Low Mg# (<54)");
     ((default nan (Ca !! i) <? 1.5)%float, "Low Ca (<1.5)");
     ((default nan (Ca !! i) >? 2.05)%float, "High Ca (>2.05)");
     ((Gate.cell B_Sum i <? 1.99)%float, "Low B Cations")])) as HIC.
  { unfold IC. rewrite !loc_set_lookup, full_lookup by done.
    rewrite HS. unfold selects, Gate.cell. cbn [mget].
    rewrite !list_lookup_fmap, Hb, Hm, Ht, Hf, Hc, Hca.
    cbn [fmap option_fmap option_map default].
    rewrite <- (andb_true_l (Gate.passes _)), <- fold_passes.
    reflexivity. }
  split; [done|]. split; [|split; [done|]].
  - rewrite !loc_set_lookup, full_lookup by done.
    rewrite HS. unfold selects, Gate.cell. cbn [mget].
    rewrite !list_lookup_fmap, Hb, Hm, Ht, Hf, Hc, Hca.
    cbn [fmap option_fmap option_map default].
    unfold Gate.last_failing. rewrite <- fold_last_failing. reflexivity.
  - rewrite loc_set_lookup, as_column_lookup by done.
    rewrite (selects_is_False _ _ _ HIC).
    cbn [vget fmap option_fmap option_map]. rewrite list_lookup_fmap.
    by destruct (Gate.passes _).
Qed.

(** C6: on a sample that rule 5 takes (b = 400, c = 420, d = 480, a = 1000,
    e = 100: x = 0.9 > 0.22) the loop stores the average of c and d under the
    label [1c+1d], while on a sample that rule 10 takes (d = 500, e = 900:
    delta = 100, x = 0.1) it stores the average of c and d under the label
    [(1c+1d)/2]; [1c+1d] is none of the seven documented labels, so the
    labels the loop writes are eight, and rules 5 and 10 do not record the
    same one. *)
Theorem rule_5_writes_an_eighth_label empty_float empty_str :
  Selection.selection_loop empty_float empty_str
    (Series [1000; 1000]%float) (Series [400; 400]%float)
    (Series [420; 420]%float) (Series [480; 500]%float)
    (Series [100; 900]%float) (Series [97; 97]%float)
  = Ok ([450; 460]%float, ["1c+1d"; "(1c+1d)/2"])
  ∧ (∀ l, Documented.written l ≠ "1c+1d")
  ∧ Documented.written Documented.L_cd = "(1c+1d)/2".
Proof.
  split; [|split].
  - pose (s5 := {| s_1a := 1000; s_1b := 400; s_1c := 420; s_1d := 480;
                   s_1e := 100; s_sum := 97 |}%float).
    pose (s10 := {| s_1a := 1000; s_1b := 400; s_1c := 420; s_1d := 500;
                    s_1e := 900; s_sum := 97 |}%float).
    exact (selection_loop_samples empty_float empty_str [s5; s10]).
  - intros []; discriminate.
  - reflexivity.
Qed.

(** ** The coupled solver *)

Lemma for_each_rounds (P_func T_func : partial) k n st :
  for_each (seq k n) (λ _, iteration P_func T_func) st
  = Solver.rounds n (call_partial P_func) (call_partial T_func) st.
Proof.
  revert k st. induction n as [|n IH]; intros k st; simpl; [done|].
  change (iteration P_func T_func st)
    with (Solver.round (call_partial P_func) (call_partial T_func) st).
  destruct (Solver.round _ _ st) as [st'|e]; simpl; [apply IH|done].
Qed.

(** After at least one round [P] is bound. *)
Lemma rounds_bind_P n P_d T_d st st' :
  Solver.rounds (S n) P_d T_d st = Ok st' → is_Some st'.1.
Proof.
  revert st. induction n as [|n IH]; intros st.
  - simpl. unfold Solver.round.
    destruct (P_d st.2) as [P|]; simpl; [|done].
    destruct (T_d P) as [T|]; simpl; [|done].
    intros [= <-]. simpl. eauto.
  - change (Solver.rounds (S (S n)) P_d T_d st)
      with (st1 ← Solver.round P_d T_d st; Solver.rounds (S n) P_d T_d st1).
    destruct (Solver.round P_d T_d st) as [st1|]; simpl; [|done].
    apply IH.
Qed.

(** Without a round [P_guess] is never assigned and the frame cannot be
    built. *)
Lemma solve_without_rounds (P_func T_func : partial) T_K_guess :
  solve (Partial P_func) (Partial T_func) 0 T_K_guess
  = Raise (UnboundLocalError "P_guess").
Proof. reflexivity. Qed.

(** C2: given a deferred pressure evaluator and a deferred temperature
    evaluator, the solver starts from [T_K_guess] with [P_guess] unassigned,
    runs exactly [iterations] rounds [P <- P_func(T); T <- T_func(P)] with no
    other test, and builds its frame from the pair the last round left: a
    pressure that is a Series, as an equation gives it from the columns of a
    table, and the temperature are returned as they are; the default count
    is 30. *)
Theorem solver_runs_the_fixed_rounds (P_func T_func : partial)
    (iterations : nat) (T_K_guess : val) :
  solve (Partial P_func) (Partial T_func) iterations T_K_guess
  = (st ← Solver.rounds iterations (call_partial P_func)
            (call_partial T_func) (None, T_K_guess);
     PT_out st)
  ∧ (∀ P T, PT_out (Some (Series P), T) = Ok (PTFrame (Series P) T))
  ∧ default_iterations = 30.
Proof.
  split; [|split; [|reflexivity]].
  - unfold solve. cbn [mbind result_bind]. by rewrite for_each_rounds.
  - by intros P [].
Qed.

(** C7: when a side is a Series the solver runs no round, whatever
    [iterations] is: two Series are returned as they are, and a Series with a
    deferred side gives one call of the deferred side on the Series. *)
Theorem solver_short_circuits_on_a_series :
  (∀ p t iterations T_K_guess,
     solve (Num (Series p)) (Num (Series t)) iterations T_K_guess
     = Ok (PTFrame (Series p) (Series t)))
  ∧ (∀ P_func t iterations T_K_guess,
       solve (Partial P_func) (Num (Series t)) iterations T_K_guess
       = (P_guess ← call_partial P_func (Series t);
          Ok (PTFrame P_guess (Series t))))
  ∧ (∀ p T_func iterations T_K_guess,
       solve (Num (Series p)) (Partial T_func) iterations T_K_guess
       = (T_K ← call_partial T_func (Series p);
          Ok (PTFrame (Series p) T_K))).
Proof.
  split; [|split]; intros; unfold solve; cbn [mbind result_bind].
  - reflexivity.
  - destruct (call_partial _ _) as [[?|?]|?]; reflexivity.
  - destruct (call_partial _ _) as [[?|?]|?]; reflexivity.
Qed.

(** ** Running a call step by step *)

Lemma run_bind {A B} (m : M A) (k : A → M B) t :
  (m ≫= k) t
  = match m t with
    | Outcome (Ok a) t' lines messages => after lines messages (k a t')
    | Outcome (Raise e) t' lines messages =>
        Outcome (Raise e) t' lines messages
    end.
Proof. reflexivity. Qed.

Lemma run_mret {A} (a : A) t : (mret a : M A) t = Outcome (Ok a) t [] [].
Proof. reflexivity. Qed.

Lemma after_nil {A} (o : outcome A) : after [] [] o = o.
Proof. by destruct o. Qed.

Lemma after_after {A} l1 m1 l2 m2 (o : outcome A) :
  after l1 m1 (after l2 m2 o) = after (l1 ++ l2) (m1 ++ m2) o.
Proof. unfold after. simpl. by rewrite !app_assoc. Qed.

Lemma run_mret_bind {A B} (a : A) (k : A → M B) t :
  (mret a ≫= k) t = k a t.
Proof. rewrite run_bind, run_mret. apply after_nil. Qed.

(** One step of a call: the outermost bind is run on the current table. *)
Ltac mstep :=
  first
    [ rewrite run_mret_bind
    | rewrite run_bind
    | rewrite run_mret
    | rewrite after_nil
    | progress unfold raise, lift, print, warn, the_amp_comps,
        write_amp_comps, the_frame
    | progress cbn [after returned amp_comps stdout warnings app] ].
Ltac mrun := repeat mstep.

(** Two calls that start alike and continue alike are alike. *)
Lemma bind_ext {A B} (m : M A) (k1 k2 : A → M B) t :
  (∀ a t', k1 a t' = k2 a t') → (m ≫= k1) t = (m ≫= k2) t.
Proof.
  intros H. rewrite !run_bind.
  destruct (m t) as [[a|e] t' ? ?]; [by rewrite H|done].
Qed.

Lemma then_call_bind {A} x (m : M A) (k : A → M pyobj) t :
  then_call x (m ≫= k) t = (m ≫= λ a, then_call x (k a)) t.
Proof.
  unfold then_call. rewrite !run_bind.
  destruct (m t) as [[a|e] t' ? ?]; [|done].
  by destruct (k a t') as [[?|?] ? ? ?].
Qed.

(** A call raises when what follows any outcome of its first step raises. *)
Definition raises {A} (o : outcome A) : Prop := ∃ e, returned o = Raise e.

Lemma bind_raises {A B} (m : M A) (k : A → M B) t :
  (∀ a t', raises (k a t')) → raises ((m ≫= k) t).
Proof.
  intros H. unfold raises. rewrite run_bind.
  destruct (m t) as [[a|e] t' ? ?]; [|by eauto].
  destruct (H a t') as [e He]. exists e. by rewrite <- He.
Qed.

Lemma bind_Ok {A B} (m : M A) (k : A → M B) t r :
  returned ((m ≫= k) t) = Ok r →
  ∃ a t', returned (m t) = Ok a ∧ amp_comps (m t) = t'
          ∧ returned (k a t') = Ok r.
Proof.
  rewrite run_bind. destruct (m t) as [[a|e] t' ? ?]; [|discriminate].
  simpl. eauto.
Qed.

(** ** The registries *)

Lemma by_name_Some fs name f :
  by_name fs !! name = Some f → f ∈ fs ∧ func_name f = name.
Proof.
  unfold by_name. intros H. apply elem_of_list_to_map_2 in H.
  apply list_elem_of_fmap in H as (p & [= -> ->] & Hp). done.
Qed.

Lemma not_registered_P env :
  Amp_only_P_funcs_by_name env !! "P_Ridolfi2021" = None ∧
  Amp_only_P_funcs_by_name env !! "P_Mutch2016" = None.
Proof. split; vm_compute; reflexivity. Qed.

Lemma registered_P_guard env equationP f :
  Amp_only_P_funcs_by_name env !! equationP = Some f →
  bool_decide (equationP ≠ "P_Ridolfi2021")
  && bool_decide (equationP ≠ "P_Mutch2016") = true.
Proof.
  intros Hf. destruct (not_registered_P env) as [H1 H2].
  rewrite !bool_decide_true; [done| |]; intros ->; congruence.
Qed.

(** The one barometer of the registry that takes the temperature, and the
    three thermometers that take the pressure. *)
Lemma dependent_P env equationP f :
  Amp_only_P_funcs_by_name env !! equationP = Some f →
  pos_default_is_None f = false →
  equationP = "P_Anderson1995" ∧ f = P_Anderson1995.
Proof.
  intros Hf Hd. apply by_name_Some in Hf as [Hin <-].
  unfold Amp_only_P_funcs in Hin.
  repeat (apply elem_of_cons in Hin as [->|Hin]; [by try discriminate Hd|]).
  by apply elem_of_nil in Hin.
Qed.

Lemma dependent_T env equationT f :
  Amp_only_T_funcs_by_name env !! equationT = Some f →
  pos_default_is_None f = false →
  (equationT = "T_Put2016_eq6" ∧ f = T_Put2016_eq6)
  ∨ (equationT = "T_Put2016_eq8" ∧ f = T_Put2016_eq8)
  ∨ (equationT = "T_Ridolfi2012" ∧ f = T_Ridolfi2012 env).
Proof.
  intros Hf Hd. apply by_name_Some in Hf as [Hin <-].
  unfold Amp_only_T_funcs in Hin.
  repeat (apply elem_of_cons in Hin as [->|Hin];
          [by first [discriminate Hd | auto] |]).
  by apply elem_of_nil in Hin.
Qed.

(** The body of a function whose argument defaults to [None] does not read
    the argument. *)
Lemma independent_body_P env f x kw :
  f ∈ Amp_only_P_funcs env → pos_default_is_None f = true →
  body f (Some x) kw = body f None kw.
Proof.
  intros Hin Hd. unfold Amp_only_P_funcs in Hin.
  repeat (apply elem_of_cons in Hin as [->|Hin];
          [by first [discriminate Hd | reflexivity] |]).
  by apply elem_of_nil in Hin.
Qed.

Lemma independent_body_T env f x kw :
  f ∈ Amp_only_T_funcs env → pos_default_is_None f = true →
  body f (Some x) kw = body f None kw.
Proof.
  intros Hin Hd. unfold Amp_only_T_funcs in Hin.
  repeat (apply elem_of_cons in Hin as [->|Hin];
          [by first [discriminate Hd | reflexivity] |]).
  by apply elem_of_nil in Hin.
Qed.

(** ** The checks on the equation and on the argument *)

Section Lookup_and_check.

Context (registry : gmap string pyfunc) (equation : string) (f : pyfunc).
Context (needs advisory mismatch : string).
Hypothesis registered : registry !! equation = Some f.

(** What the call prints for an argument that is not [None]. *)
Definition advice : list string :=
  if pos_default_is_None f then [advisory] else [].

Lemma lookup_and_check_number x t :
  fits x t →
  lookup_and_check registry equation (PyNum x) needs advisory mismatch t
  = Outcome (Ok f) t advice [].
Proof.
  intros Hfits. unfold lookup_and_check, advice. rewrite registered. mrun.
  unfold fits in Hfits.
  destruct (pos_default_is_None f); cbn [negb]; mrun;
    destruct x as [x|xs]; cbn [series_of]; mrun; try reflexivity;
    destruct t as [df|]; mrun; try reflexivity;
    rewrite bool_decide_false by (intros ?; done); mrun; reflexivity.
Qed.

Lemma lookup_and_check_string s t :
  lookup_and_check registry equation (PyStr s) needs advisory mismatch t
  = Outcome (Ok f) t advice [].
Proof.
  unfold lookup_and_check, advice. rewrite registered. mrun.
  destruct (pos_default_is_None f); cbn [negb series_of]; mrun; reflexivity.
Qed.

Lemma lookup_and_check_None t :
  pos_default_is_None f = true →
  lookup_and_check registry equation PyNone needs advisory mismatch t
  = Outcome (Ok f) t [] [].
Proof.
  intros Hd. unfold lookup_and_check. rewrite registered. mrun.
  rewrite Hd. cbn [negb series_of]. mrun. reflexivity.
Qed.

Lemma lookup_and_check_mismatch xs df :
  length xs ≠ df_len df →
  lookup_and_check registry equation (PyNum (Series xs)) needs advisory
    mismatch (Some df)
  = Outcome (Raise (ValueError mismatch)) (Some df) advice [].
Proof.
  intros Hlen. unfold lookup_and_check, advice. rewrite registered. mrun.
  destruct (pos_default_is_None f); cbn [negb series_of]; mrun;
    rewrite bool_decide_true by done; mrun; reflexivity.
Qed.

End Lookup_and_check.

(** C9 (amended): for an equation of the registry and a table, a Series whose
    length differs from the number of rows of the table makes either
    dispatcher raise the length error, whatever the functions of numpy,
    pandas and Thermobar.core do: nothing is returned, the table is left as
    it was, and at most the advisory line is printed. *)
Theorem length_mismatch_is_rejected env xs df :
  length xs ≠ df_len df →
  (∀ equationP f deltaNNO,
     Amp_only_P_funcs_by_name env !! equationP = Some f →
     calculate_amp_only_press env equationP (PyNum (Series xs)) deltaNNO
       (Some df)
     = Outcome (Raise (ValueError mismatch_T)) (Some df)
         (advice f advisory_T) [])
  ∧ (∀ equationT f,
       Amp_only_T_funcs_by_name env !! equationT = Some f →
       calculate_amp_only_temp env equationT (PyNum (Series xs)) (Some df)
       = Outcome (Raise (ValueError mismatch_P)) (Some df)
           (advice f advisory_P) []).
Proof.
  intros Hlen. split.
  - intros equationP f deltaNNO Hf. unfold calculate_amp_only_press.
    rewrite (registered_P_guard _ _ _ Hf). rewrite !run_bind.
    by rewrite (lookup_and_check_mismatch _ _ _ _ _ _ Hf _ _ Hlen).
  - intros equationT f Hf. unfold calculate_amp_only_temp. rewrite run_bind.
    by rewrite (lookup_and_check_mismatch _ _ _ _ _ _ Hf _ _ Hlen).
Qed.

(** ** An argument the equation does not take *)

Lemma evaluate_independent name f kwargs x t :
  pos_default_is_None f = true →
  (∀ kw, body f (Some x) kw = body f None kw) →
  evaluate name f kwargs (PyNum x) t = evaluate name f kwargs PyNone t.
Proof.
  intros Hd Hbody. unfold evaluate, call. by rewrite Hd, Hbody.
Qed.

Ltac same_steps :=
  repeat first
    [ reflexivity
    | progress cbn beta iota
    | rewrite run_mret_bind
    | apply bind_ext; intros ? ?
    | match goal with
      | |- context [if ?b then _ else _] => destruct b
      | |- context [match ?o with Some _ => _ | None => _ end] => destruct o
      end ].

(** The two names the pressure dispatcher handles without the registry:
    whatever the argument is, it is not looked at. *)
Lemma unregistered_ignores_argument env equationP T deltaNNO t :
  equationP = "P_Ridolfi2021" ∨ equationP = "P_Mutch2016" →
  calculate_amp_only_press env equationP T deltaNNO t
  = calculate_amp_only_press env equationP PyNone deltaNNO t.
Proof.
  intros [-> | ->]; reflexivity.
Qed.

Lemma independent_press env equationP f x deltaNNO t :
  Amp_only_P_funcs_by_name env !! equationP = Some f →
  pos_default_is_None f = true → fits x t →
  calculate_amp_only_press env equationP (PyNum x) deltaNNO t
  = after [advisory_T] []
      (calculate_amp_only_press env equationP PyNone deltaNNO t).
Proof.
  intros Hf Hd Hfits. unfold calculate_amp_only_press.
  rewrite (registered_P_guard _ _ _ Hf).
  rewrite !(run_bind _ _ t).
  rewrite (lookup_and_check_number _ _ _ _ _ _ Hf _ _ Hfits).
  rewrite (lookup_and_check_None _ _ _ _ _ _ Hf _ Hd).
  unfold advice. rewrite Hd. rewrite !run_mret.
  cbn [after returned amp_comps stdout warnings app].
  rewrite ?after_nil, ?app_nil_r. f_equal.
  same_steps.
  apply evaluate_independent; [done|]. intros kw.
  apply by_name_Some in Hf as [Hin _]. by apply (independent_body_P env).
Qed.

Lemma independent_T_name env equationT f :
  Amp_only_T_funcs_by_name env !! equationT = Some f →
  pos_default_is_None f = true → equationT ≠ "T_Ridolfi2012".
Proof.
  intros Hf Hd. apply by_name_Some in Hf as [Hin <-].
  unfold Amp_only_T_funcs in Hin.
  repeat (apply elem_of_cons in Hin as [->|Hin];
          [by first [discriminate Hd | discriminate] |]).
  by apply elem_of_nil in Hin.
Qed.

Lemma independent_temp env equationT f x t :
  Amp_only_T_funcs_by_name env !! equationT = Some f →
  pos_default_is_None f = true → fits x t →
  calculate_amp_only_temp env equationT (PyNum x) t
  = after [advisory_P] [] (calculate_amp_only_temp env equationT PyNone t).
Proof.
  intros Hf Hd Hfits. unfold calculate_amp_only_temp.
  rewrite !(run_bind _ _ t).
  rewrite (lookup_and_check_number _ _ _ _ _ _ Hf _ _ Hfits).
  rewrite (lookup_and_check_None _ _ _ _ _ _ Hf _ Hd).
  unfold advice. rewrite Hd.
  cbn [after returned amp_comps stdout warnings app].
  rewrite ?after_nil, ?app_nil_r. f_equal.
  rewrite bool_decide_false by (by eapply independent_T_name).
  same_steps.
  all: apply evaluate_independent; [done|]; intros kw;
    apply by_name_Some in Hf as [Hin _]; by apply (independent_body_T env).
Qed.

(** C8 (amended): for an equation that does not take the other unknown, a
    number given for it, a scalar or a Series with one value per row, is
    ignored: the call returns or raises what the call without it does and
    leaves the table as that call does.  For an equation of a registry the
    advisory line is printed first; for P_Ridolfi2021 and P_Mutch2016
    nothing is printed. *)
Theorem unused_number_is_ignored env x deltaNNO t :
  fits x t →
  (∀ equationP,
     independent (Amp_only_P_funcs_by_name env) equationP →
     calculate_amp_only_press env equationP (PyNum x) deltaNNO t
     = after [advisory_T] []
         (calculate_amp_only_press env equationP PyNone deltaNNO t))
  ∧ (∀ equationP,
       equationP = "P_Ridolfi2021" ∨ equationP = "P_Mutch2016" →
       calculate_amp_only_press env equationP (PyNum x) deltaNNO t
       = calculate_amp_only_press env equationP PyNone deltaNNO t)
  ∧ (∀ equationT,
       independent (Amp_only_T_funcs_by_name env) equationT →
       calculate_amp_only_temp env equationT (PyNum x) t
       = after [advisory_P] [] (calculate_amp_only_temp env equationT PyNone t)).
Proof.
  intros Hfits. split; [|split].
  - intros equationP (f & Hf & Hd). by eapply independent_press.
  - intros equationP H. by apply unregistered_ignores_argument.
  - intros equationT (f & Hf & Hd). by eapply independent_temp.
Qed.

(** ** The marker Solve *)

Ltac decide_closed :=
  repeat match goal with
    | |- context [bool_decide ?P] =>
        let b := eval vm_compute in (bool_decide P) in
        change (bool_decide P) with b
    | |- context [contains ?n ?s] =>
        let b := eval vm_compute in (contains n s) in
        change (contains n s) with b
    end;
  cbn [andb orb negb].

Lemma evaluate_solve name f kwargs x t :
  evaluate name f kwargs (PyNum x) t
  = then_call x (evaluate name f kwargs (PyStr "Solve")) t.
Proof.
  unfold evaluate, then_call. rewrite bool_decide_true by done.
  rewrite run_bind, run_mret. unfold lift, call_returned, call_partial, call.
  simpl. by destruct (body f (Some x) kwargs).
Qed.

Ltac solve_steps :=
  repeat first
    [ progress cbn beta iota
    | rewrite run_mret_bind
    | rewrite then_call_bind
    | apply bind_ext; intros ? ?
    | apply evaluate_solve ].

Lemma dependent_press env equationP f x deltaNNO t :
  Amp_only_P_funcs_by_name env !! equationP = Some f →
  pos_default_is_None f = false → fits x t →
  calculate_amp_only_press env equationP (PyNum x) deltaNNO t
  = then_call x
      (calculate_amp_only_press env equationP (PyStr "Solve") deltaNNO) t.
Proof.
  intros Hf Hd Hfits.
  destruct (dependent_P _ _ _ Hf Hd) as [-> ->].
  unfold calculate_amp_only_press. decide_closed.
  rewrite !then_call_bind. rewrite !(run_bind _ _ t).
  rewrite (lookup_and_check_number _ _ _ _ _ _ Hf _ _ Hfits).
  rewrite (lookup_and_check_string _ _ _ _ _ _ Hf).
  rewrite !run_mret.
  cbn [after returned amp_comps stdout warnings app].
  rewrite ?after_nil, ?app_nil_r. f_equal.
  solve_steps.
Qed.

Lemma dependent_temp env equationT f x t :
  Amp_only_T_funcs_by_name env !! equationT = Some f →
  pos_default_is_None f = false → fits x t →
  calculate_amp_only_temp env equationT (PyNum x) t
  = then_call x (calculate_amp_only_temp env equationT (PyStr "Solve")) t.
Proof.
  intros Hf Hd Hfits.
  destruct (dependent_T _ _ _ Hf Hd) as [[-> ->]|[[-> ->]|[-> ->]]];
    unfold calculate_amp_only_temp; decide_closed;
    rewrite !then_call_bind; rewrite !(run_bind _ _ t);
    rewrite (lookup_and_check_number _ _ _ _ _ _ Hf _ _ Hfits);
    rewrite (lookup_and_check_string _ _ _ _ _ _ Hf);
    cbn [after returned amp_comps stdout warnings app];
    rewrite ?after_nil, ?app_nil_r; f_equal; solve_steps.
Qed.

(** C3: for an equation of either registry that takes the other unknown,
    and a number [x] for it, a scalar or a Series with one value per row of
    the table, the call with [x] does what the call with the marker [Solve]
    followed by the call of the returned partial function with [x] does: the
    same value returned or exception raised, the same table left, the same
    lines printed.  A table without the columns the equation reads makes
    both raise the same exception. *)
Theorem solve_marker_defers_the_evaluation env x t :
  fits x t →
  (∀ equationP deltaNNO,
     dependent (Amp_only_P_funcs_by_name env) equationP →
     calculate_amp_only_press env equationP (PyNum x) deltaNNO t
     = then_call x
         (calculate_amp_only_press env equationP (PyStr "Solve") deltaNNO) t)
  ∧ (∀ equationT,
       dependent (Amp_only_T_funcs_by_name env) equationT →
       calculate_amp_only_temp env equationT (PyNum x) t
       = then_call x
           (calculate_amp_only_temp env equationT (PyStr "Solve")) t).
Proof.
  intros Hfits. split.
  - intros equationP deltaNNO (f & Hf & Hd). by eapply dependent_press.
  - intros equationT (f & Hf & Hd). by eapply dependent_temp.
Qed.

(** With the marker the dependent equations do return a partial function
    when the table has the columns: here P_Anderson1995 and T_Put2016_eq6 on
    the example batch, at 1100 K and at 3 kbar. *)
Lemma solve_marker_witness :
  calculate_amp_only_press Example.env "P_Anderson1995"
    (PyNum (Scalar 1100)) None (Some Example.batch)
  = then_call (Scalar 1100)
      (calculate_amp_only_press Example.env "P_Anderson1995" (PyStr "Solve")
         None) (Some Example.batch)
  ∧ (∃ p v,
       returned (calculate_amp_only_press Example.env "P_Anderson1995"
                   (PyStr "Solve") None (Some Example.batch))
       = Ok (Partial p)
       ∧ call_partial p (Scalar 1100) = Ok (Series v) ∧ length v = 3).
Proof.
  split.
  - refine (proj1 (solve_marker_defers_the_evaluation Example.env
                     (Scalar 1100) (Some Example.batch) I)
              "P_Anderson1995" None _).
    exists P_Anderson1995. split; reflexivity.
  - eexists. eexists. split; [vm_compute; reflexivity|].
    split; vm_compute; reflexivity.
Defined.


(** ** The five equations of Ridolfi and Renzulli (2012) by name *)

(** Without the selection [P_MPa] is unbound when the branch reads it, so
    the branch raises, if nothing before did. *)
Lemma ridolfi_branch_unselected env equationP t :
  equationP ≠ "P_Ridolfi2021" → raises (ridolfi_branch env equationP t).
Proof.
  intros Hne. unfold ridolfi_branch.
  do 14 (cbv zeta; apply bind_raises; intros ? ?).
  rewrite bool_decide_false by done. rewrite run_mret_bind.
  by eexists.
Qed.

Lemma press_reaches_ridolfi_branch env equationP T deltaNNO t :
  bool_decide (equationP = "P_Kraw2012") = false →
  bool_decide (equationP = "P_Mutch2016") = false →
  contains "Ridolfi2012" equationP = true →
  equationP ≠ "P_Ridolfi2021" →
  raises (calculate_amp_only_press env equationP T deltaNNO t).
Proof.
  intros HK HM HR Hne. unfold calculate_amp_only_press.
  apply bind_raises. intros func t1. rewrite HK.
  apply bind_raises. intros df t2.
  apply bind_raises. intros _ t3. rewrite HM, HR. cbn [orb].
  by apply ridolfi_branch_unselected.
Qed.

Definition Ridolfi2012_names : list string :=
  ["P_Ridolfi2012_1a"; "P_Ridolfi2012_1b"; "P_Ridolfi2012_1c";
   "P_Ridolfi2012_1d"; "P_Ridolfi2012_1e"].

(** C10: for every table, argument and environment the pressure dispatcher
    raises on each of the five identifiers P_Ridolfi2012_1a to
    P_Ridolfi2012_1e, so that it never returns the pressure of the single
    equation, the statements that would return it standing after the return
    of the branch; and where nothing else fails, as on the example batch,
    what it raises is the unbound local variable [P_MPa], which only the
    selection of P_Ridolfi2021 assigns. *)
Theorem individual_Ridolfi2012_equations_raise :
  Forall (λ equationP,
            ∀ env T deltaNNO t,
              raises (calculate_amp_only_press env equationP T deltaNNO t))
    Ridolfi2012_names
  ∧ Forall (λ equationP,
              returned (calculate_amp_only_press Example.env equationP PyNone
                          None (Some Example.batch))
              = Raise (UnboundLocalError "P_MPa"))
      Ridolfi2012_names.
Proof.
  split.
  - repeat constructor; intros env T deltaNNO t;
      by apply press_reaches_ridolfi_branch.
  - repeat constructor; vm_compute; reflexivity.
Qed.

(** ** The P_Ridolfi2021 path *)

Lemma lift_Ok {A} (r : result A) t a :
  returned (lift r t) = Ok a → r = Ok a.
Proof. done. Qed.

Ltac minv H :=
  repeat (cbv zeta in H;
          let a := fresh "a" in
          let t := fresh "t" in
          let Ha := fresh "Ha" in
          let Ht := fresh "Ht" in
          apply bind_Ok in H as (a & t & Ha & Ht & H)).

(** What the path returns is the frame of the input checks, run on the
    arrays some run of the selection filled. *)
Lemma press_Ridolfi2021_Ok env T deltaNNO t r :
  returned (calculate_amp_only_press env "P_Ridolfi2021" T deltaNNO t) = Ok r →
  ∃ cat13 amp Sum_input P_MPa_1a P_MPa name Calcs_R,
    r = CalcsFrame Calcs_R ∧
    input_checks cat13 amp Sum_input P_MPa_1a P_MPa name = Ok Calcs_R.
Proof.
  unfold calculate_amp_only_press. decide_closed. intros H.
  rewrite run_mret_bind in H.
  apply bind_Ok in H as (df & t1 & _ & _ & H).
  apply bind_Ok in H as (? & t2 & _ & _ & H).
  unfold ridolfi_branch in H.
  do 14 (cbv zeta in H; apply bind_Ok in H as (? & ? & _ & _ & H)).
  cbv zeta in H. rewrite bool_decide_true in H by done.
  apply bind_Ok in H as (sel & t3 & Hsel & _ & H).
  apply bind_Ok in Hsel as ([P_MPa name] & t4 & _ & _ & Hsel).
  injection Hsel as <-.
  apply bind_Ok in H as (Calcs_R & t5 & Hc & _ & H).
  apply lift_Ok in Hc. injection H as <-.
  eauto 10.
Qed.

Lemma input_checks_cat13 cat13 amp S A P name out :
  input_checks cat13 amp S A P name = Ok out →
  Calcs.cat13_columns out = cat13.
Proof.
  unfold input_checks.
  repeat match goal with
         | |- context [col ?df ?nm] =>
             destruct (col df nm); cbn [mbind result_bind]; [|discriminate]
         end.
  intros H. injection H as H. by rewrite <- H.
Qed.

Lemma passes_false_head b s checks :
  b = true → Gate.passes ((b, s) :: checks) = false.
Proof. intros ->. reflexivity. Qed.

(** C4: in what the P_Ridolfi2021 path returns, a row whose oxide sum is
    below 90, or whose pass flag is false, whichever check cleared it and
    whichever rule the selection took, has NaN for its pressure. *)
Theorem failed_rows_have_no_pressure env T deltaNNO t Calcs_R i :
  returned (calculate_amp_only_press env "P_Ridolfi2021" T deltaNNO t)
  = Ok (CalcsFrame Calcs_R) →
  i < df_len (Calcs.cat13_columns Calcs_R) →
  (Gate.cell (Calcs.Sum_input Calcs_R) i <? 90)%float = true
  ∨ Calcs.Input_Check Calcs_R !! i = Some false →
  Calcs.P_kbar_calc Calcs_R !! i = Some nan.
Proof.
  intros H Hi Hfail.
  apply press_Ridolfi2021_Ok in H
    as (cat13 & amp & S & A & P & name & ? & [= <-] & H).
  pose proof (input_checks_row _ _ _ _ _ _ _ i H) as Hrow.
  pose proof (input_checks_cat13 _ _ _ _ _ _ _ H) as Hcat.
  rewrite Hcat in Hi. destruct (Hrow Hi) as (_ & _ & HIC & HP).
  rewrite HP. rewrite HIC in Hfail.
  destruct Hfail as [Hsum | [= Hflag]].
  - unfold Gate.checks_in_order. by rewrite passes_false_head.
  - by rewrite Hflag.
Qed.

(** C5: in what the P_Ridolfi2021 path returns, the reason of a row is the
    message of the last check that fails on it, the checks taken in the
    documented order (oxide sum below 90; recomputed total below 98.5, above
    102; charge above 46.5; ferrous iron below 0; magnesium number below 54;
    calcium below 1.5, above 2.05; B-site sum below 1.99), and is empty when
    none fails; the pass flag is false exactly when one fails. *)
Theorem reason_is_the_last_failing_check env T deltaNNO t Calcs_R i :
  returned (calculate_amp_only_press env "P_Ridolfi2021" T deltaNNO t)
  = Ok (CalcsFrame Calcs_R) →
  i < df_len (Calcs.cat13_columns Calcs_R) →
  Calcs.Fail_Msg Calcs_R !! i
  = Some (Gate.last_failing (Gate.checks_in_order Calcs_R i))
  ∧ Calcs.Input_Check Calcs_R !! i
    = Some (Gate.passes (Gate.checks_in_order Calcs_R i)).
Proof.
  intros H Hi.
  apply press_Ridolfi2021_Ok in H
    as (cat13 & amp & S & A & P & name & ? & [= <-] & H).
  pose proof (input_checks_row _ _ _ _ _ _ _ i H) as Hrow.
  pose proof (input_checks_cat13 _ _ _ _ _ _ _ H) as Hcat.
  rewrite Hcat in Hi. destruct (Hrow Hi) as (_ & HF & HIC & _). done.
Qed.

(** ** The example batch *)

(** The eleven rules, one sample each, in the order of the rules. *)
Lemma every_rule_is_taken empty_float empty_str :
  Selection.selection_loop empty_float empty_str
    (Series [1000; 1000; 1000; 1000; 1000; 1000; 1000; 1000; 1000; 1000;
             1000]%float)
    (Series [300; 350; 400; 400; 400; 400; 400; 400; 400; 400; 400]%float)
    (Series [310; 400; 410; 420; 420; 420; 420; 420; 420; 420; 420]%float)
    (Series [320; 420; 430; 460; 480; 800; 700; 470; 500; 500; 500]%float)
    (Series [900; 900; 900; 900; 100; 900; 900; 900; 1300; 900; 1000]%float)
    (Series [97; 97; 97; 97; 97; 97; 97; 97; 97; 97; 97]%float)
  = Ok ([300; 375; 410; 420; 450; 900; 700; 420; 410; 460; 1000]%float,
        ["1b"; "(1b+1c)/2"; "1c"; "1c"; "1c+1d"; "1e"; "1d"; "1c";
         "(1b+1c)/2"; "(1c+1d)/2"; "1a"]).
Proof.
  pose (mk := λ '(a, b, c, d, e),
          {| s_1a := a; s_1b := b; s_1c := c; s_1d := d; s_1e := e;
             s_sum := 97 |}).
  exact (selection_loop_samples empty_float empty_str
           (mk <$> [(1000, 300, 310, 320, 900); (1000, 350, 400, 420, 900);
                    (1000, 400, 410, 430, 900); (1000, 400, 420, 460, 900);
                    (1000, 400, 420, 480, 100); (1000, 400, 420, 800, 900);
                    (1000, 400, 420, 700, 900); (1000, 400, 420, 470, 900);
                    (1000, 400, 420, 500, 1300); (1000, 400, 420, 500, 900);
                    (1000, 400, 420, 500, 1000)]%float)).
Qed.

(** On the example batch the third row has an oxide sum below 90 and the
    second a false pass flag: neither has a pressure, the first has one. *)
Lemma failed_rows_witness :
  ∃ Calcs_R,
    returned (calculate_amp_only_press Example.env "P_Ridolfi2021" PyNone
                None (Some Example.batch))
    = Ok (CalcsFrame Calcs_R)
    ∧ Calcs.Input_Check Calcs_R = [true; false; false]
    ∧ Calcs.P_kbar_calc Calcs_R !! 2 = Some nan
    ∧ Calcs.P_kbar_calc Calcs_R !! 1 = Some nan
    ∧ is_nan <$> Calcs.P_kbar_calc Calcs_R = [false; true; true].
Proof.
  eexists. split; [vm_compute; reflexivity|].
  split; [vm_compute; reflexivity|]. split; [|split].
  - apply (failed_rows_have_no_pressure Example.env PyNone None
             (Some Example.batch) _ 2).
    + vm_compute; reflexivity.
    + vm_compute. lia.
    + left. vm_compute; reflexivity.
  - apply (failed_rows_have_no_pressure Example.env PyNone None
             (Some Example.batch) _ 1).
    + vm_compute; reflexivity.
    + vm_compute. lia.
    + right. vm_compute; reflexivity.
  - vm_compute; reflexivity.
Defined.

(** On the second row of the example batch four checks fail, the ferrous
    iron first and the B-site sum last: the reason is the message of the
    last. *)
Lemma reason_witness :
  ∃ Calcs_R,
    returned (calculate_amp_only_press Example.env "P_Ridolfi2021" PyNone
                None (Some Example.batch))
    = Ok (CalcsFrame Calcs_R)
    ∧ Gate.failing (Gate.checks_in_order Calcs_R 1)
      = ["unbalanced charge (Fe2<0)"; "Low Ca (<1.5)"; "Low B Cations"]
    ∧ Calcs.Fail_Msg Calcs_R !! 1 = Some "Low B Cations"
    ∧ Calcs.Input_Check Calcs_R !! 1 = Some false
    ∧ Calcs.Fail_Msg Calcs_R
      = [EmptyString; "Low B Cations"; "Cation oxide Total<90"].
Proof.
  eexists. split; [vm_compute; reflexivity|].
  split; [vm_compute; reflexivity|].
  split; [|split].
  - etransitivity.
    + apply (reason_is_the_last_failing_check Example.env PyNone None
               (Some Example.batch) _ 1).
      * vm_compute; reflexivity.
      * vm_compute. lia.
    + vm_compute; reflexivity.
  - etransitivity.
    + apply (reason_is_the_last_failing_check Example.env PyNone None
               (Some Example.batch) _ 1).
      * vm_compute; reflexivity.
      * vm_compute. lia.
    + vm_compute; reflexivity.
  - vm_compute; reflexivity.
Defined.

(** A Series of two values for the three rows of the example batch is
    refused by a registered equation. *)
Lemma length_mismatch_witness :
  calculate_amp_only_press Example.env "P_Hollister1987"
    (PyNum (Series [1100; 1100]%float)) None (Some Example.batch)
  = Outcome (Raise (ValueError mismatch_T)) (Some Example.batch)
      [advisory_T] [].
Proof.
  refine (proj1 (length_mismatch_is_rejected Example.env [1100; 1100]%float
                   Example.batch _)
            "P_Hollister1987" P_Hollister1987 None _).
  - simpl. lia.
  - vm_compute; reflexivity.
Defined.

(** The same Series is not looked at by P_Ridolfi2021, which returns what it
    returns without it, the frame of the three rows. *)
Lemma Ridolfi2021_takes_a_series_of_any_length :
  calculate_amp_only_press Example.env "P_Ridolfi2021"
    (PyNum (Series [1100; 1100]%float)) None (Some Example.batch)
  = calculate_amp_only_press Example.env "P_Ridolfi2021" PyNone None
      (Some Example.batch)
  ∧ ∃ Calcs_R,
      returned (calculate_amp_only_press Example.env "P_Ridolfi2021"
                  (PyNum (Series [1100; 1100]%float)) None
                  (Some Example.batch))
      = Ok (CalcsFrame Calcs_R)
      ∧ length (Calcs.P_kbar_calc Calcs_R) = 3.
Proof.
  split; [reflexivity|].
  eexists. split; vm_compute; reflexivity.
Qed.

(** A temperature of 1100 K given to P_Hollister1987, which does not take
    it, changes nothing but the advisory line. *)
Lemma unused_number_witness :
  calculate_amp_only_press Example.env "P_Hollister1987"
    (PyNum (Scalar 1100)) None (Some Example.batch)
  = after [advisory_T] []
      (calculate_amp_only_press Example.env "P_Hollister1987" PyNone None
         (Some Example.batch))
  ∧ returned (calculate_amp_only_press Example.env "P_Hollister1987" PyNone
                None (Some Example.batch))
    = Ok (Num (Series [-4.76 + 5.64 * 2.05; -4.76 + 5.64 * 2.05;
                       -4.76 + 5.64 * 2.05]%float)).
Proof.
  split.
  - refine (proj1 (unused_number_is_ignored Example.env (Scalar 1100) None
                     (Some Example.batch) I) "P_Hollister1987" _).
    exists P_Hollister1987. split; vm_compute; reflexivity.
  - vm_compute; reflexivity.
Defined.

(** What is given for the temperature is not always ignored by an equation
    that does not take it: P_Hollister1987 raises on a Series of two values
    for the three rows of the example batch, and returns a partial function,
    not the pressures, on the marker [Solve]. *)
Lemma given_argument_is_not_always_ignored :
  returned (calculate_amp_only_press Example.env "P_Hollister1987" PyNone
              None (Some Example.batch))
  = Ok (Num (Series [-4.76 + 5.64 * 2.05; -4.76 + 5.64 * 2.05;
                     -4.76 + 5.64 * 2.05]%float))
  ∧ returned (calculate_amp_only_press Example.env "P_Hollister1987"
                (PyNum (Series [1100; 1100]%float)) None
                (Some Example.batch))
    = Raise (ValueError mismatch_T)
  ∧ returned (calculate_amp_only_press Example.env "P_Hollister1987"
                (PyStr "Solve") None (Some Example.batch))
    = Ok (Partial {| p_func := P_Hollister1987;
                     p_keywords :=
                       [("Al2O3_Amp_cat_23ox",
                         Series [2.05; 2.05; 2.05]%float)] |}).
Proof. repeat split; vm_compute; reflexivity. Qed.

(** With the marker every thermometer of the registry returns a partial
    function when the table has its columns, also one that does not take the
    pressure, so that the solver iterates on it. *)
Lemma independent_equation_is_deferred_too :
  ∃ p, returned (calculate_amp_only_temp Example.env "T_Put2016_SiHbl"
                   (PyStr "Solve") (Some Example.batch))
       = Ok (Partial p).
Proof. eexists. vm_compute; reflexivity. Qed.

Lemma lookup_and_check_unknown registry equation X needs advisory mismatch t :
  registry !! equation = None →
  lookup_and_check registry equation X needs advisory mismatch t
  = Outcome (Raise (ValueError (equation +:+ " is not a valid equation"))) t
      [] [].
Proof.
  intros Hnone. unfold lookup_and_check. rewrite Hnone. reflexivity.
Qed.

(** ** Requests the dispatchers refuse *)

(** X1: a name that is no key of the registry (and, for the pressure, is
    neither P_Ridolfi2021 nor P_Mutch2016) makes the dispatcher raise the
    ValueError that quotes it, before anything is printed, warned or read
    from the table, whatever the argument and the table are. *)
Theorem unknown_equation_is_refused env equation X deltaNNO t :
  (Amp_only_P_funcs_by_name env !! equation = None →
   equation ≠ "P_Ridolfi2021" → equation ≠ "P_Mutch2016" →
   calculate_amp_only_press env equation X deltaNNO t
   = Outcome (Raise (ValueError (equation +:+ " is not a valid equation")))
       t [] [])
  ∧ (Amp_only_T_funcs_by_name env !! equation = None →
     calculate_amp_only_temp env equation X t
     = Outcome (Raise (ValueError (equation +:+ " is not a valid equation")))
         t [] []).
Proof.
  split.
  - intros Hnone H1 H2. unfold calculate_amp_only_press.
    rewrite (bool_decide_true _ H1), (bool_decide_true _ H2). cbn [andb].
    rewrite !run_bind. by rewrite lookup_and_check_unknown.
  - intros Hnone. unfold calculate_amp_only_temp.
    rewrite run_bind. by rewrite lookup_and_check_unknown.
Qed.

(** A misspelt barometer, and a barometer asked of the temperature
    dispatcher. *)
Lemma unknown_equation_witness :
  calculate_amp_only_press Example.env "P_Mutch2016_typo" PyNone None
    (Some Example.batch)
  = Outcome (Raise (ValueError "P_Mutch2016_typo is not a valid equation"))
      (Some Example.batch) [] []
  ∧ calculate_amp_only_temp Example.env "P_Ridolfi2021" (PyNum (Scalar 5))
      (Some Example.batch)
    = Outcome (Raise (ValueError "P_Ridolfi2021 is not a valid equation"))
        (Some Example.batch) [] [].
Proof.
  split.
  - apply (proj1 (unknown_equation_is_refused Example.env "P_Mutch2016_typo"
                    PyNone None (Some Example.batch))).
    + vm_compute; reflexivity.
    + discriminate.
    + discriminate.
  - apply (proj2 (unknown_equation_is_refused Example.env "P_Ridolfi2021"
                    (PyNum (Scalar 5)) None (Some Example.batch))).
    vm_compute; reflexivity.
Defined.

Lemma lookup_and_check_missing registry equation f needs advisory mismatch t :
  registry !! equation = Some f → pos_default_is_None f = false →
  lookup_and_check registry equation PyNone needs advisory mismatch t
  = Outcome (Raise (ValueError (equation +:+ needs))) t [] [].
Proof.
  intros Hf Hd. unfold lookup_and_check. rewrite Hf. mrun.
  rewrite Hd. reflexivity.
Qed.

(** X2: an equation that takes the other unknown, called without it, makes
    the dispatcher raise the ValueError of the signature check (lines 282-284
    and 804-806) before anything else happens; for T_Ridolfi2012 the second
    test of a missing pressure (lines 818-820) is therefore never the one
    that raises. *)
Theorem missing_argument_is_refused env equation deltaNNO t :
  (dependent (Amp_only_P_funcs_by_name env) equation →
   calculate_amp_only_press env equation PyNone deltaNNO t
   = Outcome (Raise (ValueError (equation +:+ requires_T))) t [] [])
  ∧ (dependent (Amp_only_T_funcs_by_name env) equation →
     calculate_amp_only_temp env equation PyNone t
     = Outcome (Raise (ValueError (equation +:+ requires_P))) t [] []).
Proof.
  split.
  - intros (f & Hf & Hd). unfold calculate_amp_only_press.
    rewrite (registered_P_guard _ _ _ Hf). rewrite !run_bind.
    by rewrite (lookup_and_check_missing _ _ _ _ _ _ _ Hf Hd).
  - intros (f & Hf & Hd). unfold calculate_amp_only_temp. rewrite run_bind.
    by rewrite (lookup_and_check_missing _ _ _ _ _ _ _ Hf Hd).
Qed.

(** P_Anderson1995 without a temperature and T_Ridolfi2012 without a
    pressure, on the example batch. *)
Lemma missing_argument_witness :
  calculate_amp_only_press Example.env "P_Anderson1995" PyNone None
    (Some Example.batch)
  = Outcome (Raise (ValueError ("P_Anderson1995" +:+ requires_T)))
      (Some Example.batch) [] []
  ∧ calculate_amp_only_temp Example.env "T_Ridolfi2012" PyNone
      (Some Example.batch)
    = Outcome (Raise (ValueError ("T_Ridolfi2012" +:+ requires_P)))
        (Some Example.batch) [] [].
Proof.
  split.
  - apply (proj1 (missing_argument_is_refused Example.env "P_Anderson1995"
                    None (Some Example.batch))).
    exists P_Anderson1995. split; reflexivity.
  - apply (proj2 (missing_argument_is_refused Example.env "T_Ridolfi2012"
                    None (Some Example.batch))).
    exists (T_Ridolfi2012 Example.env). split; reflexivity.
Defined.

(** ** What a call leaves of the caller's table *)

Lemma leaves_bind {A B} (m : M A) (k : A → M B) :
  leaves_table m → (∀ a, leaves_table (k a)) → leaves_table (m ≫= k).
Proof.
  intros Hm Hk t. rewrite run_bind. specialize (Hm t).
  destruct (m t) as [[a|e] t' ? ?]; simpl in *; subst; [apply Hk|done].
Qed.

Lemma leaves_mret {A} (a : A) : leaves_table (mret a).
Proof. by intros t. Qed.

Lemma leaves_raise {A} e : leaves_table (raise e : M A).
Proof. by intros t. Qed.

Lemma leaves_lift {A} (r : result A) : leaves_table (lift r).
Proof. by intros t. Qed.

Lemma leaves_print line : leaves_table (print line).
Proof. by intros t. Qed.

Lemma leaves_warn message : leaves_table (warn message).
Proof. by intros t. Qed.

Lemma leaves_the_amp_comps : leaves_table the_amp_comps.
Proof. by intros t. Qed.

Lemma leaves_the_frame e : leaves_table (the_frame e).
Proof. by intros [df|]. Qed.

Ltac leaves :=
  repeat first
    [ apply leaves_mret | apply leaves_raise | apply leaves_lift
    | apply leaves_print | apply leaves_warn | apply leaves_the_amp_comps
    | apply leaves_the_frame
    | apply leaves_bind; [|intros ?]
    | progress cbv zeta
    | match goal with
      | |- leaves_table (if ?b then _ else _) => destruct b
      | |- leaves_table (match ?x with _ => _ end) => destruct x
      end ].

Lemma leaves_lookup_and_check registry equation X needs advisory mismatch :
  leaves_table (lookup_and_check registry equation X needs advisory mismatch).
Proof. unfold lookup_and_check. leaves. Qed.

Lemma leaves_evaluate name f kwargs X : leaves_table (evaluate name f kwargs X).
Proof. unfold evaluate. leaves. Qed.

Lemma leaves_kraw_branch env deltaNNO : leaves_table (kraw_branch env deltaNNO).
Proof. unfold kraw_branch. leaves. Qed.

Lemma leaves_mutch_branch env : leaves_table (mutch_branch env).
Proof. unfold mutch_branch. leaves. Qed.

Lemma leaves_ridolfi_branch env equationP :
  leaves_table (ridolfi_branch env equationP).
Proof. unfold ridolfi_branch. leaves. Qed.

Lemma leaves_temp env equationT P :
  leaves_table (calculate_amp_only_temp env equationT P).
Proof.
  unfold calculate_amp_only_temp.
  apply leaves_bind; [apply leaves_lookup_and_check|intros f].
  apply leaves_bind; [leaves|intros kw]. apply leaves_evaluate.
Qed.

Lemma leaves_guard env equationP T :
  leaves_table
    (if bool_decide (equationP ≠ "P_Ridolfi2021")
        && bool_decide (equationP ≠ "P_Mutch2016")
     then
       f ← lookup_and_check (Amp_only_P_funcs_by_name env) equationP T
             requires_T advisory_T mismatch_T;
       mret (Some f)
     else mret None).
Proof.
  destruct (_ && _); [|apply leaves_mret].
  apply leaves_bind; [apply leaves_lookup_and_check|intros f; apply leaves_mret].
Qed.

Lemma leaves_rest env equationP T func :
  leaves_table
    (if bool_decide (equationP = "P_Mutch2016") then mutch_branch env
     else if contains "Ridolfi2012" equationP
             || bool_decide (equationP = "P_Ridolfi2021")
     then ridolfi_branch env equationP
     else
       ox23_amp ← (if bool_decide (equationP ≠ "Mutch2016")
                      && negb (contains "Ridolfi2012" equationP)
                      && bool_decide (equationP ≠ "P_Ridolfi2021")
                   then
                     o ← the_amp_comps;
                     t ← lift (calculate_23oxygens_amphibole env o);
                     mret (Some t)
                   else mret None);
       func ← match func with
              | Some f => mret f
              | None => raise (UnboundLocalError "sig")
              end;
       ox23_amp ← match ox23_amp with
                  | Some t => mret t
                  | None => raise (UnboundLocalError "ox23_amp")
                  end;
       kwargs ← lift (kwargs_from ox23_amp (kwonly func));
       evaluate "P_kbar" func kwargs T).
Proof.
  destruct (bool_decide (equationP = "P_Mutch2016"));
    [apply leaves_mutch_branch|].
  destruct (_ || _); [apply leaves_ridolfi_branch|].
  apply leaves_bind; [leaves|intros ?].
  apply leaves_bind; [leaves|intros ?].
  apply leaves_bind; [leaves|intros ?].
  apply leaves_bind; [leaves|intros ?].
  apply leaves_evaluate.
Qed.

(** What the pressure dispatcher leaves of the table: the table itself when
    the call stops at the checks, takes the branch of P_Kraw2012 or has no
    table, and the table with [Sample_ID_Amp] otherwise. *)
Lemma press_leaves env equationP T deltaNNO t :
  let o := calculate_amp_only_press env equationP T deltaNNO t in
  (amp_comps o = t ∧ (raises o ∨ equationP = "P_Kraw2012"))
  ∨ (∃ df, t = Some df ∧ equationP ≠ "P_Kraw2012"
           ∧ amp_comps o = Some (with_Sample_ID_Amp df)).
Proof.
  cbv zeta. unfold calculate_amp_only_press. rewrite run_bind.
  pose proof (leaves_guard env equationP T t) as Hg.
  destruct (_ t) as [[func|e] t1 l1 w1]; simpl in Hg; subst t1;
    [|left; split; [done|left; by eexists]].
  cbn [after]. 
  destruct (bool_decide (equationP = "P_Kraw2012")) eqn:HK.
  - left. apply bool_decide_eq_true in HK. split; [|by right].
    cbn [amp_comps]. apply leaves_kraw_branch.
  - apply bool_decide_eq_false in HK.
    destruct t as [df|].
    + right. exists df. split; [done|]. split; [done|].
      cbn [amp_comps]. rewrite run_bind. unfold the_frame at 1.
      rewrite run_bind. unfold the_amp_comps at 1. cbn [after app].
      rewrite run_mret. cbn [after app amp_comps returned stdout warnings].
      rewrite run_bind. unfold with_Sample_ID_Amp.
      destruct (has_col df "Sample_ID_Amp"); cbn [negb].
      * rewrite run_mret. cbn [after app amp_comps]. apply leaves_rest.
      * unfold write_amp_comps at 1. cbn [after app amp_comps].
        apply leaves_rest.
    + left. split; [reflexivity|]. left. by eexists.
Qed.

Lemma bind_raises_leaves {A B} (m : M A) (k : A → M B) t :
  leaves_table m → (∀ a, raises (k a t)) → raises ((m ≫= k) t).
Proof.
  intros Hm H. unfold raises. rewrite run_bind. specialize (Hm t).
  destruct (m t) as [[a|e] t' ? ?]; simpl in Hm; subst; [|by eauto].
  destruct (H a) as [e He]. exists e. by rewrite <- He.
Qed.

Lemma raises_bind {A B} (m : M A) (k : A → M B) t :
  raises (m t) → raises ((m ≫= k) t).
Proof.
  intros [e He]. unfold raises. rewrite run_bind.
  destruct (m t) as [[a|e'] t' ? ?]; simpl in He; [discriminate|by eauto].
Qed.

(** X3: a call of the pressure dispatcher that returns, for an equation other
    than P_Kraw2012, has written to the caller's table: the table holds the
    column [Sample_ID_Amp] after the call, filled with the index when the
    table had no such column before. *)
Theorem a_pressure_call_adds_Sample_ID_Amp env equationP T deltaNNO t r :
  returned (calculate_amp_only_press env equationP T deltaNNO t) = Ok r →
  equationP ≠ "P_Kraw2012" →
  ∃ df, t = Some df
        ∧ amp_comps (calculate_amp_only_press env equationP T deltaNNO t)
          = Some (with_Sample_ID_Amp df).
Proof.
  intros Hr HK.
  destruct (press_leaves env equationP T deltaNNO t)
    as [[_ [[e He]| ->]]|(df & -> & _ & H)]; [congruence|done|eauto].
Qed.

(** The example batch has no [Sample_ID_Amp]; after P_Hollister1987 it has
    one, its last column, that holds 0, 1, 2. *)
Lemma adds_Sample_ID_Amp_witness :
  has_col Example.batch "Sample_ID_Amp" = false
  ∧ ∃ df, amp_comps (calculate_amp_only_press Example.env "P_Hollister1987"
                       PyNone None (Some Example.batch)) = Some df
          ∧ col df "Sample_ID_Amp" = Ok (Series [0; 1; 2]%float)
          ∧ df_cols df
            = df_cols Example.batch ++ [("Sample_ID_Amp", [0; 1; 2]%float)].
Proof.
  split; [reflexivity|].
  destruct (a_pressure_call_adds_Sample_ID_Amp Example.env "P_Hollister1987"
              PyNone None (Some Example.batch)
              (Num (Series [-4.76 + 5.64 * 2.05; -4.76 + 5.64 * 2.05;
                            -4.76 + 5.64 * 2.05]%float)))
    as (df & Hdf & H).
  - vm_compute; reflexivity.
  - discriminate.
  - injection Hdf as <-. eexists. split; [exact H|].
    split; vm_compute; reflexivity.
Defined.

(** X4: the column [Sample_ID_Amp] is all that is ever written to the
    caller's table, whether the call returns or raises: the pressure
    dispatcher and the solver leave the table as it was or with that column
    added, and the branch of P_Kraw2012 and the temperature dispatcher leave
    it as it was. *)
Theorem only_Sample_ID_Amp_is_written env :
  (∀ equationP T deltaNNO t,
     amp_comps (calculate_amp_only_press env equationP T deltaNNO t) = t
     ∨ amp_comps (calculate_amp_only_press env equationP T deltaNNO t)
       = with_Sample_ID_Amp <$> t)
  ∧ (∀ T deltaNNO t,
       amp_comps (calculate_amp_only_press env "P_Kraw2012" T deltaNNO t) = t)
  ∧ (∀ equationT P t,
       amp_comps (calculate_amp_only_temp env equationT P t) = t)
  ∧ (∀ equationT equationP iterations T_K_guess t,
       let o := calculate_amp_only_press_temp env equationT equationP
                  iterations T_K_guess t in
       amp_comps o = t ∨ amp_comps o = with_Sample_ID_Amp <$> t).
Proof.
  assert (∀ equationP T deltaNNO t,
     amp_comps (calculate_amp_only_press env equationP T deltaNNO t) = t
     ∨ amp_comps (calculate_amp_only_press env equationP T deltaNNO t)
       = with_Sample_ID_Amp <$> t) as Hpress.
  { intros equationP T deltaNNO t.
    destruct (press_leaves env equationP T deltaNNO t)
      as [[H _]|(df & -> & _ & H)]; [by left|by right]. }
  split; [done|]. split; [|split].
  - intros T deltaNNO t.
    destruct (press_leaves env "P_Kraw2012" T deltaNNO t)
      as [[H _]|(df & _ & HK & _)]; done.
  - intros equationT P t. apply leaves_temp.
  - intros equationT equationP iterations T_K_guess t. cbv zeta.
    unfold calculate_amp_only_press_temp. rewrite run_bind.
    pose proof (leaves_temp env equationT (PyStr "Solve") t) as HT.
    destruct (calculate_amp_only_temp _ _ _ t) as [[T_func|e] t1 l1 w1];
      simpl in HT; subst t1; [|by left].
    cbn [after amp_comps]. rewrite run_bind.
    destruct (_ && _).
    + specialize (Hpress equationP (PyStr "Solve") None t).
      destruct (calculate_amp_only_press _ _ _ _ t) as [[P_func|e] t2 l2 w2];
        simpl in Hpress; [|done]. cbn [after amp_comps]. done.
    + rewrite run_bind.
      specialize (Hpress equationP (PyStr "Solve") None t).
      destruct (calculate_amp_only_press _ _ _ _ t) as [[r|e] t2 l2 w2];
        simpl in Hpress; [|done]. cbn [after amp_comps].
      unfold lift at 1.
      destruct (P_kbar_calc_of r); cbn [after amp_comps returned]; done.
Qed.

(** X5: without a table ([amp_comps] is [None], the default) the pressure
    dispatcher raises for every equation, argument and environment; for
    P_Ridolfi2021 and P_Mutch2016 what it raises is the TypeError of the
    membership test on [None] (line 309). *)
Theorem no_table_no_pressure env equationP T deltaNNO :
  raises (calculate_amp_only_press env equationP T deltaNNO None)
  ∧ (equationP = "P_Ridolfi2021" ∨ equationP = "P_Mutch2016" →
     calculate_amp_only_press env equationP T deltaNNO None
     = Outcome (Raise (TypeError
                         "argument of type 'NoneType' is not iterable"))
         None [] []).
Proof.
  split.
  - unfold calculate_amp_only_press.
    apply bind_raises_leaves; [apply leaves_guard|intros func].
    destruct (bool_decide _).
    + unfold kraw_branch. apply bind_raises_leaves; [leaves|intros _].
      destruct deltaNNO as [d|]; [|by eexists].
      rewrite run_mret_bind. by eexists.
    + by eexists.
  - intros [-> | ->]; reflexivity.
Qed.

(** X6: on a table without the column [Sample_ID_Amp] the temperature
    dispatcher raises for T_Ridolfi2012, whatever the pressure is (line 822
    drops the column, and this dispatcher does not add it), and so does the
    solver with that thermometer, which calls the temperature dispatcher
    first. *)
Theorem T_Ridolfi2012_needs_Sample_ID_Amp env df :
  has_col df "Sample_ID_Amp" = false →
  (∀ P, raises (calculate_amp_only_temp env "T_Ridolfi2012" P (Some df)))
  ∧ (∀ equationP iterations T_K_guess,
       raises (calculate_amp_only_press_temp env "T_Ridolfi2012" equationP
                 iterations T_K_guess (Some df))).
Proof.
  intros Hno.
  assert (∀ P, raises (calculate_amp_only_temp env "T_Ridolfi2012" P (Some df)))
    as HT.
  { intros P. unfold calculate_amp_only_temp.
    apply bind_raises_leaves; [apply leaves_lookup_and_check|intros f].
    apply raises_bind. rewrite bool_decide_true by done.
    apply bind_raises_leaves; [leaves|intros _].
    apply bind_raises_leaves; [leaves|intros o].
    apply bind_raises_leaves; [leaves|intros cat13].
    mrun. unfold drop_col. rewrite Hno. by eexists. }
  split; [done|].
  intros equationP iterations T_K_guess. unfold calculate_amp_only_press_temp.
  apply raises_bind. apply HT.
Qed.

(** On the example batch T_Ridolfi2012 at 3 kbar raises the KeyError of the
    missing column, and the solver raises with it; on the batch with the
    column it returns three temperatures. *)
Lemma needs_Sample_ID_Amp_witness :
  returned (calculate_amp_only_temp Example.env "T_Ridolfi2012"
              (PyNum (Scalar 3)) (Some Example.batch))
  = Raise (KeyError "Sample_ID_Amp")
  ∧ raises (calculate_amp_only_press_temp Example.env "T_Ridolfi2012"
              "P_Ridolfi2021" 30 (Scalar 1300) (Some Example.batch))
  ∧ ∃ v, returned (calculate_amp_only_temp Example.env "T_Ridolfi2012"
                     (PyNum (Scalar 3))
                     (Some (with_Sample_ID_Amp Example.batch)))
         = Ok (Num (Series v)) ∧ length v = 3.
Proof.
  split; [vm_compute; reflexivity|]. split.
  - apply (proj2 (T_Ridolfi2012_needs_Sample_ID_Amp Example.env Example.batch
                    eq_refl) "P_Ridolfi2021" 30 (Scalar 1300)).
  - eexists. split; vm_compute; reflexivity.
Defined.

(** ** P_Kraw2012 *)

Lemma lookup_and_check_default registry equation f X needs advisory mismatch t :
  registry !! equation = Some f → pos_default_is_None f = true →
  arg_fits X t →
  lookup_and_check registry equation X needs advisory mismatch t
  = Outcome (Ok f) t (said advisory X) [].
Proof.
  intros Hf Hd HX. destruct X as [|s|x]; simpl.
  - by apply lookup_and_check_None.
  - rewrite (lookup_and_check_string _ _ _ _ _ _ Hf). unfold advice.
    by rewrite Hd.
  - rewrite (lookup_and_check_number _ _ _ _ _ _ Hf _ _ HX). unfold advice.
    by rewrite Hd.
Qed.

Lemma press_Kraw2012 env T deltaNNO t :
  arg_fits T t →
  calculate_amp_only_press env "P_Kraw2012" T deltaNNO t
  = after (said advisory_T T) [] (kraw_branch env deltaNNO t).
Proof.
  intros HT.
  assert (Amp_only_P_funcs_by_name env !! "P_Kraw2012"
          = Some (P_Kraw2012 env)) as Hf by (vm_compute; reflexivity).
  unfold calculate_amp_only_press. decide_closed.
  rewrite !run_bind.
  rewrite (lookup_and_check_default _ _ _ _ _ _ _ _ Hf eq_refl HT).
  rewrite run_mret. cbn [after app returned amp_comps stdout warnings].
  rewrite ?app_nil_r. reflexivity.
Qed.

(** X7: P_Kraw2012 without [deltaNNO] raises the ValueError of line 300,
    after the warning and after the advisory line for a temperature that was
    given; with [deltaNNO] the temperature is not looked at, a number and a
    string alike: the marker [Solve] gives the frame of the call without it,
    not a partial function. *)
Theorem P_Kraw2012_takes_deltaNNO_and_no_marker env T t :
  arg_fits T t →
  calculate_amp_only_press env "P_Kraw2012" T None t
  = Outcome (Raise (ValueError
                      "P_Kraw2012 requires you to enter a deltaNNO value"))
      t (said advisory_T T) [Kraw2012_warning]
  ∧ (∀ deltaNNO,
       calculate_amp_only_press env "P_Kraw2012" T (Some deltaNNO) t
       = after (said advisory_T T) []
           (calculate_amp_only_press env "P_Kraw2012" PyNone (Some deltaNNO)
              t)).
Proof.
  intros HT. split.
  - rewrite press_Kraw2012 by done. unfold kraw_branch. mrun.
    unfold after. simpl. by rewrite app_nil_r.
  - intros deltaNNO. rewrite press_Kraw2012 by done.
    rewrite (press_Kraw2012 env PyNone) by done. simpl said.
    by rewrite after_nil.
Qed.

(** P_Kraw2012 with the marker on the example batch: the ValueError without
    [deltaNNO], the frame of three rows with it. *)
Lemma P_Kraw2012_witness :
  calculate_amp_only_press Example.env "P_Kraw2012" (PyStr "Solve") None
    (Some Example.batch)
  = Outcome (Raise (ValueError
                      "P_Kraw2012 requires you to enter a deltaNNO value"))
      (Some Example.batch) [advisory_T] [Kraw2012_warning]
  ∧ ∃ P Mgno,
      returned (calculate_amp_only_press Example.env "P_Kraw2012"
                  (PyStr "Solve") (Some (Scalar 1)) (Some Example.batch))
      = Ok (KrawFrame (Series P) (Series Mgno))
      ∧ length P = 3 ∧ length Mgno = 3.
Proof.
  split.
  - apply (proj1 (P_Kraw2012_takes_deltaNNO_and_no_marker Example.env
                    (PyStr "Solve") (Some Example.batch) I)).
  - eexists. eexists. split; [vm_compute; reflexivity|].
    split; reflexivity.
Defined.

Lemma press_Kraw2012_raises env T t :
  raises (calculate_amp_only_press env "P_Kraw2012" T None t).
Proof.
  unfold calculate_amp_only_press. decide_closed.
  apply bind_raises. intros f t1. unfold kraw_branch.
  apply bind_raises. intros _ t2. by eexists.
Qed.

(** X8: the solver never returns for P_Kraw2012, since it cannot pass
    [deltaNNO] on, nor for the five equations of Ridolfi and Renzulli (2012),
    whatever the thermometer, the table and the number of rounds are. *)
Theorem solver_never_returns_with_six_barometers :
  Forall (λ equationP,
            ∀ env equationT iterations T_K_guess t,
              raises (calculate_amp_only_press_temp env equationT equationP
                        iterations T_K_guess t))
    ("P_Kraw2012" :: Ridolfi2012_names).
Proof.
  repeat constructor; intros env equationT iterations T_K_guess t;
    unfold calculate_amp_only_press_temp;
    apply bind_raises; intros T_func t1; apply raises_bind; decide_closed.
  - apply press_Kraw2012_raises.
  - by apply press_reaches_ridolfi_branch.
  - by apply press_reaches_ridolfi_branch.
  - by apply press_reaches_ridolfi_branch.
  - by apply press_reaches_ridolfi_branch.
  - by apply press_reaches_ridolfi_branch.
Qed.

(** ** How many rounds the solver needs *)

Lemma bind_ext_Ok {A B} (m : M A) (k1 k2 : A → M B) t :
  (∀ a, returned (m t) = Ok a →
        k1 a (amp_comps (m t)) = k2 a (amp_comps (m t))) →
  (m ≫= k1) t = (m ≫= k2) t.
Proof.
  intros H. rewrite !run_bind.
  destruct (m t) as [[a|e] t' ? ?]; [|done]. simpl in H. by rewrite H.
Qed.

(** A state that a round leaves as it is, is left so by any number of
    rounds. *)
Lemma rounds_fixed n P_d T_d st :
  Solver.round P_d T_d st = Ok st → Solver.rounds n P_d T_d st = Ok st.
Proof.
  intros Hfix. induction n as [|n IH]; simpl; [done|]. by rewrite Hfix.
Qed.

(** When the pressure does not depend on the temperature the first round
    reaches a fixed state, from any guess. *)
Lemma round_Ok P_d T_d st st1 :
  Solver.round P_d T_d st = Ok st1 →
  ∃ P T, P_d st.2 = Ok P ∧ T_d P = Ok T ∧ st1 = (Some P, T).
Proof.
  unfold Solver.round.
  destruct (P_d st.2) as [P|e]; cbn [mbind result_bind]; [|discriminate].
  destruct (T_d P) as [T|e] eqn:ET; cbn [mbind result_bind]; [|discriminate].
  intros [= <-]. by exists P, T.
Qed.

Lemma rounds_S n P_d T_d st :
  Solver.rounds (S n) P_d T_d st
  = (st1 ← Solver.round P_d T_d st; Solver.rounds n P_d T_d st1).
Proof. reflexivity. Qed.

Lemma rounds_constant_P n P_d T_d st st' :
  (∀ x y, P_d x = P_d y) →
  Solver.rounds (S n) P_d T_d st = Solver.rounds 1 P_d T_d st'.
Proof.
  intros HP. rewrite !rounds_S.
  assert (Solver.round P_d T_d st = Solver.round P_d T_d st') as ->.
  { unfold Solver.round. by rewrite (HP st.2 st'.2). }
  destruct (Solver.round P_d T_d st') as [st1|e] eqn:E;
    cbn [mbind result_bind]; [|done].
  apply rounds_fixed.
  apply round_Ok in E as (P & T & EP & ET & ->).
  unfold Solver.round. cbn [snd].
  rewrite (HP T st'.2), EP. cbn [mbind result_bind]. by rewrite ET.
Qed.

(** When the temperature does not depend on the pressure the second round
    does. *)
Lemma rounds_constant_T n P_d T_d st :
  (∀ x y, T_d x = T_d y) →
  Solver.rounds (S (S n)) P_d T_d st = Solver.rounds 2 P_d T_d st.
Proof.
  intros HT. rewrite (rounds_S (S n)), (rounds_S 1).
  destruct (Solver.round P_d T_d st) as [st1|e] eqn:E1;
    cbn [mbind result_bind]; [|done].
  rewrite (rounds_S n), (rounds_S 0).
  destruct (Solver.round P_d T_d st1) as [st2|e] eqn:E2;
    cbn [mbind result_bind]; [|done].
  apply rounds_fixed.
  apply round_Ok in E2 as (P2 & T2 & EP2 & ET2 & ->).
  apply round_Ok in E1 as (P1 & T1 & EP1 & ET1 & ->).
  cbn [snd] in EP2.
  assert (T2 = T1) as -> by (rewrite (HT P2 P1) in ET2; congruence).
  unfold Solver.round. cbn [snd].
  rewrite EP2. cbn [mbind result_bind]. by rewrite ET2.
Qed.

Lemma solve_partials (P_func T_func : partial) n g :
  solve (Partial P_func) (Partial T_func) n g
  = (st ← Solver.rounds n (call_partial P_func) (call_partial T_func)
            (None, g);
     PT_out st).
Proof. unfold solve. cbn [mbind result_bind]. by rewrite for_each_rounds. Qed.

Lemma solve_constant_P (p : partial) T_func n g g' :
  (∀ x y, call_partial p x = call_partial p y) →
  solve (Partial p) T_func (S n) g = solve (Partial p) T_func 1 g'.
Proof.
  intros HP. destruct T_func as [[?|?]|q| | | |]; try reflexivity.
  rewrite !solve_partials.
  by rewrite (rounds_constant_P n _ _ (None, g) (None, g') HP).
Qed.

Lemma solve_constant_T P_func (q : partial) n g :
  (∀ x y, call_partial q x = call_partial q y) →
  solve P_func (Partial q) (S (S n)) g = solve P_func (Partial q) 2 g.
Proof.
  intros HT. destruct P_func as [[?|?]|p| | | |]; try reflexivity.
  rewrite !solve_partials.
  by rewrite (rounds_constant_T n _ _ (None, g) HT).
Qed.

Lemma solve_series_P p T_func n m g g' :
  solve (Num (Series p)) T_func n g = solve (Num (Series p)) T_func m g'.
Proof. destruct T_func as [[?|?]|q| | | |]; reflexivity. Qed.

(** What the dispatchers return for the marker. *)
Lemma evaluate_Solve_Ok name f kwargs t a :
  returned (evaluate name f kwargs (PyStr "Solve") t) = Ok a →
  a = Partial {| p_func := f; p_keywords := kwargs |}.
Proof. unfold evaluate. rewrite bool_decide_true by done. by intros [= <-]. Qed.

Lemma lookup_and_check_Ok registry equation X needs advisory mismatch t f :
  returned (lookup_and_check registry equation X needs advisory mismatch t)
  = Ok f →
  registry !! equation = Some f.
Proof.
  unfold lookup_and_check. intros H.
  apply bind_Ok in H as (f' & t1 & Hf & _ & H).
  destruct (registry !! equation) as [f''|]; [|discriminate].
  injection Hf as ->.
  apply bind_Ok in H as (? & t2 & _ & _ & H).
  apply bind_Ok in H as (? & t3 & _ & _ & H).
  apply bind_Ok in H as (? & t4 & _ & _ & H).
  by injection H as ->.
Qed.

Lemma temp_Solve_Ok env equationT t a :
  returned (calculate_amp_only_temp env equationT (PyStr "Solve") t) = Ok a →
  ∃ f kw, Amp_only_T_funcs_by_name env !! equationT = Some f
          ∧ a = Partial {| p_func := f; p_keywords := kw |}.
Proof.
  unfold calculate_amp_only_temp. intros H.
  apply bind_Ok in H as (f & t1 & Hf & _ & H).
  apply lookup_and_check_Ok in Hf.
  apply bind_Ok in H as (kw & t2 & _ & _ & H).
  apply evaluate_Solve_Ok in H. eauto.
Qed.

Lemma press_Solve_Ok env equationP deltaNNO t a :
  equationP ≠ "P_Ridolfi2021" → equationP ≠ "P_Mutch2016" →
  equationP ≠ "P_Kraw2012" →
  returned (calculate_amp_only_press env equationP (PyStr "Solve") deltaNNO t)
  = Ok a →
  ∃ f kw, Amp_only_P_funcs_by_name env !! equationP = Some f
          ∧ a = Partial {| p_func := f; p_keywords := kw |}.
Proof.
  intros H1 H2 HK. unfold calculate_amp_only_press.
  rewrite (bool_decide_true _ H1), (bool_decide_true _ H2). cbn [andb].
  rewrite (bool_decide_false _ HK), (bool_decide_false (_ = "P_Mutch2016")),
    (bool_decide_false (_ = "P_Ridolfi2021")) by done.
  rewrite orb_false_r. intros H.
  apply bind_Ok in H as (func & t1 & Hf & _ & H).
  apply bind_Ok in Hf as (f & t0 & Hf & _ & Hfunc).
  injection Hfunc as <-. apply lookup_and_check_Ok in Hf.
  apply bind_Ok in H as (df & t2 & _ & _ & H).
  apply bind_Ok in H as (? & t3 & _ & _ & H).
  destruct (contains "Ridolfi2012" equationP) eqn:HR.
  - destruct (ridolfi_branch_unselected env equationP t3 H1) as [e He].
    congruence.
  - apply bind_Ok in H as (? & t4 & _ & _ & H).
    apply bind_Ok in H as (f' & t5 & Hf' & _ & H). injection Hf' as <-.
    apply bind_Ok in H as (? & t6 & _ & _ & H).
    apply bind_Ok in H as (kw & t7 & _ & _ & H).
    apply evaluate_Solve_Ok in H. eauto.
Qed.

Lemma independent_call_P env f kw x y :
  f ∈ Amp_only_P_funcs env → pos_default_is_None f = true →
  call_partial {| p_func := f; p_keywords := kw |} x
  = call_partial {| p_func := f; p_keywords := kw |} y.
Proof.
  intros Hin Hd. unfold call_partial, call. simpl.
  by rewrite !(independent_body_P env f _ kw Hin Hd).
Qed.

Lemma independent_call_T env f kw x y :
  f ∈ Amp_only_T_funcs env → pos_default_is_None f = true →
  call_partial {| p_func := f; p_keywords := kw |} x
  = call_partial {| p_func := f; p_keywords := kw |} y.
Proof.
  intros Hin Hd. unfold call_partial, call. simpl.
  by rewrite !(independent_body_T env f _ kw Hin Hd).
Qed.

(** X9: with a barometer of the registry that does not take the
    temperature, the solver returns or raises after any number of rounds,
    from any guess, what it does after one round; with a thermometer that
    does not take the pressure, after two rounds or more what it does after
    two. *)
Theorem two_rounds_are_enough env equationT equationP t :
  (independent (Amp_only_P_funcs_by_name env) equationP →
   ∀ n T_K_guess T_K_guess',
     calculate_amp_only_press_temp env equationT equationP (S n) T_K_guess t
     = calculate_amp_only_press_temp env equationT equationP 1 T_K_guess' t)
  ∧ (independent (Amp_only_T_funcs_by_name env) equationT →
     ∀ n T_K_guess,
       calculate_amp_only_press_temp env equationT equationP (S (S n))
         T_K_guess t
       = calculate_amp_only_press_temp env equationT equationP 2 T_K_guess t).
Proof.
  split.
  - intros (f & Hf & Hd) n g g'. unfold calculate_amp_only_press_temp.
    apply bind_ext. intros T_func t1.
    rewrite (registered_P_guard _ _ _ Hf).
    apply bind_ext_Ok. intros P_func HP.
    destruct (decide (equationP = "P_Kraw2012")) as [->|HK].
    { destruct (press_Kraw2012_raises env (PyStr "Solve") t1) as [e He].
      congruence. }
    destruct (not_registered_P env) as [N1 N2].
    apply press_Solve_Ok in HP as (f' & kw & Hf' & ->);
      [|intros ->; congruence|intros ->; congruence|done].
    assert (f' = f) as -> by congruence.
    unfold lift. f_equal. apply solve_constant_P. intros x y.
    apply by_name_Some in Hf as [Hin _]. by apply (independent_call_P env).
  - intros (f & Hf & Hd) n g. unfold calculate_amp_only_press_temp.
    apply bind_ext_Ok. intros T_func HT.
    apply temp_Solve_Ok in HT as (f' & kw & Hf' & ->).
    assert (f' = f) as -> by congruence.
    apply bind_ext. intros P_func t2.
    unfold lift. f_equal. apply solve_constant_T. intros x y.
    apply by_name_Some in Hf as [Hin _]. by apply (independent_call_T env).
Qed.

(** On the example batch: P_Hollister1987 with T_Put2016_eq6, thirty rounds
    from 1300 K or one round from 900 K; T_Put2016_eq5 with P_Anderson1995,
    thirty rounds or two. *)
Lemma two_rounds_witness :
  (∃ P T,
     returned (calculate_amp_only_press_temp Example.env "T_Put2016_eq6"
                 "P_Hollister1987" 30 (Scalar 1300) (Some Example.batch))
     = Ok (PTFrame (Series P) (Series T))
     ∧ calculate_amp_only_press_temp Example.env "T_Put2016_eq6"
         "P_Hollister1987" 30 (Scalar 1300) (Some Example.batch)
       = calculate_amp_only_press_temp Example.env "T_Put2016_eq6"
           "P_Hollister1987" 1 (Scalar 900) (Some Example.batch))
  ∧ calculate_amp_only_press_temp Example.env "T_Put2016_eq5"
      "P_Anderson1995" 30 (Scalar 1300) (Some Example.batch)
    = calculate_amp_only_press_temp Example.env "T_Put2016_eq5"
        "P_Anderson1995" 2 (Scalar 1300) (Some Example.batch).
Proof.
  split.
  - eexists. eexists. split; [vm_compute; reflexivity|].
    apply (proj1 (two_rounds_are_enough Example.env "T_Put2016_eq6"
                    "P_Hollister1987" (Some Example.batch))).
    exists P_Hollister1987. split; reflexivity.
  - apply (proj2 (two_rounds_are_enough Example.env "T_Put2016_eq5"
                    "P_Anderson1995" (Some Example.batch))).
    exists T_Put2016_eq5. split; reflexivity.
Defined.

Lemma press_Mutch2016_Ok env T deltaNNO t r :
  returned (calculate_amp_only_press env "P_Mutch2016" T deltaNNO t) = Ok r →
  ∃ df, r = Frame df.
Proof.
  unfold calculate_amp_only_press. decide_closed. intros H.
  rewrite run_mret_bind in H.
  apply bind_Ok in H as (df & t1 & _ & _ & H).
  apply bind_Ok in H as (? & t2 & _ & _ & H).
  unfold mutch_branch in H.
  do 10 (cbv zeta in H; apply bind_Ok in H as (? & ? & _ & _ & H)).
  injection H as <-. eauto.
Qed.

Lemma P_kbar_calc_of_Ok r P_func :
  (∃ Calcs_R, r = CalcsFrame Calcs_R) ∨ (∃ df, r = Frame df) →
  P_kbar_calc_of r = Ok P_func → ∃ p, P_func = Num (Series p).
Proof.
  intros [[C ->]|[df ->]]; simpl.
  - intros [= <-]. eauto.
  - destruct (col df "P_kbar_calc") as [v|e] eqn:E; [|discriminate].
    intros [= <-]. apply col_Ok in E as (p & -> & _). eauto.
Qed.

(** X10: with P_Ridolfi2021 or P_Mutch2016 the solver does not iterate: the
    number of rounds, zero included, and the guess have no effect on what
    it returns or raises. *)
Theorem table_barometers_are_not_iterated env equationT n m g g' t :
  calculate_amp_only_press_temp env equationT "P_Ridolfi2021" n g t
  = calculate_amp_only_press_temp env equationT "P_Ridolfi2021" m g' t
  ∧ calculate_amp_only_press_temp env equationT "P_Mutch2016" n g t
    = calculate_amp_only_press_temp env equationT "P_Mutch2016" m g' t.
Proof.
  split; unfold calculate_amp_only_press_temp; decide_closed;
    apply bind_ext; intros T_func t1;
    apply bind_ext_Ok; intros P_func HP;
    apply bind_Ok in HP as (r & t2 & Hr & _ & HP); apply lift_Ok in HP;
    [ apply press_Ridolfi2021_Ok in Hr as (? & ? & ? & ? & ? & ? & C & -> & _);
      destruct (P_kbar_calc_of_Ok _ _ (or_introl (ex_intro _ C eq_refl)) HP)
        as [p ->]
    | apply press_Mutch2016_Ok in Hr as (df & ->);
      destruct (P_kbar_calc_of_Ok _ _ (or_intror (ex_intro _ df eq_refl)) HP)
        as [p ->] ];
    unfold lift; f_equal; apply solve_series_P.
Qed.

(** ** The label of a selection *)

Lemma select_named s :
  named_estimate (name_of s) s
  = Some (Selection.select (s_1a s) (s_1b s) (s_1c s) (s_1d s) (s_1e s)).1.
Proof.
  unfold name_of, Selection.select.
  repeat match goal with
         | |- context [if ?t then _ else _] =>
             lazymatch t with
             | decide _ => fail
             | _ => destruct t
             end
         end; reflexivity.
Qed.

(** X12: on a batch the selection loop fills one pressure and one label per
    sample, and the label names the estimate stored: the pressure is the
    estimate of that name, or the average the name spells, the label [1c+1d]
    standing for the average of 1c and 1d as [(1c+1d)/2] does; a sample
    whose oxide sum is below 90 keeps its label and has NaN for its
    pressure. *)
Theorem the_label_names_the_stored_estimate
    empty_float empty_str (samples : list sample) :
  ∃ P_MPa name,
    Selection.selection_loop empty_float empty_str
      (Series (s_1a <$> samples)) (Series (s_1b <$> samples))
      (Series (s_1c <$> samples)) (Series (s_1d <$> samples))
      (Series (s_1e <$> samples)) (Series (s_sum <$> samples))
    = Ok (P_MPa, name)
    ∧ length P_MPa = length samples ∧ length name = length samples
    ∧ ∀ i s, samples !! i = Some s →
        ∃ label p,
          name !! i = Some label
          ∧ named_estimate label s = Some p
          ∧ P_MPa !! i = Some (if (s_sum s <? 90)%float then nan else p).
Proof.
  exists (P_MPa_of <$> samples), (name_of <$> samples).
  split; [apply selection_loop_samples|].
  rewrite !length_fmap. split; [done|]. split; [done|].
  intros i s Hs. exists (name_of s), (Selection.select (s_1a s) (s_1b s) (s_1c s) (s_1d s) (s_1e s)).1.
  rewrite !list_lookup_fmap, Hs. split; [done|]. split; [apply select_named|done].
Qed.

(** ** The pass flag and the reason *)

Lemma passes_iff_no_reason checks :
  Forall (λ c : bool * string, c.2 ≠ "") checks →
  Gate.passes checks = true ↔ Gate.last_failing checks = "".
Proof.
  intros Hne. unfold Gate.passes, Gate.last_failing.
  assert (Forall (λ m, m ≠ "") (Gate.failing checks)) as Hf.
  { apply Forall_forall. intros m Hm. unfold Gate.failing in Hm.
    apply list_elem_of_fmap in Hm as (c & -> & Hc).
    apply list_elem_of_filter in Hc as [_ Hc].
    by apply (proj1 (Forall_forall _ _) Hne). }
  revert Hf. generalize (Gate.failing checks). clear.
  intros l Hf. destruct l as [|m ms _] using rev_ind.
  - split; intros _; [reflexivity|by apply bool_decide_eq_true].
  - rewrite last_snoc. simpl. apply Forall_app in Hf as [_ Hm].
    rewrite Forall_singleton in Hm.
    rewrite bool_decide_false by (by destruct ms). split; [done|].
    intros ->. by destruct Hm.
Qed.

Lemma last_failing_elem checks :
  Gate.last_failing checks = "" ∨ Gate.last_failing checks ∈ checks.*2.
Proof.
  unfold Gate.last_failing.
  destruct (last (Gate.failing checks)) as [m|] eqn:E; [right|by left].
  simpl. apply last_Some_elem_of in E. unfold Gate.failing in E.
  apply list_elem_of_fmap in E as (c & -> & Hc).
  apply list_elem_of_filter in Hc as [_ Hc]. by apply list_elem_of_fmap_2.
Qed.

(** X13: in what the P_Ridolfi2021 path returns, a row has the pass flag set
    exactly when its reason is the empty string, and a reason that is not
    empty is one of the nine messages of the checks. *)
Theorem a_row_passes_iff_it_has_no_reason env T deltaNNO t Calcs_R i :
  returned (calculate_amp_only_press env "P_Ridolfi2021" T deltaNNO t)
  = Ok (CalcsFrame Calcs_R) →
  i < df_len (Calcs.cat13_columns Calcs_R) →
  ∃ flag reason,
    Calcs.Input_Check Calcs_R !! i = Some flag
    ∧ Calcs.Fail_Msg Calcs_R !! i = Some reason
    ∧ (flag = true ↔ reason = "")
    ∧ (reason = "" ∨ reason ∈ reasons).
Proof.
  intros H Hi.
  apply press_Ridolfi2021_Ok in H
    as (cat13 & amp & S & A & P & name & ? & [= <-] & H).
  pose proof (input_checks_row _ _ _ _ _ _ _ i H) as Hrow.
  pose proof (input_checks_cat13 _ _ _ _ _ _ _ H) as Hcat.
  rewrite Hcat in Hi. destruct (Hrow Hi) as (_ & HF & HIC & _).
  eexists. eexists. split; [exact HIC|]. split; [exact HF|]. split.
  - apply passes_iff_no_reason. unfold Gate.checks_in_order.
    repeat constructor; discriminate.
  - apply last_failing_elem.
Qed.

(** The second row of the example batch: the flag is false and the reason
    is not empty. *)
Lemma pass_flag_witness :
  ∃ Calcs_R,
    returned (calculate_amp_only_press Example.env "P_Ridolfi2021" PyNone
                None (Some Example.batch))
    = Ok (CalcsFrame Calcs_R)
    ∧ Calcs.Input_Check Calcs_R = [true; false; false]
    ∧ Calcs.Fail_Msg Calcs_R
      = [EmptyString; "Low B Cations"; "Cation oxide Total<90"]
    ∧ ∃ flag reason,
        Calcs.Input_Check Calcs_R !! 1 = Some flag
        ∧ Calcs.Fail_Msg Calcs_R !! 1 = Some reason
        ∧ (flag = true ↔ reason = "")
        ∧ (reason = "" ∨ reason ∈ reasons).
Proof.
  eexists. split; [vm_compute; reflexivity|].
  split; [vm_compute; reflexivity|]. split; [vm_compute; reflexivity|].
  apply (a_row_passes_iff_it_has_no_reason Example.env PyNone None
           (Some Example.batch) _ 1).
  - vm_compute; reflexivity.
  - vm_compute. lia.
Defined.

(** ** The columns the checks mask *)

Lemma input_checks_masked cat13 amp S A P name out i :
  input_checks cat13 amp S A P name = Ok out → i < df_len cat13 →
  let low := (Gate.cell (Calcs.Sum_input out) i <? 90)%float in
  (low = true →
     Calcs.H2O_calc out !! i = Some nan
     ∧ Calcs.Fe2O3_calc out !! i = Some nan
     ∧ Calcs.O_F_Cl out !! i = Some nan)
  ∧ Calcs.Total out !! i = Some nan
  ∧ Calcs.FeO_calc out !! i
    = Some (Gate.cell (Calcs.Fe2_calc out) i
            * Gate.frame_cell cat13 "cation_sum_Si_Mg" i * 71.846 / 13)%float.
Proof.
  intros H Hi. unfold input_checks in H.
  repeat match type of H with
  | context [col ?df ?nm] =>
      let E := fresh "E" in
      destruct (col df nm) as [?|?] eqn:E; cbn [mbind result_bind] in H; [|discriminate]
  end.
  name_column H Calcs.B_Sum B_Sum.
  name_column H Calcs.Mgno_Fe2 Mgno_Fe2.
  name_column H Calcs.Total_recalc Total_recalc.
  name_column H Calcs.Fe2_calc Fe2_calc.
  name_column H Calcs.Charge Charge.
  name_column H Calcs.Sum_input Sum_input.
  assert (selects (S <? #90)%val i = (Gate.cell Sum_input i <? 90)%float) as HS.
  { unfold Gate.cell. by apply selects_as_column. }
  clearbody B_Sum Mgno_Fe2 Total_recalc.
  cell_of Fe2_calc fe2 Hf Hi.
  clearbody Charge Sum_input.
  destruct (col_Ok _ _ _ E1) as (cs & -> & Hcs).
  destruct (lookup_lt_is_Some_2 cs i ltac:(rewrite Hcs; exact Hi)) as [c Hc].
  injection H as <-.
  cbn [Calcs.H2O_calc Calcs.Fe2O3_calc Calcs.O_F_Cl Calcs.Total Calcs.FeO_calc
       Calcs.Sum_input Calcs.Fe2_calc].
  cbv zeta. split; [|split].
  - intros Hlow. rewrite !loc_set_lookup, !as_column_lookup by done.
    rewrite HS, Hlow. done.
  - rewrite loc_set_lookup, full_lookup by done. simpl.
    by destruct (selects _ i).
  - rewrite as_column_lookup by done.
    cbn [vget]. rewrite !list_lookup_fmap, (align_lookup _ _ _ _ _ _ Hf Hc).
    unfold Gate.cell, Gate.frame_cell. rewrite Hf, E1. simpl. by rewrite Hc.
Qed.

Lemma bind_raises_Ok {A B} (m : M A) (k : A → M B) t :
  (∀ a, returned (m t) = Ok a → raises (k a (amp_comps (m t)))) →
  raises ((m ≫= k) t).
Proof.
  intros H. unfold raises. rewrite run_bind.
  destruct (m t) as [[a|e] t' ? ?]; [|by eauto].
  destruct (H a eq_refl) as [e He]. exists e. by rewrite <- He.
Qed.

(** X11: with [iterations = 0] and a barometer other than P_Ridolfi2021 and
    P_Mutch2016 the solver raises, whatever the thermometer and the table
    are: where both dispatchers return, no branch assigns [P_guess]. *)
Theorem without_a_round_the_solver_raises env equationT equationP T_K_guess t :
  equationP ≠ "P_Ridolfi2021" → equationP ≠ "P_Mutch2016" →
  raises (calculate_amp_only_press_temp env equationT equationP 0 T_K_guess t).
Proof.
  intros H1 H2. unfold calculate_amp_only_press_temp.
  apply bind_raises_Ok. intros T_func HT.
  apply temp_Solve_Ok in HT as (f & kw & _ & ->).
  rewrite (bool_decide_true _ H1), (bool_decide_true _ H2). cbn [andb].
  apply bind_raises_Ok. intros P_func HP.
  destruct (decide (equationP = "P_Kraw2012")) as [->|HK].
  { destruct (press_Kraw2012_raises env (PyStr "Solve")
                (amp_comps (calculate_amp_only_temp env equationT
                              (PyStr "Solve") t))) as [e He].
    congruence. }
  apply press_Solve_Ok in HP as (f' & kw' & _ & ->); [|done..].
  by eexists.
Qed.

(** P_Anderson1995 with T_Put2016_eq6 on the example batch: the unbound
    [P_guess] without a round, a frame after one. *)
Lemma without_a_round_witness :
  returned (calculate_amp_only_press_temp Example.env "T_Put2016_eq6"
              "P_Anderson1995" 0 (Scalar 1300) (Some Example.batch))
  = Raise (UnboundLocalError "P_guess")
  ∧ raises (calculate_amp_only_press_temp Example.env "T_Put2016_eq6"
              "P_Anderson1995" 0 (Scalar 1300) (Some Example.batch))
  ∧ ∃ P T,
      returned (calculate_amp_only_press_temp Example.env "T_Put2016_eq6"
                  "P_Anderson1995" 1 (Scalar 1300) (Some Example.batch))
      = Ok (PTFrame (Series P) (Series T)).
Proof.
  split; [vm_compute; reflexivity|]. split.
  - apply (without_a_round_the_solver_raises Example.env "T_Put2016_eq6"
             "P_Anderson1995" (Scalar 1300) (Some Example.batch));
      discriminate.
  - eexists. eexists. vm_compute; reflexivity.
Defined.

(** X14: in what the P_Ridolfi2021 path returns, a row whose oxide sum is
    below 90 has NaN in the columns [H2O_calc], [Fe2O3_calc] and [O=F,Cl]. *)
Theorem low_sum_rows_are_masked env T deltaNNO t Calcs_R i :
  returned (calculate_amp_only_press env "P_Ridolfi2021" T deltaNNO t)
  = Ok (CalcsFrame Calcs_R) →
  i < df_len (Calcs.cat13_columns Calcs_R) →
  (Gate.cell (Calcs.Sum_input Calcs_R) i <? 90)%float = true →
  Calcs.H2O_calc Calcs_R !! i = Some nan
  ∧ Calcs.Fe2O3_calc Calcs_R !! i = Some nan
  ∧ Calcs.O_F_Cl Calcs_R !! i = Some nan.
Proof.
  intros H Hi Hlow.
  apply press_Ridolfi2021_Ok in H
    as (cat13 & amp & S & A & P & name & ? & [= <-] & H).
  pose proof (input_checks_cat13 _ _ _ _ _ _ _ H) as Hcat.
  rewrite Hcat in Hi.
  destruct (input_checks_masked _ _ _ _ _ _ _ i H Hi) as (Hm & _ & _).
  by apply Hm.
Qed.

(** X15: in what the P_Ridolfi2021 path returns, [FeO_calc] holds
    [Fe2_calc * cation_sum_Si_Mg * 71.846 / 13] on every row, a row with an
    oxide sum below 90 included (line 425 masks [Fe2O3_calc] a second
    time), and the column [Total] holds NaN on every row. *)
Theorem FeO_calc_is_not_masked_and_Total_is_empty
    env T deltaNNO t Calcs_R i :
  returned (calculate_amp_only_press env "P_Ridolfi2021" T deltaNNO t)
  = Ok (CalcsFrame Calcs_R) →
  i < df_len (Calcs.cat13_columns Calcs_R) →
  Calcs.FeO_calc Calcs_R !! i
  = Some (Gate.cell (Calcs.Fe2_calc Calcs_R) i
          * Gate.frame_cell (Calcs.cat13_columns Calcs_R) "cation_sum_Si_Mg" i
          * 71.846 / 13)%float
  ∧ Calcs.Total Calcs_R !! i = Some nan.
Proof.
  intros H Hi.
  apply press_Ridolfi2021_Ok in H
    as (cat13 & amp & S & A & P & name & ? & [= <-] & H).
  pose proof (input_checks_cat13 _ _ _ _ _ _ _ H) as Hcat.
  rewrite Hcat in Hi |- *.
  destruct (input_checks_masked _ _ _ _ _ _ _ i H Hi) as (_ & HT & HF).
  done.
Qed.

(** The third row of the example batch, whose oxide sum is below 90. *)
Lemma low_sum_witness :
  ∃ Calcs_R,
    returned (calculate_amp_only_press Example.env "P_Ridolfi2021" PyNone
                None (Some Example.batch))
    = Ok (CalcsFrame Calcs_R)
    ∧ is_nan <$> Calcs.H2O_calc Calcs_R = [false; false; true]
    ∧ Calcs.H2O_calc Calcs_R !! 2 = Some nan
    ∧ Calcs.Fe2O3_calc Calcs_R !! 2 = Some nan
    ∧ Calcs.O_F_Cl Calcs_R !! 2 = Some nan.
Proof.
  eexists. split; [vm_compute; reflexivity|].
  split; [vm_compute; reflexivity|].
  apply (low_sum_rows_are_masked Example.env PyNone None
           (Some Example.batch) _ 2).
  - vm_compute; reflexivity.
  - vm_compute. lia.
  - vm_compute; reflexivity.
Defined.

(** On the example batch [FeO_calc] is a number on the three rows, the
    third included, and [Total] is NaN on the three. *)
Lemma FeO_calc_witness :
  ∃ Calcs_R,
    returned (calculate_amp_only_press Example.env "P_Ridolfi2021" PyNone
                None (Some Example.batch))
    = Ok (CalcsFrame Calcs_R)
    ∧ is_nan <$> Calcs.FeO_calc Calcs_R = [false; false; false]
    ∧ is_nan <$> Calcs.Total Calcs_R = [true; true; true]
    ∧ Calcs.FeO_calc Calcs_R !! 2
      = Some (Gate.cell (Calcs.Fe2_calc Calcs_R) 2
              * Gate.frame_cell (Calcs.cat13_columns Calcs_R)
                  "cation_sum_Si_Mg" 2
              * 71.846 / 13)%float
    ∧ Calcs.Total Calcs_R !! 2 = Some nan.
Proof.
  eexists. split; [vm_compute; reflexivity|].
  split; [vm_compute; reflexivity|]. split; [vm_compute; reflexivity|].
  apply (FeO_calc_is_not_masked_and_Total_is_empty Example.env PyNone None
           (Some Example.batch) _ 2).
  - vm_compute; reflexivity.
  - vm_compute. lia.
Defined.

(** ** The equilibrium test of the amphibole-liquid functions *)

Lemma fmap_seq_take {A B} (g : A → B) (l : list A) (dflt : B) n :
  n ≤ length l →
  (λ i, from_option g dflt (l !! i)) <$> seq 0 n = g <$> take n l.
Proof.
  intros Hn. apply list_eq. intros i. rewrite !list_lookup_fmap.
  destruct (decide (i < n)) as [Hlt|Hge].
  - rewrite lookup_seq_lt by done. rewrite lookup_take_lt by done. simpl.
    destruct (lookup_lt_is_Some_2 l i ltac:(lia)) as [x Hx]. by rewrite Hx.
  - rewrite lookup_seq_ge by lia. rewrite lookup_take_ge by lia. done.
Qed.

Lemma Eq_column_Ok env n ks :
  n ≤ length ks →
  Eq_Putirka_2016_column env n (Series ks) = Ok (Eq_label <$> take n ks).
Proof.
  intros Hn. unfold Eq_Putirka_2016_column.
  destruct (fill_loop (Eq_body (Series ks)) id
              (λ i, from_option Eq_label "" (ks !! i)) n)
    with (st := (λ i, stored 1 (np_empty_str env i)) <$> seq 0 n)
    as (b & Hrun & Hb).
  - intros i st Hi _. unfold Eq_body. simpl.
    destruct (lookup_lt_is_Some_2 ks i ltac:(lia)) as [k Hk]. rewrite Hk.
    simpl. eexists. split; [reflexivity|]. unfold Eq_label.
    by destruct (in_Putirka_range k).
  - simpl. by rewrite length_fmap, length_seq.
  - rewrite Hrun. f_equal. simpl in Hb. rewrite Hb.
    by apply fmap_seq_take.
Qed.

Lemma align_length op xs ys :
  length (align op xs ys) = length xs `max` length ys.
Proof.
  revert ys. induction xs as [|x xs IH]; intros [|y ys]; simpl;
    rewrite ?length_fmap; auto.
Qed.

Lemma as_column_own_length xs : as_column (length xs) (Series xs) = xs.
Proof.
  unfold as_column. simpl.
  rewrite (fmap_seq_lookup id xs nan). apply list_fmap_id.
Qed.

Lemma Kd_Fe_Mg_Ok MolProp hy Kd :
  Kd_Fe_Mg MolProp hy = Ok Kd →
  ∃ ks, Kd = Series ks ∧ df_len MolProp ≤ length ks.
Proof.
  unfold Kd_Fe_Mg.
  destruct (col MolProp "FeOt_Amp_mol_prop") as [a|] eqn:Ea;
    cbn [mbind result_bind]; [|discriminate].
  destruct (col MolProp "MgO_Amp_mol_prop") as [b|] eqn:Eb;
    cbn [mbind result_bind]; [|discriminate].
  destruct hy as [hy|]; cbn [mbind result_bind]; [|discriminate].
  destruct (col hy "FeOt_Liq_mol_frac_hyd") as [c|] eqn:Ec;
    cbn [mbind result_bind]; [|discriminate].
  destruct (col hy "MgO_Liq_mol_frac_hyd") as [d|] eqn:Ed;
    cbn [mbind result_bind]; [|discriminate].
  apply col_Ok in Ea as (xa & -> & Ha). apply col_Ok in Eb as (xb & -> & Hb).
  apply col_Ok in Ec as (xc & -> & Hc). apply col_Ok in Ed as (xd & -> & Hd).
  intros [= <-]. simpl. eexists. split; [done|].
  rewrite !align_length. lia.
Qed.

Lemma tests_frame_Ok column calc ks m r :
  m ≤ length ks →
  tests_frame column calc (Series ks) (Eq_label <$> take m ks) = Ok r →
  ∃ calc', r = Tested column calc' ks (Eq_label <$> ks).
Proof.
  intros Hm. unfold tests_frame, frame_index.
  rewrite length_fmap, length_take. rewrite Nat.min_l by done.
  cbn [labels].
  assert (∀ lu : option nat,
            (if bool_decide (m = default 0 lu `max` length ks)
             then Ok (default 0 lu `max` length ks)
             else Raise (ValueError
                           "array length does not match index length"))
            ≫= (λ n, Ok (Tested column (reindexed n calc)
                           (as_column n (Series ks))
                           (Eq_label <$> take m ks))) = Ok r →
            ∃ calc', r = Tested column calc' ks (Eq_label <$> ks)) as H.
  { intros lu. case_bool_decide as Hn; cbn [mbind result_bind];
      [|discriminate].
    assert (m = length ks) as -> by lia.
    assert (default 0 lu `max` length ks = length ks) as -> by lia.
    rewrite as_column_own_length, firstn_all. intros [= <-]. eauto. }
  destruct (labels calc) as [l|]; [apply (H (Some l))|apply (H None)].
Qed.

Lemma finish_tested env core local column calc hy t r :
  returned (finish env core local column calc hy PyTrue t) = Ok r →
  ∃ calc' Kd, r = Tested column calc' Kd (Eq_label <$> Kd).
Proof.
  unfold finish. intros H.
  apply bind_Ok in H as (amp & t1 & _ & _ & H).
  apply bind_Ok in H as (MolProp & t2 & _ & _ & H).
  apply bind_Ok in H as (Kd & t3 & HKd & _ & H). apply lift_Ok in HKd.
  apply Kd_Fe_Mg_Ok in HKd as (ks & -> & Hks).
  apply bind_Ok in H as (b & t4 & Hb & _ & H). apply lift_Ok in Hb.
  rewrite (Eq_column_Ok _ _ _ Hks) in Hb. injection Hb as <-.
  apply bind_Ok in H as (c & t5 & _ & _ & H). apply lift_Ok in H.
  apply tests_frame_Ok in H as [calc' ->]; eauto.
Qed.

(** X20: with [eq_tests=True], what [calculate_amp_liq_press] and
    [calculate_amp_liq_temp] return is the frame of the estimate, the
    [Kd-Fe-Mg] and the column [Eq Putirka 2016?], and that column holds
    ["Y"] where [Kd] is within 0.28 +- 0.11 and ["N"] elsewhere: the array
    is made by [np.empty(n, dtype=str)], which keeps one character, so the
    ["Yes"] and ["No"] that lines 1029-1030 write are never read back. *)
Theorem the_test_column_holds_Y_or_N env core :
  (∀ liq_comps meltmatch equationP T H2O_Liq t r,
     returned (calculate_amp_liq_press env core liq_comps meltmatch equationP
                 T PyTrue H2O_Liq t) = Ok r →
     ∃ calc Kd, r = Tested "P_kbar_calc" calc Kd (Eq_label <$> Kd))
  ∧ (∀ liq_comps equationT P H2O_Liq t r,
       returned (calculate_amp_liq_temp env core liq_comps equationT P
                   H2O_Liq PyTrue t) = Ok r →
       ∃ calc Kd, r = Tested "T_K_calc" calc Kd (Eq_label <$> Kd))
  ∧ (∀ Kd, Eq_label Kd = (if in_Putirka_range Kd then "Y" else "N")
           ∧ Eq_label Kd ≠ "Yes" ∧ Eq_label Kd ≠ "No").
Proof.
  split; [|split].
  - intros liq_comps meltmatch equationP T H2O_Liq t r H.
    unfold calculate_amp_liq_press in H.
    do 6 (cbv zeta in H; apply bind_Ok in H as (? & ? & _ & _ & H)).
    by apply finish_tested in H.
  - intros liq_comps equationT P H2O_Liq t r H.
    unfold calculate_amp_liq_temp in H.
    do 8 (cbv zeta in H; apply bind_Ok in H as (? & ? & _ & _ & H)).
    by apply finish_tested in H.
  - intros Kd. unfold Eq_label. by destruct (in_Putirka_range Kd).
Qed.

(** The example, whose third row is out of the range of [Kd]. *)
Lemma test_column_witness :
  returned (calculate_amp_liq_press Example.env Example_liq.core
              (Some Example_liq.liq) None "P_Put2016_eq7c" PyNone PyTrue None
              (Some Example_liq.amp))
  = Ok (Tested "P_kbar_calc"
          (Value (Series [3.8446026337652448; 3.8446026337652448;
                          3.8446026337652448]%float))
          [0.32380952380952382; 0.32380952380952382; 1.1333333333333333]%float
          ["Y"; "Y"; "N"])
  ∧ ∃ calc Kd,
      returned (calculate_amp_liq_temp Example.env Example_liq.core
                  (Some Example_liq.liq) "T_Put2016_eq9" PyNone None PyTrue
                  (Some Example_liq.amp))
      = Ok (Tested "T_K_calc" calc Kd (Eq_label <$> Kd))
      ∧ Eq_label <$> Kd = ["Y"; "Y"; "N"].
Proof.
  split; [vm_compute; reflexivity|].
  destruct (proj1 (proj2 (the_test_column_holds_Y_or_N Example.env
                            Example_liq.core))
              (Some Example_liq.liq) "T_Put2016_eq9" PyNone None
              (Some Example_liq.amp)
              (Tested "T_K_calc"
                 (Value (Series [1225.9415482640229; 1230.8467815733852;
                                 1225.9415482640229]%float))
                 [0.32380952380952382; 0.32380952380952382;
                  1.1333333333333333]%float
                 ["Y"; "Y"; "N"]))
    as (calc & Kd & H).
  - vm_compute; reflexivity.
  - exists calc, Kd. split.
    + rewrite <- H. vm_compute; reflexivity.
    + by injection H as _ _ <-.
Defined.

(** ** The amphibole-liquid solver *)




(** ** What the amphibole-liquid functions need *)

Lemma leaves_liq_lookup_and_check registry equation X liq needs advisory
    mismatch :
  leaves_table
    (liq_lookup_and_check registry equation X liq needs advisory mismatch).
Proof. unfold liq_lookup_and_check. leaves. Qed.

Lemma leaves_evaluate_liq f kw X : leaves_table (evaluate_liq f kw X).
Proof. unfold evaluate_liq. leaves. Qed.

Lemma Kd_Fe_Mg_unbound MolProp : ∃ e, Kd_Fe_Mg MolProp None = Raise e.
Proof.
  unfold Kd_Fe_Mg.
  destruct (col MolProp "FeOt_Amp_mol_prop"); cbn [mbind result_bind];
    [|by eexists].
  destruct (col MolProp "MgO_Amp_mol_prop"); cbn [mbind result_bind];
    by eexists.
Qed.

Lemma finish_unbound env core local column calc t :
  raises (finish env core local column calc None PyTrue t).
Proof.
  unfold finish. apply bind_raises. intros amp t1.
  apply bind_raises. intros MolProp t2. apply raises_bind.
  destruct (Kd_Fe_Mg_unbound MolProp) as [e He]. unfold lift. rewrite He.
  by eexists.
Qed.

Lemma press_liq_needs_tables env core liq_comps equationP T eq_tests
    H2O_Liq t :
  liq_comps = None ∨ t = None →
  raises (calculate_amp_liq_press env core liq_comps None equationP T
            eq_tests H2O_Liq t).
Proof.
  intros Hnone. unfold calculate_amp_liq_press.
  apply bind_raises_leaves; [apply leaves_liq_lookup_and_check|intros f].
  rewrite run_bind. unfold the_amp_comps at 1.
  cbn [after app returned amp_comps stdout warnings].
  destruct liq_comps as [liq|], t as [amp|];
    [by destruct Hnone|..];
    rewrite run_mret_bind; cbn [fst]; by eexists.
Qed.

Lemma press_liq_tested_needs_tables env core liq_comps meltmatch equationP T
    H2O_Liq t :
  liq_comps = None ∨ t = None →
  raises (calculate_amp_liq_press env core liq_comps meltmatch equationP
            T PyTrue H2O_Liq t).
Proof.
  intros Hnone. unfold calculate_amp_liq_press.
  apply bind_raises_leaves; [apply leaves_liq_lookup_and_check|intros f].
  rewrite run_bind. unfold the_amp_comps at 1.
  cbn [after app returned amp_comps stdout warnings].
  destruct liq_comps as [liq|], t as [amp|];
    [by destruct Hnone|..];
    rewrite run_mret_bind; cbn [fst snd];
    (apply bind_raises; intros Combo t1; apply bind_raises; intros kw t2;
     apply bind_raises; intros calc t3; apply finish_unbound).
Qed.

(** X18: the amphibole-liquid functions raise without their tables.
    [calculate_amp_liq_press] without [meltmatch] raises when the liquids
    or the amphiboles are [None], and so it does with [meltmatch] when the
    equilibrium test is asked for; [calculate_amp_liq_temp] takes no
    [meltmatch] and raises without liquids; [calculate_amp_liq_press_temp]
    without liquids raises the [AttributeError] of [None.copy()] before it
    looks at anything else. *)
Theorem the_liquid_functions_need_their_tables env core :
  (∀ equationP T eq_tests H2O_Liq t,
     raises (calculate_amp_liq_press env core None None equationP T
               eq_tests H2O_Liq t))
  ∧ (∀ liq_comps equationP T eq_tests H2O_Liq,
       raises (calculate_amp_liq_press env core liq_comps None equationP T
                 eq_tests H2O_Liq None))
  ∧ (∀ meltmatch equationP T H2O_Liq t,
       raises (calculate_amp_liq_press env core None meltmatch equationP
                 T PyTrue H2O_Liq t))
  ∧ (∀ liq_comps meltmatch equationP T H2O_Liq,
       raises (calculate_amp_liq_press env core liq_comps meltmatch equationP
                 T PyTrue H2O_Liq None))
  ∧ (∀ equationT P H2O_Liq eq_tests t,
       raises (calculate_amp_liq_temp env core None equationT P H2O_Liq
                 eq_tests t))
  ∧ (∀ equationT equationP iterations T_K_guess H2O_Liq eq_tests t,
       calculate_amp_liq_press_temp env core None equationT equationP
         iterations T_K_guess H2O_Liq eq_tests t
       = Outcome (Raise (AttributeError "copy")) t [] []).
Proof.
  split; [|split; [|split; [|split; [|split]]]].
  - intros. apply press_liq_needs_tables. by left.
  - intros. apply press_liq_needs_tables. by right.
  - intros. apply press_liq_tested_needs_tables. by left.
  - intros. apply press_liq_tested_needs_tables. by right.
  - intros equationT P H2O_Liq eq_tests t. unfold calculate_amp_liq_temp.
    apply bind_raises. intros f t1. cbv zeta.
    apply bind_raises. intros amp t2.
    apply bind_raises. intros amp23 t3. by eexists.
  - reflexivity.
Qed.

(** ** The other unknown in the amphibole-liquid functions *)

(** Every equation of the two registries has [None] for the default of its
    first parameter, and its body does not read it. *)
Lemma Amp_Liq_P_default env equation f :
  Amp_Liq_P_funcs_by_name env !! equation = Some f →
  pos_default_is_None f = true
  ∧ ∀ x kw, body f (Some x) kw = body f None kw.
Proof.
  intros Hf. apply by_name_Some in Hf as [Hin _].
  unfold Amp_Liq_P_funcs in Hin.
  repeat (apply elem_of_cons in Hin as [->|Hin]; [by split|]).
  by apply elem_of_nil in Hin.
Qed.

Lemma Amp_Liq_T_default env equation f :
  Amp_Liq_T_funcs_by_name env !! equation = Some f →
  pos_default_is_None f = true
  ∧ ∀ x kw, body f (Some x) kw = body f None kw.
Proof.
  intros Hf. apply by_name_Some in Hf as [Hin _].
  unfold Amp_Liq_T_funcs in Hin.
  repeat (apply elem_of_cons in Hin as [->|Hin]; [by split|]).
  by apply elem_of_nil in Hin.
Qed.

Section Liq_lookup_and_check.

Context (registry : gmap string pyfunc) (equation : string).
Context (liq : option DataFrame) (needs advisory mismatch : string).

Lemma liq_lookup_and_check_unknown X t :
  registry !! equation = None →
  liq_lookup_and_check registry equation X liq needs advisory mismatch t
  = Outcome (Raise (ValueError (equation +:+ " is not a valid equation"))) t
      [] [].
Proof.
  intros Hnone. unfold liq_lookup_and_check. rewrite Hnone. reflexivity.
Qed.

Lemma liq_lookup_and_check_default f X t :
  registry !! equation = Some f → pos_default_is_None f = true →
  arg_fits X liq →
  liq_lookup_and_check registry equation X liq needs advisory mismatch t
  = Outcome (Ok f) t (said advisory X) [].
Proof.
  intros Hf Hd HX. unfold liq_lookup_and_check. rewrite Hf. mrun.
  rewrite Hd. cbn [negb].
  destruct X as [|s|[x|xs]]; cbn [series_of said]; mrun; try reflexivity.
  destruct liq as [df|]; mrun; try reflexivity.
  simpl in HX. rewrite bool_decide_false by (intros ?; done). mrun.
  reflexivity.
Qed.

Lemma liq_lookup_and_check_mismatch f xs df t :
  registry !! equation = Some f → pos_default_is_None f = true →
  liq = Some df → length xs ≠ df_len df →
  liq_lookup_and_check registry equation (PyNum (Series xs)) liq needs
    advisory mismatch t
  = Outcome (Raise (ValueError mismatch)) t [advisory] [].
Proof.
  intros Hf Hd -> Hlen. unfold liq_lookup_and_check. rewrite Hf. mrun.
  rewrite Hd. cbn [negb series_of]. mrun.
  rewrite bool_decide_true by done. mrun. reflexivity.
Qed.

End Liq_lookup_and_check.

(** X16: [calculate_amp_liq_press] and [calculate_amp_liq_temp] refuse an
    equation that is not in their registry with the [ValueError] that
    names it, before anything is printed or read, and a Series for the
    other unknown whose length is not that of the liquids with the
    [ValueError] of the length check, after the advisory line. *)
Theorem the_liquid_dispatchers_refuse env core liq_comps X t :
  (∀ equationP meltmatch eq_tests H2O_Liq,
     Amp_Liq_P_funcs_by_name env !! equationP = None →
     calculate_amp_liq_press env core liq_comps meltmatch equationP X
       eq_tests H2O_Liq t
     = Outcome (Raise (ValueError (equationP +:+ " is not a valid equation")))
         t [] [])
  ∧ (∀ equationT H2O_Liq eq_tests,
       Amp_Liq_T_funcs_by_name env !! equationT = None →
       calculate_amp_liq_temp env core liq_comps equationT X H2O_Liq
         eq_tests t
       = Outcome (Raise (ValueError
                           (equationT +:+ " is not a valid equation")))
           t [] [])
  ∧ (∀ xs df equationP f meltmatch eq_tests H2O_Liq,
       X = PyNum (Series xs) → liq_comps = Some df →
       length xs ≠ df_len df →
       Amp_Liq_P_funcs_by_name env !! equationP = Some f →
       calculate_amp_liq_press env core liq_comps meltmatch equationP X
         eq_tests H2O_Liq t
       = Outcome (Raise (ValueError mismatch_T_liq)) t [advisory_T] [])
  ∧ (∀ xs df equationT f H2O_Liq eq_tests,
       X = PyNum (Series xs) → liq_comps = Some df →
       length xs ≠ df_len df →
       Amp_Liq_T_funcs_by_name env !! equationT = Some f →
       calculate_amp_liq_temp env core liq_comps equationT X H2O_Liq
         eq_tests t
       = Outcome (Raise (ValueError mismatch_P_liq)) t [advisory_P] []).
Proof.
  split; [|split; [|split]].
  - intros equationP meltmatch eq_tests H2O_Liq Hnone.
    unfold calculate_amp_liq_press. rewrite run_bind.
    by rewrite liq_lookup_and_check_unknown.
  - intros equationT H2O_Liq eq_tests Hnone.
    unfold calculate_amp_liq_temp. rewrite run_bind.
    by rewrite liq_lookup_and_check_unknown.
  - intros xs df equationP f meltmatch eq_tests H2O_Liq -> Hliq Hlen Hf.
    unfold calculate_amp_liq_press. rewrite run_bind.
    destruct (Amp_Liq_P_default _ _ _ Hf) as [Hd _].
    by rewrite (liq_lookup_and_check_mismatch _ _ _ _ _ _ _ _ _ _ Hf Hd Hliq
                  Hlen).
  - intros xs df equationT f H2O_Liq eq_tests -> Hliq Hlen Hf.
    unfold calculate_amp_liq_temp. rewrite run_bind.
    destruct (Amp_Liq_T_default _ _ _ Hf) as [Hd _].
    by rewrite (liq_lookup_and_check_mismatch _ _ _ _ _ _ _ _ _ _ Hf Hd Hliq
                  Hlen).
Qed.

Lemma evaluate_liq_number f kw x t :
  (∀ x kw, body f (Some x) kw = body f None kw) →
  pos_default_is_None f = true →
  evaluate_liq f kw (PyNum x) t = evaluate_liq f kw PyNone t.
Proof. intros Hb Hd. unfold evaluate_liq, call. by rewrite Hb, Hd. Qed.

(** X17: none of the registered amphibole-liquid equations takes the other
    unknown: a temperature given to [calculate_amp_liq_press], or a
    pressure given to [calculate_amp_liq_temp], that passes the length
    check changes nothing but for the advisory line that is printed. *)
Theorem the_liquid_equations_take_no_other_unknown env core liq_comps x t :
  fits x liq_comps →
  (∀ equationP f meltmatch eq_tests H2O_Liq,
     Amp_Liq_P_funcs_by_name env !! equationP = Some f →
     calculate_amp_liq_press env core liq_comps meltmatch equationP
       (PyNum x) eq_tests H2O_Liq t
     = after [advisory_T] []
         (calculate_amp_liq_press env core liq_comps meltmatch equationP
            PyNone eq_tests H2O_Liq t))
  ∧ (∀ equationT f H2O_Liq eq_tests,
       Amp_Liq_T_funcs_by_name env !! equationT = Some f →
       calculate_amp_liq_temp env core liq_comps equationT (PyNum x) H2O_Liq
         eq_tests t
       = after [advisory_P] []
           (calculate_amp_liq_temp env core liq_comps equationT PyNone
              H2O_Liq eq_tests t)).
Proof.
  intros Hfits. split.
  - intros equationP f meltmatch eq_tests H2O_Liq Hf.
    destruct (Amp_Liq_P_default _ _ _ Hf) as [Hd Hb].
    unfold calculate_amp_liq_press. rewrite !(run_bind _ _ t).
    rewrite (liq_lookup_and_check_default _ _ _ _ _ _ _ (PyNum x) _ Hf Hd
               Hfits).
    rewrite (liq_lookup_and_check_default _ _ _ _ _ _ _ PyNone _ Hf Hd I).
    cbn [said after returned amp_comps stdout warnings app].
    rewrite ?after_nil, ?app_nil_r. f_equal.
    apply bind_ext; intros amp t1. apply bind_ext; intros bound t2.
    apply bind_ext; intros Combo t3. apply bind_ext; intros kw t4.
    rewrite !(run_bind _ _ t4). by rewrite evaluate_liq_number.
  - intros equationT f H2O_Liq eq_tests Hf.
    destruct (Amp_Liq_T_default _ _ _ Hf) as [Hd Hb].
    unfold calculate_amp_liq_temp. rewrite !(run_bind _ _ t).
    rewrite (liq_lookup_and_check_default _ _ _ _ _ _ _ (PyNum x) _ Hf Hd
               Hfits).
    rewrite (liq_lookup_and_check_default _ _ _ _ _ _ _ PyNone _ Hf Hd I).
    cbn [said after returned amp_comps stdout warnings app].
    rewrite ?after_nil, ?app_nil_r. f_equal. cbv zeta.
    apply bind_ext; intros amp t1. apply bind_ext; intros amp23 t2.
    apply bind_ext; intros liq_c t3. apply bind_ext; intros hy t4.
    apply bind_ext; intros an t5. apply bind_ext; intros kw t6.
    rewrite !(run_bind _ _ t6). by rewrite evaluate_liq_number.
Qed.

(** A pressure given for each row to the thermometer of equation 9. *)
Lemma no_other_unknown_witness :
  calculate_amp_liq_temp Example.env Example_liq.core (Some Example_liq.liq)
    "T_Put2016_eq9" (PyNum (Series [2; 3; 4]%float)) None PyFalse
    (Some Example_liq.amp)
  = after [advisory_P] []
      (calculate_amp_liq_temp Example.env Example_liq.core
         (Some Example_liq.liq) "T_Put2016_eq9" PyNone None PyFalse
         (Some Example_liq.amp)).
Proof.
  apply (proj2 (the_liquid_equations_take_no_other_unknown Example.env
                  Example_liq.core (Some Example_liq.liq)
                  (Series [2; 3; 4]%float) (Some Example_liq.amp) eq_refl)
           "T_Put2016_eq9" (T_Put2016_eq9 Example.env)).
  generalize Example.env. intros env. vm_compute; reflexivity.
Defined.

(** A name that no barometer has, and two pressures for three liquids. *)
Lemma liquid_refusal_witness :
  calculate_amp_liq_press Example.env Example_liq.core (Some Example_liq.liq)
    None "P_Put2016_eq7d" PyNone PyFalse None (Some Example_liq.amp)
  = Outcome (Raise (ValueError "P_Put2016_eq7d is not a valid equation"))
      (Some Example_liq.amp) [] []
  ∧ calculate_amp_liq_temp Example.env Example_liq.core
      (Some Example_liq.liq) "T_Put2016_eq9" (PyNum (Series [2; 3]%float))
      None PyFalse (Some Example_liq.amp)
    = Outcome (Raise (ValueError mismatch_P_liq)) (Some Example_liq.amp)
        [advisory_P] [].
Proof.
  destruct (the_liquid_dispatchers_refuse Example.env Example_liq.core
              (Some Example_liq.liq) PyNone (Some Example_liq.amp))
    as (Hname & _).
  destruct (the_liquid_dispatchers_refuse Example.env Example_liq.core
              (Some Example_liq.liq) (PyNum (Series [2; 3]%float))
              (Some Example_liq.amp))
    as (_ & _ & _ & Hlen).
  split.
  - apply Hname. vm_compute; reflexivity.
  - apply (Hlen [2; 3]%float Example_liq.liq "T_Put2016_eq9"
             (T_Put2016_eq9 Example.env)); [done|done|vm_compute; lia|].
    generalize Example.env. intros env. vm_compute; reflexivity.
Defined.

(** ** The amphibole-liquid solver and the two dispatchers *)

Lemma returned_bind {A B} (m : M A) (k : A → M B) t :
  returned ((m ≫= k) t)
  = match returned (m t) with
    | Ok a => returned (k a (amp_comps (m t)))
    | Raise e => Raise e
    end.
Proof. rewrite run_bind. by destruct (m t) as [[a|e] t' ? ?]. Qed.

Lemma returned_bind_then {A B} (m : M A) (k1 k2 : A → M B)
    (g : B → result B) t :
  (∀ a t', returned (k1 a t') = returned (k2 a t') ≫= g) →
  returned ((m ≫= k1) t) = returned ((m ≫= k2) t) ≫= g.
Proof.
  intros H. rewrite !returned_bind. destruct (returned (m t)); [apply H|done].
Qed.

Lemma evaluate_liq_direct env core local column f kw hy t :
  pos_default_is_None f = true →
  returned ((evaluate_liq f kw PyNone
               ≫= λ c, finish env core local column c hy PyFalse) t)
  = returned ((evaluate_liq f kw (PyStr "Solve")
                 ≫= λ c, finish env core local column c hy PyFalse) t)
    ≫= call_directly.
Proof.
  intros Hd. unfold evaluate_liq. rewrite bool_decide_true by done.
  cbv iota beta.
  assert (returned ((mret (Some (Deferred {| p_func := f; p_keywords := kw |}))
                       ≫= λ c, finish env core local column c hy PyFalse) t)
          = Ok (Plain (Deferred {| p_func := f; p_keywords := kw |}))) as ->
    by reflexivity.
  change (Ok (Plain (Deferred {| p_func := f; p_keywords := kw |}))
            ≫= call_directly)
    with ((λ v, Plain (Value v)) <$> call f None kw).
  rewrite !run_bind. unfold lift.
  destruct (call f None kw); reflexivity.
Qed.

Lemma temp_liq_direct env core liq_comps equationT H2O_Liq t :
  returned (calculate_amp_liq_temp env core liq_comps equationT PyNone
              H2O_Liq PyFalse t)
  = returned (calculate_amp_liq_temp env core liq_comps equationT
                (PyStr "Solve") H2O_Liq PyFalse t)
    ≫= call_directly.
Proof.
  unfold calculate_amp_liq_temp. rewrite !(returned_bind _ _ t).
  destruct (Amp_Liq_T_funcs_by_name env !! equationT) as [f|] eqn:Hf.
  - destruct (Amp_Liq_T_default _ _ _ Hf) as [Hd _].
    rewrite (liq_lookup_and_check_default _ _ _ _ _ _ _ PyNone _ Hf Hd I).
    rewrite (liq_lookup_and_check_default _ _ _ _ _ _ _ (PyStr "Solve") _ Hf
               Hd I).
    cbn [returned amp_comps]. cbv zeta.
    do 6 (apply returned_bind_then; intros ? ?).
    by apply evaluate_liq_direct.
  - by rewrite !liq_lookup_and_check_unknown.
Qed.

Lemma press_liq_direct env core liq_comps meltmatch equationP H2O_Liq t :
  returned (calculate_amp_liq_press env core liq_comps meltmatch equationP
              PyNone PyFalse H2O_Liq t)
  = returned (calculate_amp_liq_press env core liq_comps meltmatch equationP
                (PyStr "Solve") PyFalse H2O_Liq t)
    ≫= call_directly.
Proof.
  unfold calculate_amp_liq_press. rewrite !(returned_bind _ _ t).
  destruct (Amp_Liq_P_funcs_by_name env !! equationP) as [f|] eqn:Hf.
  - destruct (Amp_Liq_P_default _ _ _ Hf) as [Hd _].
    rewrite (liq_lookup_and_check_default _ _ _ _ _ _ _ PyNone _ Hf Hd I).
    rewrite (liq_lookup_and_check_default _ _ _ _ _ _ _ (PyStr "Solve") _ Hf
               Hd I).
    cbn [returned amp_comps]. cbv zeta.
    do 4 (apply returned_bind_then; intros ? ?).
    by apply evaluate_liq_direct.
  - by rewrite !liq_lookup_and_check_unknown.
Qed.

Lemma with_H2O_Liq_len liq H2O_Liq :
  df_len (with_H2O_Liq liq H2O_Liq) = df_len liq.
Proof. by destruct H2O_Liq. Qed.

Lemma temp_liq_H2O env core liq equationT X H2O_Liq eq_tests :
  calculate_amp_liq_temp env core (Some liq) equationT X H2O_Liq eq_tests
  = calculate_amp_liq_temp env core (Some (with_H2O_Liq liq H2O_Liq))
      equationT X None eq_tests.
Proof.
  unfold calculate_amp_liq_temp, liq_lookup_and_check.
  by rewrite with_H2O_Liq_len.
Qed.

Lemma press_liq_H2O env core liq equationP X H2O_Liq eq_tests :
  calculate_amp_liq_press env core (Some liq) None equationP X eq_tests
    H2O_Liq
  = calculate_amp_liq_press env core (Some (with_H2O_Liq liq H2O_Liq)) None
      equationP X eq_tests None.
Proof.
  unfold calculate_amp_liq_press, liq_lookup_and_check.
  by rewrite with_H2O_Liq_len.
Qed.

Lemma leaves_finish env core local column calc hy eq_tests :
  leaves_table (finish env core local column calc hy eq_tests).
Proof. unfold finish. leaves. Qed.

Lemma leaves_temp_liq env core liq_comps equationT X H2O_Liq eq_tests :
  leaves_table
    (calculate_amp_liq_temp env core liq_comps equationT X H2O_Liq eq_tests).
Proof.
  unfold calculate_amp_liq_temp.
  apply leaves_bind; [apply leaves_liq_lookup_and_check|intros f]. cbv zeta.
  do 6 (apply leaves_bind; [leaves|intros ?]).
  apply leaves_bind; [apply leaves_evaluate_liq|intros ?].
  apply leaves_finish.
Qed.

Lemma leaves_press_liq env core liq_comps meltmatch equationP X eq_tests
    H2O_Liq :
  leaves_table
    (calculate_amp_liq_press env core liq_comps meltmatch equationP X
       eq_tests H2O_Liq).
Proof.
  unfold calculate_amp_liq_press.
  apply leaves_bind; [apply leaves_liq_lookup_and_check|intros f].
  do 4 (apply leaves_bind; [leaves|intros ?]).
  apply leaves_bind; [apply leaves_evaluate_liq|intros ?].
  apply leaves_finish.
Qed.

Lemma finish_Solve_Ok env core local column f kw hy t r :
  returned ((evaluate_liq f kw (PyStr "Solve")
               ≫= λ c, finish env core local column c hy PyFalse) t) = Ok r →
  r = Plain (Deferred {| p_func := f; p_keywords := kw |}).
Proof.
  unfold evaluate_liq. rewrite bool_decide_true by done. cbv iota beta.
  by intros [= <-].
Qed.

Lemma liq_lookup_and_check_Ok registry equation X liq needs advisory mismatch
    t f :
  returned (liq_lookup_and_check registry equation X liq needs advisory
              mismatch t) = Ok f →
  registry !! equation = Some f.
Proof.
  unfold liq_lookup_and_check. intros H.
  apply bind_Ok in H as (f' & t1 & Hf & _ & H).
  destruct (registry !! equation) as [f''|]; [|discriminate].
  injection Hf as ->.
  apply bind_Ok in H as (? & t2 & _ & _ & H).
  apply bind_Ok in H as (? & t3 & _ & _ & H).
  by injection H as ->.
Qed.

Lemma temp_liq_Solve_Ok env core liq_comps equationT H2O_Liq t r :
  returned (calculate_amp_liq_temp env core liq_comps equationT
              (PyStr "Solve") H2O_Liq PyFalse t) = Ok r →
  ∃ f kw, Amp_Liq_T_funcs_by_name env !! equationT = Some f
          ∧ r = Plain (Deferred {| p_func := f; p_keywords := kw |}).
Proof.
  unfold calculate_amp_liq_temp. intros H.
  apply bind_Ok in H as (f & t1 & Hf & _ & H).
  apply liq_lookup_and_check_Ok in Hf.
  do 6 (cbv zeta in H; apply bind_Ok in H as (? & ? & _ & _ & H)).
  apply finish_Solve_Ok in H. eauto.
Qed.

Lemma press_liq_Solve_Ok env core liq_comps meltmatch equationP H2O_Liq t r :
  returned (calculate_amp_liq_press env core liq_comps meltmatch equationP
              (PyStr "Solve") PyFalse H2O_Liq t) = Ok r →
  ∃ f kw, Amp_Liq_P_funcs_by_name env !! equationP = Some f
          ∧ r = Plain (Deferred {| p_func := f; p_keywords := kw |}).
Proof.
  unfold calculate_amp_liq_press. intros H.
  apply bind_Ok in H as (f & t1 & Hf & _ & H).
  apply liq_lookup_and_check_Ok in Hf.
  do 4 (cbv zeta in H; apply bind_Ok in H as (? & ? & _ & _ & H)).
  apply finish_Solve_Ok in H. eauto.
Qed.

Lemma PT_out_Ok P0 T0 P T :
  PT_out (Some P0, T0) = Ok (PTFrame P T) → P0 = P ∧ T0 = T.
Proof. destruct P0, T0; simpl; intros [=]; by subst. Qed.

(** One round of two partial functions that do not read their argument. *)
Lemma solve_liq_direct fP kwP fT kwT n g r :
  pos_default_is_None fP = true → pos_default_is_None fT = true →
  (∀ x kw, body fP (Some x) kw = body fP None kw) →
  (∀ x kw, body fT (Some x) kw = body fT None kw) →
  solve_liq (Plain (Deferred {| p_func := fP; p_keywords := kwP |}))
    (Plain (Deferred {| p_func := fT; p_keywords := kwT |})) (S n) g = Ok r
  ↔ ∃ P T, call fP None kwP = Ok P ∧ call fT None kwT = Ok T
           ∧ PT_out (Some P, T) = Ok r.
Proof.
  intros HdP HdT HbP HbT. unfold solve_liq. cbn [as_pyobj].
  rewrite (solve_constant_P _ _ n g g)
    by (intros x y; unfold call_partial, call; simpl; by rewrite !HbP).
  rewrite solve_partials. cbn [Solver.rounds]. unfold Solver.round.
  unfold call_partial, call. cbn [p_func p_keywords snd].
  rewrite HdP, HdT, HbP.
  destruct (body fP None kwP) as [P|e]; cbn [mbind result_bind].
  - rewrite HbT. destruct (body fT None kwT) as [T|e]; cbn [mbind result_bind].
    + split; [intros H; by exists P, T|].
      intros (P' & T' & [= <-] & [= <-] & H). done.
    + split; [done|]. by intros (P' & T' & _ & [=] & _).
  - split; [done|]. by intros (P' & T' & [=] & _).
Qed.

(** X22: no amphibole-liquid equation taking the other unknown, the
    iteration of [calculate_amp_liq_press_temp] has nothing to converge
    to: with at least one round and [eq_tests=False] it returns the frame
    of [P] and [T] exactly when the thermometer and the barometer, called
    on their own without the other unknown, return [T] and [P] (and these
    make a frame), whatever the number of rounds and the first guess of
    the temperature. *)
Theorem the_liquid_solver_returns_the_two_direct_estimates env core liq
    equationT equationP n T_K_guess H2O_Liq t P T :
  returned (calculate_amp_liq_press_temp env core (Some liq) equationT
              equationP (S n) T_K_guess H2O_Liq PyFalse t)
  = Ok (Some (PTFrame P T))
  ↔ returned (calculate_amp_liq_temp env core (Some liq) equationT PyNone
                H2O_Liq PyFalse t) = Ok (Plain (Value T))
    ∧ returned (calculate_amp_liq_press env core (Some liq) None equationP
                  PyNone PyFalse H2O_Liq t) = Ok (Plain (Value P))
    ∧ PT_out (Some P, T) = Ok (PTFrame P T).
Proof.
  rewrite temp_liq_H2O, press_liq_H2O, temp_liq_direct, press_liq_direct.
  unfold calculate_amp_liq_press_temp. rewrite run_mret_bind.
  rewrite returned_bind, leaves_temp_liq.
  destruct (returned (calculate_amp_liq_temp _ _ _ _ (PyStr "Solve") _ _ t))
    as [T_func|e] eqn:ET; cbn [mbind result_bind];
    [|split; [done|by intros [[=] _]]].
  apply temp_liq_Solve_Ok in ET as (fT & kwT & HfT & ->).
  destruct (Amp_Liq_T_default _ _ _ HfT) as [HdT HbT].
  rewrite returned_bind, leaves_press_liq.
  destruct (returned (calculate_amp_liq_press _ _ _ _ _ (PyStr "Solve") _ _ t))
    as [P_func|e] eqn:EP; cbn [mbind result_bind];
    [|split; [done|by intros (_ & [=] & _)]].
  apply press_liq_Solve_Ok in EP as (fP & kwP & HfP & ->).
  destruct (Amp_Liq_P_default _ _ _ HfP) as [HdP HbP].
  rewrite returned_bind. unfold lift at 1. cbn [returned amp_comps].
  cbn [call_directly p_func p_keywords].
  destruct (solve_liq _ _ (S n) T_K_guess) as [r|e] eqn:ES.
  - apply solve_liq_direct in ES as (P0 & T0 & EP0 & ET0 & HPT); [|done..].
    rewrite EP0, ET0. cbn [fmap result_fmap returned].
    split.
    + intros [= ->]. apply PT_out_Ok in HPT as HPT'. destruct HPT' as [-> ->].
      done.
    + intros ([= <-] & [= <-] & H). rewrite H in HPT. by injection HPT as <-.
  - split; [done|]. intros (HT & HP & HPT).
    destruct (call fT None kwT) as [T0|] eqn:ET0; [|discriminate].
    destruct (call fP None kwP) as [P0|] eqn:EP0; [|discriminate].
    injection HT as <-. injection HP as <-.
    assert (solve_liq
              (Plain (Deferred {| p_func := fP; p_keywords := kwP |}))
              (Plain (Deferred {| p_func := fT; p_keywords := kwT |})) (S n)
              T_K_guess = Ok (PTFrame P0 T0)) as H'.
    { apply solve_liq_direct; [done..|]. by exists P0, T0. }
    congruence.
Qed.

(** The example after thirty rounds, and the two dispatchers on their
    own. *)
Lemma liquid_solver_witness :
  returned (calculate_amp_liq_temp Example.env Example_liq.core
              (Some Example_liq.liq) "T_Put2016_eq9" PyNone None PyFalse
              (Some Example_liq.amp))
  = Ok (Plain (Value (Series [1225.9415482640229; 1230.8467815733852;
                              1225.9415482640229]%float)))
  ∧ returned (calculate_amp_liq_press Example.env Example_liq.core
                (Some Example_liq.liq) None "P_Put2016_eq7b" PyNone PyFalse
                None (Some Example_liq.amp))
    = Ok (Plain (Value (Series [2.4881036413784248; 2.4881036413784248;
                                2.4881036413784248]%float)))
  ∧ PT_out (Some (Series [2.4881036413784248; 2.4881036413784248;
                          2.4881036413784248]%float),
            Series [1225.9415482640229; 1230.8467815733852;
                    1225.9415482640229]%float)
    = Ok (PTFrame (Series [2.4881036413784248; 2.4881036413784248;
                           2.4881036413784248]%float)
            (Series [1225.9415482640229; 1230.8467815733852;
                     1225.9415482640229]%float)).
Proof.
  apply (proj1 (the_liquid_solver_returns_the_two_direct_estimates
                  Example.env Example_liq.core Example_liq.liq
                  "T_Put2016_eq9" "P_Put2016_eq7b" 29 (Scalar 1300) None
                  (Some Example_liq.amp) _ _)).
  vm_compute; reflexivity.
Defined.

(** ** A string that is not the marker *)

Lemma evaluate_string_raises name f kw s t :
  s ≠ "Solve" → raises (evaluate name f kw (PyStr s) t).
Proof.
  intros Hs. unfold evaluate. rewrite bool_decide_false by done. by eexists.
Qed.

Lemma finish_string_raises env core local column f kw s hy eq_tests t :
  s ≠ "Solve" →
  raises ((evaluate_liq f kw (PyStr s)
             ≫= λ c, finish env core local column c hy eq_tests) t).
Proof.
  intros Hs. unfold evaluate_liq. rewrite bool_decide_false by done.
  cbv iota beta. rewrite run_bind, run_mret. rewrite after_nil.
  unfold finish. destruct eq_tests; [|by eexists..].
  do 4 (apply bind_raises; intros ? ?). apply raises_bind. by eexists.
Qed.

(** X19: a string given for the other unknown that is not exactly
    ["Solve"] makes the dispatchers raise: the amphibole-only barometers
    (the three that have a branch of their own apart) and thermometers,
    and the amphibole-liquid barometers and thermometers. *)
Theorem a_string_other_than_Solve_raises env core s t :
  s ≠ "Solve" →
  (∀ equationP deltaNNO,
     equationP ≠ "P_Ridolfi2021" → equationP ≠ "P_Mutch2016" →
     equationP ≠ "P_Kraw2012" →
     raises (calculate_amp_only_press env equationP (PyStr s) deltaNNO t))
  ∧ (∀ equationT,
       raises (calculate_amp_only_temp env equationT (PyStr s) t))
  ∧ (∀ liq_comps meltmatch equationP eq_tests H2O_Liq,
       raises (calculate_amp_liq_press env core liq_comps meltmatch
                 equationP (PyStr s) eq_tests H2O_Liq t))
  ∧ (∀ liq_comps equationT H2O_Liq eq_tests,
       raises (calculate_amp_liq_temp env core liq_comps equationT
                 (PyStr s) H2O_Liq eq_tests t)).
Proof.
  intros Hs. split; [|split; [|split]].
  - intros equationP deltaNNO H1 H2 HK. unfold calculate_amp_only_press.
    apply bind_raises. intros func t1.
    rewrite (bool_decide_false _ HK), (bool_decide_false (_ = "P_Mutch2016")),
      (bool_decide_false (_ = "P_Ridolfi2021")) by done.
    rewrite orb_false_r.
    apply bind_raises. intros df t2. apply bind_raises. intros _ t3.
    destruct (contains "Ridolfi2012" equationP).
    + by apply ridolfi_branch_unselected.
    + do 4 (apply bind_raises; intros ? ?).
      by apply evaluate_string_raises.
  - intros equationT. unfold calculate_amp_only_temp.
    do 2 (apply bind_raises; intros ? ?). by apply evaluate_string_raises.
  - intros liq_comps meltmatch equationP eq_tests H2O_Liq.
    unfold calculate_amp_liq_press.
    do 5 (apply bind_raises; intros ? ?). by apply finish_string_raises.
  - intros liq_comps equationT H2O_Liq eq_tests.
    unfold calculate_amp_liq_temp.
    do 7 (cbv zeta; apply bind_raises; intros ? ?).
    by apply finish_string_raises.
Qed.

(** The marker in lower case. *)
Lemma lower_case_solve_witness :
  returned (calculate_amp_only_press Example.env "P_Anderson1995"
              (PyStr "solve") None (Some Example.batch))
  = Raise (UnboundLocalError "P_kbar")
  ∧ raises (calculate_amp_only_temp Example.env "T_Put2016_eq6"
              (PyStr "solve") (Some Example.batch))
  ∧ returned (calculate_amp_liq_temp Example.env Example_liq.core
                (Some Example_liq.liq) "T_Put2016_eq4b" (PyStr "solve") None
                PyFalse (Some Example_liq.amp))
    = Raise (UnboundLocalError "T_K").
Proof.
  split; [vm_compute; reflexivity|]. split; [|vm_compute; reflexivity].
  apply (proj1 (proj2 (a_string_other_than_Solve_raises Example.env
                         Example_liq.core "solve" (Some Example.batch)
                         ltac:(discriminate)))).
Defined.

(** ** T_Put2016_eq9, row by row *)

Section Rows.

Context (n : nat).

Lemma column_length c : length (column n c) = n.
Proof. unfold column. by rewrite length_fmap, length_seq. Qed.

Lemma align_seq op (f g : nat → float) k m :
  align op (f <$> seq k m) (g <$> seq k m)
  = (λ i, op (f i) (g i)) <$> seq k m.
Proof.
  revert k. induction m as [|m IH]; intros k; simpl; [done|]. by rewrite IH.
Qed.

Lemma zip_with_seq (op : float → float → float) (f g : nat → float) k m :
  zip_with op (f <$> seq k m) (g <$> seq k m)
  = (λ i, op (f i) (g i)) <$> seq k m.
Proof.
  revert k. induction m as [|m IH]; intros k; simpl; [done|]. by rewrite IH.
Qed.

Lemma lift2_columns op f g :
  lift2 op (Series (column n f)) (Series (column n g))
  = Series (column n (λ i, op (f i) (g i))).
Proof. unfold column. simpl. by rewrite (align_seq op f g 0 n). Qed.

Lemma lift2_scalar_column op k g :
  lift2 op (Scalar k) (Series (column n g)) = Series (column n (λ i, op k (g i))).
Proof. unfold column. simpl. by rewrite <- list_fmap_compose. Qed.

Lemma lift2_column_scalar op f k :
  lift2 op (Series (column n f)) (Scalar k) = Series (column n (λ i, op (f i) k)).
Proof. unfold column. simpl. by rewrite <- list_fmap_compose. Qed.

Lemma lift1_column h f :
  lift1 h (Series (column n f)) = Series (column n (λ i, h (f i))).
Proof. unfold column. simpl. by rewrite <- list_fmap_compose. Qed.

Lemma nd2_series_series op f g :
  nd2 op (NSeries (column n f)) (NSeries (column n g))
  = Ok (NSeries (column n (λ i, op (f i) (g i)))).
Proof. unfold column. simpl. by rewrite (align_seq op f g 0 n). Qed.

Lemma nd2_series_array op f g :
  nd2 op (NSeries (column n f)) (NArray (column n g))
  = Ok (NSeries (column n (λ i, op (f i) (g i)))).
Proof.
  cbn [nd2]. unfold on_index_of, broadcast.
  rewrite (column_length f), (column_length g).
  rewrite (bool_decide_true (n = n)) by done.
  cbn [mbind result_bind].
  assert (zip_with op (column n f) (column n g)
          = column n (λ i, op (f i) (g i))) as ->
    by apply (zip_with_seq op f g 0 n).
  rewrite (column_length (λ i, op (f i) (g i))).
  by rewrite (bool_decide_true (n = n)).
Qed.

Lemma nd2_scalar_series op k g :
  nd2 op (NScalar k) (NSeries (column n g))
  = Ok (NSeries (column n (λ i, op k (g i)))).
Proof. unfold column. simpl. by rewrite <- list_fmap_compose. Qed.

Lemma nd1_series h f :
  nd1 h (NSeries (column n f)) = NSeries (column n (λ i, h (f i))).
Proof. unfold column. simpl. by rewrite <- list_fmap_compose. Qed.

Lemma NaM4_loop h init :
  length init = n →
  for_each (seq 0 n) (NaM4_body (Series (column n h))) init
  = Ok (column n (λ i, NaM4_of (h i))).
Proof.
  intros Hlen.
  destruct (fill_loop (NaM4_body (Series (column n h))) id
              (λ i, NaM4_of (h i)) n) with (st := init) as (b & Hrun & Hb).
  - intros i st Hi _. unfold NaM4_body, column. simpl.
    rewrite list_lookup_fmap, lookup_seq_lt by done. simpl.
    eexists. split; [reflexivity|]. unfold NaM4_of.
    by destruct (h i <=? 0.1)%float.
  - done.
  - rewrite Hrun. by f_equal.
Qed.

End Rows.

Lemma T_Put2016_eq9_columns env n X
    (Si Ti Mg Fe Na FeL Al AlL K Ca NaL KL : nat → float) :
  call (T_Put2016_eq9 env) X
    [("SiO2_Amp_cat_23ox", Series (column n Si));
     ("TiO2_Amp_cat_23ox", Series (column n Ti));
     ("MgO_Amp_cat_23ox", Series (column n Mg));
     ("FeOt_Amp_cat_23ox", Series (column n Fe));
     ("Na2O_Amp_cat_23ox", Series (column n Na));
     ("FeOt_Liq_mol_frac_hyd", Series (column n FeL));
     ("Al2O3_Amp_cat_23ox", Series (column n Al));
     ("Al2O3_Liq_mol_frac_hyd", Series (column n AlL));
     ("K2O_Amp_cat_23ox", Series (column n K));
     ("CaO_Amp_cat_23ox", Series (column n Ca));
     ("Na2O_Liq_mol_frac_hyd", Series (column n NaL));
     ("K2O_Liq_mol_frac_hyd", Series (column n KL))]
  = Ok (Series (column n (λ i, eq9_row env (Si i) (Ti i) (Mg i) (Fe i) (Na i)
                                 (FeL i) (Al i) (AlL i) (K i) (Ca i) (NaL i)
                                 (KL i)))).
Proof.
  assert (∀ kw, call (T_Put2016_eq9 env) X kw
                = body (T_Put2016_eq9 env) None kw) as ->
    by (by destruct X).
  cbn [body T_Put2016_eq9].
  repeat match goal with
         | |- context [arg ?kw ?name] =>
             let r := eval lazy [arg dict_get String.eqb Ascii.eqb Bool.eqb]
                      in (arg kw name) in
             change (arg kw name) with r
         end.
  cbn [mbind result_bind]. cbv zeta.
  repeat (progress rewrite ?lift2_columns, ?lift2_scalar_column,
            ?lift2_column_scalar, ?lift1_column).
  cbn [vlen]. rewrite column_length. cbn [mbind result_bind].
  rewrite NaM4_loop by (by rewrite length_fmap, length_seq).
  cbn [mbind result_bind of_val].
  repeat (progress (rewrite ?nd2_series_array, ?nd2_series_series,
                      ?nd2_scalar_series, ?nd1_series, ?lift2_columns,
                      ?lift2_scalar_column, ?lift2_column_scalar,
                      ?lift1_column;
                    cbn [mbind result_bind of_val to_val])).
  reflexivity.
Qed.

Lemma col_column df name v :
  col df name = Ok v →
  v = Series (column (df_len df) (λ i, Gate.frame_cell df name i)).
Proof.
  intros H. unfold Gate.frame_cell. rewrite H. revert H. unfold col.
  destruct (dict_get name (df_cols df)) as [xs|]; intros [= <-].
  f_equal. unfold column, as_column. apply list_fmap_ext.
  intros k i Hi. apply lookup_seq in Hi as [-> Hi]. simpl.
  by rewrite list_lookup_fmap, lookup_seq_lt.
Qed.

(** X23: [T_Put2016_eq9], given the columns of a table, returns one
    temperature per row, each computed from the twelve values of that row
    alone ([Na] on M4 being zero where [2 - Fe - Ca] is at most 0.1); given
    twelve numbers it raises the [TypeError] of [len] on a float. *)
Theorem T_Put2016_eq9_works_row_by_row env :
  (∀ Combo kw X,
     kwargs_from Combo (kwonly (T_Put2016_eq9 env)) = Ok kw →
     call (T_Put2016_eq9 env) X kw
     = Ok (Series
             ((λ i,
                 let cell := λ name, Gate.frame_cell Combo name i in
                 eq9_row env (cell "SiO2_Amp_cat_23ox")
                   (cell "TiO2_Amp_cat_23ox") (cell "MgO_Amp_cat_23ox")
                   (cell "FeOt_Amp_cat_23ox") (cell "Na2O_Amp_cat_23ox")
                   (cell "FeOt_Liq_mol_frac_hyd") (cell "Al2O3_Amp_cat_23ox")
                   (cell "Al2O3_Liq_mol_frac_hyd") (cell "K2O_Amp_cat_23ox")
                   (cell "CaO_Amp_cat_23ox") (cell "Na2O_Liq_mol_frac_hyd")
                   (cell "K2O_Liq_mol_frac_hyd"))
                <$> seq 0 (df_len Combo))))
  ∧ (∀ X Si Ti Mg Fe Na FeL Al AlL K Ca NaL KL,
       call (T_Put2016_eq9 env) X
         [("SiO2_Amp_cat_23ox", Scalar Si); ("TiO2_Amp_cat_23ox", Scalar Ti);
          ("MgO_Amp_cat_23ox", Scalar Mg); ("FeOt_Amp_cat_23ox", Scalar Fe);
          ("Na2O_Amp_cat_23ox", Scalar Na);
          ("FeOt_Liq_mol_frac_hyd", Scalar FeL);
          ("Al2O3_Amp_cat_23ox", Scalar Al);
          ("Al2O3_Liq_mol_frac_hyd", Scalar AlL);
          ("K2O_Amp_cat_23ox", Scalar K); ("CaO_Amp_cat_23ox", Scalar Ca);
          ("Na2O_Liq_mol_frac_hyd", Scalar NaL);
          ("K2O_Liq_mol_frac_hyd", Scalar KL)]
       = Raise (TypeError "object of type 'float' has no len()")).
Proof.
  split.
  - intros Combo kw X H. cbn [kwonly T_Put2016_eq9 kwargs_from] in H.
    repeat match type of H with
           | context [col ?df ?nm] =>
               let E := fresh "E" in
               destruct (col df nm) as [?|?] eqn:E;
               cbn [mbind result_bind] in H; [|discriminate];
               apply col_column in E; subst
           end.
    injection H as <-. apply T_Put2016_eq9_columns.
  - intros X Si Ti Mg Fe Na FeL Al AlL K Ca NaL KL. by destruct X.
Qed.

(** The three rows of the example. *)
Lemma T_Put2016_eq9_witness :
  ∃ kw,
    kwargs_from (Example_liq.first_of_each_name
                   [Example_liq.amp; Example_liq.liq])
      (kwonly (T_Put2016_eq9 Example.env)) = Ok kw
    ∧ call (T_Put2016_eq9 Example.env) None kw
      = Ok (Series [1225.9415482640229; 1230.8467815733852;
                    1225.9415482640229]%float)
    ∧ NaM4_of <$> [2 - 1.5 - 1.8; 2 - 0.2 - 1.6; nan]%float
      = [0; 2 - 0.2 - 1.6; nan]%float.
Proof.
  eexists. split; [vm_compute; reflexivity|]. split; [|vm_compute; reflexivity].
  etransitivity.
  - apply (proj1 (T_Put2016_eq9_works_row_by_row Example.env)
             (Example_liq.first_of_each_name
                [Example_liq.amp; Example_liq.liq])).
    vm_compute; reflexivity.
  - vm_compute; reflexivity.
Defined.

(** ** The melt compositions from amphibole *)

Lemma dict_get_set_eq {A} k (v : A) d : dict_get k (dict_set k v d) = Some v.
Proof.
  induction d as [|[k' v'] d IH]; simpl.
  - by rewrite String.eqb_refl.
  - destruct (String.eqb k' k) eqn:E; simpl; rewrite E; [done|apply IH].
Qed.

Lemma dict_get_set_ne {A} k n (v : A) d :
  n ≠ k → dict_get n (dict_set k v d) = dict_get n d.
Proof.
  intros Hne. induction d as [|[k' v'] d IH]; simpl.
  - destruct (String.eqb k n) eqn:E; [|done].
    apply String.eqb_eq in E. by subst.
  - destruct (String.eqb k' k) eqn:E; simpl.
    + apply String.eqb_eq in E. subst k'.
      destruct (String.eqb k n) eqn:E'; [|done].
      apply String.eqb_eq in E'. by subst.
    + by rewrite IH.
Qed.

Lemma col_agree df df' n :
  df_len df = df_len df' →
  dict_get n (df_cols df) = dict_get n (df_cols df') →
  col df n = col df' n.
Proof. unfold col. by intros -> ->. Qed.

Lemma col_has df n :
  has_col df n = true → ∃ xs, col df n = Ok (Series xs).
Proof.
  unfold has_col, col. intros H%bool_decide_eq_true.
  destruct H as [xs ->]. by eexists.
Qed.

Lemma col_lacks df n e :
  col df n = Raise e → has_col df n = false ∧ e = KeyError n.
Proof.
  unfold has_col, col. destruct (dict_get n (df_cols df)) eqn:E; [done|].
  intros [= <-]. split; [|done]. apply bool_decide_eq_false.
  by intros [? ?].
Qed.

Lemma as_column_twice n v :
  as_column n (Series (as_column n v)) = as_column n v.
Proof.
  unfold as_column at 1. apply list_eq. intros i.
  rewrite list_lookup_fmap.
  destruct (decide (i < n)) as [Hi|Hi].
  - rewrite lookup_seq_lt by done. simpl.
    by rewrite as_column_lookup.
  - rewrite lookup_seq_ge by lia. simpl. symmetry.
    apply lookup_ge_None_2. rewrite as_column_length. lia.
Qed.

Lemma col_set_col df name v :
  col (set_col df name v) name = Ok (Series (as_column (df_len df) v)).
Proof.
  unfold col, set_col. simpl. rewrite dict_get_set_eq.
  by rewrite as_column_twice.
Qed.

Lemma for_each_cons {A S} (x : A) xs (body : A → S → result S) st :
  for_each (x :: xs) body st = (st' ← body x st; for_each xs body st').
Proof. done. Qed.

Lemma for_each_assigned names cs df out :
  (∀ a, a ∈ cs → reads_only names a.2 ∧ (a.1 ∉ names)) →
  for_each cs assigned df = Ok out →
  df_len out = df_len df
  ∧ (∀ n, n ∉ cs.*1 → dict_get n (df_cols out) = dict_get n (df_cols df))
  ∧ (NoDup cs.*1 →
     ∀ a, a ∈ cs →
       ∃ v, a.2 df = Ok v
            ∧ col out a.1 = Ok (Series (as_column (df_len df) v))).
Proof.
  revert df. induction cs as [|[name f] cs IH]; intros df Hcs.
  - intros [= <-]. split; [done|]. split; [done|].
    intros _ a Ha. by apply elem_of_nil in Ha.
  - rewrite for_each_cons.
    change (assigned (name, f) df) with (v ← f df; Ok (set_col df name v)).
    destruct (f df) as [v|e] eqn:Hf; cbn [mbind result_bind]; [|done].
    intros Hout. rewrite fmap_cons. cbn [fst].
    destruct (Hcs (name, f)) as [_ Hname]; [apply list_elem_of_here|].
    simpl in Hname.
    assert (∀ n, n ∈ names →
              dict_get n (df_cols (set_col df name v))
              = dict_get n (df_cols df)) as Hsame.
    { intros n Hn. simpl. apply dict_get_set_ne. by intros ->. }
    apply IH in Hout as (Hlen & Hrest & Hcols).
    2:{ intros a Ha. apply Hcs. by apply list_elem_of_further. }
    split; [done|]. split.
    + intros n Hn. rewrite Hrest.
      * simpl. apply dict_get_set_ne. intros ->. apply Hn.
        apply list_elem_of_here.
      * intros Hin. apply Hn. by apply list_elem_of_further.
    + intros Hnd a Ha. apply NoDup_cons in Hnd as [Hfresh Hnd].
      apply elem_of_cons in Ha as [->|Ha].
      * exists v. split; [done|]. simpl.
        unfold col. rewrite Hlen, Hrest by done.
        fold (col (set_col df name v) name). apply col_set_col.
      * destruct (Hcols Hnd a Ha) as (w & Hw & Hcol).
        exists w. split; [|done].
        destruct (Hcs a) as [Hreads _]; [by apply list_elem_of_further|].
        rewrite <- Hw. symmetry. by apply Hreads.
Qed.

Lemma for_each_assigned_Ok names cs df :
  (∀ a, a ∈ cs → reads_only names a.2 ∧ (a.1 ∉ names) ∧ needs_only names a.2) →
  (∀ n, n ∈ names → has_col df n = true) →
  ∃ out, for_each cs assigned df = Ok out.
Proof.
  revert df. induction cs as [|[name f] cs IH]; intros df Hcs Hhas.
  - by eexists.
  - destruct (Hcs (name, f)) as (_ & Hname & Hneeds);
      [apply list_elem_of_here|].
    simpl in Hname, Hneeds. rewrite for_each_cons.
    change (assigned (name, f) df) with (v ← f df; Ok (set_col df name v)).
    specialize (Hneeds df).
    destruct (f df) as [v|e]; cbn [mbind result_bind].
    + apply IH.
      * intros a Ha. apply Hcs. by apply list_elem_of_further.
      * intros n Hn. unfold has_col. simpl.
        rewrite dict_get_set_ne by (by intros ->). by apply Hhas.
    + destruct Hneeds as (n & Hn & Hno & _). by rewrite Hhas in Hno.
Qed.
Ltac listed :=
  solve [repeat first [apply list_elem_of_here | apply list_elem_of_further]].

Ltac head_of t :=
  lazymatch t with
  | ?f _ => head_of f
  | _ => t
  end.

Lemma needs_bind (names : list string) df n (k : val → result val) :
  n ∈ names →
  (∀ v, match k v with
        | Ok _ => True
        | Raise e => ∃ n, n ∈ names ∧ has_col df n = false ∧ e = KeyError n
        end) →
  match v ← col df n; k v with
  | Ok _ => True
  | Raise e => ∃ n, n ∈ names ∧ has_col df n = false ∧ e = KeyError n
  end.
Proof.
  intros Hn Hk. destruct (col df n) as [v|e] eqn:E; cbn [mbind result_bind].
  - apply Hk.
  - apply col_lacks in E as [Hno ->]. by exists n.
Qed.

Ltac reads_the_columns :=
  let df := fresh "df" in
  let df' := fresh "df'" in
  let Hlen := fresh "Hlen" in
  let Hsame := fresh "Hsame" in
  intros df df' Hlen Hsame;
  lazymatch goal with
  | |- ?lhs = _ => let h := head_of lhs in unfold h
  end;
  repeat match goal with
         | |- context [col df ?n] =>
             rewrite (col_agree df df' n Hlen) by (apply Hsame; listed)
         end;
  reflexivity.

Ltac needs_the_columns :=
  let df := fresh "df" in
  intros df;
  lazymatch goal with
  | |- match ?r with _ => _ end => let h := head_of r in unfold h
  end;
  repeat (apply needs_bind; [listed|intros ?]);
  exact I.

Ltac each_of H :=
  repeat (apply elem_of_cons in H as [->|H]);
  [..|by apply elem_of_nil in H].

Lemma Zhang17_columns_read env a :
  a ∈ Zhang17_columns env →
  reads_only Zhang17_sites a.2 ∧ (a.1 ∉ Zhang17_sites)
  ∧ needs_only Zhang17_sites a.2.
Proof.
  intros Ha. unfold Zhang17_columns in Ha. each_of Ha; cbn [fst snd].
  all: split; [reads_the_columns|].
  all: split; [by apply (bool_decide_unpack _); vm_compute|needs_the_columns].
Qed.

Lemma Zhang17_columns_with_read env T_K a :
  a ∈ Zhang17_columns_with env T_K →
  reads_only Zhang17_sites a.2 ∧ (a.1 ∉ Zhang17_sites)
  ∧ needs_only Zhang17_sites a.2.
Proof.
  intros Ha. unfold Zhang17_columns_with in Ha. each_of Ha; cbn [fst snd].
  all: split; [reads_the_columns|].
  all: split; [by apply (bool_decide_unpack _); vm_compute|needs_the_columns].
Qed.


Lemma melt_Zhang17 env core T_K t :
  calculate_amp_only_melt_comps env core (Some "Zhang17") T_K t
  = Outcome (sites ← get_amp_sites_avferric_zhang core t;
             out ← for_each (Zhang17_columns env
                             ++ from_option (Zhang17_columns_with env) []
                                  T_K) assigned sites;
             Ok (Some out))
      t [] (if T_K is Some _ then [] else [Zhang17_warning]).
Proof.
  unfold calculate_amp_only_melt_comps.
  rewrite (bool_decide_false (Some "Zhang17" = Some "Ridolfi21")) by done.
  rewrite (bool_decide_true (Some "Zhang17" = Some "Zhang17")) by done.
  rewrite run_mret_bind.
  destruct T_K as [T_K|]; cbn [from_option].
  - assert (∀ s, for_each (Zhang17_columns env
                           ++ Zhang17_columns_with env T_K) assigned s
                 = (s1 ← for_each (Zhang17_columns env) assigned s;
                    for_each (Zhang17_columns_with env T_K) assigned s1))
      as Happ by (intros s; apply for_each_app).
    revert Happ.
    generalize (for_each (Zhang17_columns env
                          ++ Zhang17_columns_with env T_K) assigned),
      (for_each (Zhang17_columns env) assigned),
      (for_each (Zhang17_columns_with env T_K) assigned).
    intros all columns others Happ.
    unfold the_amp_comps, lift, warn, mbind, M_bind, mret, M_ret, after.
    simpl.
    destruct (get_amp_sites_avferric_zhang core t) as [sites|e];
      simpl; [|done].
    rewrite Happ.
    destruct (columns sites) as [s1|e]; simpl; [|done].
    by destruct (others s1).
  - rewrite app_nil_r.
    generalize (for_each (Zhang17_columns env) assigned).
    intros columns.
    unfold the_amp_comps, lift, warn, mbind, M_bind, mret, M_ret, after.
    simpl.
    destruct (get_amp_sites_avferric_zhang core t) as [sites|e];
      simpl; [|done].
    by destruct (columns sites).
Qed.

Lemma Zhang17_all_read env T_K a :
  a ∈ Zhang17_columns env ++ from_option (Zhang17_columns_with env) [] T_K →
  reads_only Zhang17_sites a.2 ∧ (a.1 ∉ Zhang17_sites)
  ∧ needs_only Zhang17_sites a.2.
Proof.
  intros [Ha|Ha]%elem_of_app.
  - by apply (Zhang17_columns_read env).
  - destruct T_K as [T_K|]; simpl in Ha.
    + by apply (Zhang17_columns_with_read env T_K).
    + by apply elem_of_nil in Ha.
Qed.

(** X24: when the site routine of Zhang et al. (2017) gives a table with the
    eleven ideal site columns, [calculate_amp_only_melt_comps] with
    [equation="Zhang17"] returns that table, of the same length, with one
    more column per formula (twelve, and two more when a temperature is
    given): each holds its formula evaluated on the table as the routine
    gave it, every other column is as it was, the caller's table is not
    touched, and the warning about the temperature is issued exactly when
    [T_K] is [None]. *)
Theorem Zhang17_adds_its_predictions env core (T_K : option val) t sites :
  get_amp_sites_avferric_zhang core t = Ok sites →
  (∀ n, n ∈ Zhang17_sites → has_col sites n = true) →
  ∃ out,
    calculate_amp_only_melt_comps env core (Some "Zhang17") T_K t
    = Outcome (Ok (Some out)) t []
        (if T_K is Some _ then [] else [Zhang17_warning])
    ∧ df_len out = df_len sites
    ∧ (∀ a, a ∈ Zhang17_columns env
                ++ from_option (Zhang17_columns_with env) [] T_K →
         ∃ v, a.2 sites = Ok v
              ∧ col out a.1 = Ok (Series (as_column (df_len sites) v)))
    ∧ (∀ n, n ∉ (Zhang17_columns env
                  ++ from_option (Zhang17_columns_with env) [] T_K).*1 →
         dict_get n (df_cols out) = dict_get n (df_cols sites)).
Proof.
  intros Hsites Hhas.
  destruct (for_each_assigned_Ok Zhang17_sites
              (Zhang17_columns env
               ++ from_option (Zhang17_columns_with env) [] T_K) sites)
    as [out Hout]; [apply Zhang17_all_read|done|].
  exists out. rewrite melt_Zhang17, Hsites. cbn [mbind result_bind].
  rewrite Hout. split; [done|].
  apply (for_each_assigned Zhang17_sites) in Hout as (Hlen & Hrest & Hcols).
  2:{ intros a Ha. by destruct (Zhang17_all_read env T_K a Ha) as (?&?&?). }
  split; [done|]. split; [|done].
  apply Hcols. destruct T_K; apply (bool_decide_unpack _); by vm_compute.
Qed.

(** The formulas of the example, evaluated with the example's [exp] and
    [log]. *)
Lemma Zhang17_witness :
  ∃ out,
    calculate_amp_only_melt_comps Example.env Example_liq.core
      (Some "Zhang17") None (Some Example_melt.sites)
    = Outcome (Ok (Some out)) (Some Example_melt.sites) []
        [Zhang17_warning]
    ∧ df_len out = 2
    ∧ has_col out "SiO2_Eq1" = true ∧ has_col out "SiO2_Eq3" = false.
Proof.
  destruct (Zhang17_adds_its_predictions Example.env Example_liq.core None
              (Some Example_melt.sites) Example_melt.sites)
    as (out & Hrun & Hlen & Hcols & Hrest).
  - reflexivity.
  - intros n Hn. unfold Zhang17_sites in Hn.
    repeat (apply elem_of_cons in Hn as [->|Hn]);
      [by vm_compute..|by apply elem_of_nil in Hn].
  - exists out. split; [exact Hrun|]. split; [exact Hlen|]. split.
    + destruct (Hcols ("SiO2_Eq1", Zhang17_SiO2_Eq1 Example.env))
        as (v & _ & Hv); [apply list_elem_of_here|].
      unfold has_col. apply bool_decide_eq_true. simpl in Hv.
      unfold col in Hv. by destruct (dict_get "SiO2_Eq1" (df_cols out)).
    + unfold has_col. rewrite (Hrest "SiO2_Eq3").
      * by vm_compute.
      * apply (bool_decide_unpack _). by vm_compute.
Defined.






Lemma col_bind_Ok df n (k : val → result val) r :
  (v ← col df n; k v) = Ok r →
  has_col df n = true ∧ ∃ v, k v = Ok r.
Proof.
  destruct (col df n) as [v|e] eqn:E; cbn [mbind result_bind]; [|done].
  intros Hk. split; [|by exists v].
  unfold col in E. unfold has_col. apply bool_decide_eq_true.
  by destruct (dict_get n (df_cols df)).
Qed.

Lemma Zhang17_SiO2_Eq1_reads_all env df v :
  Zhang17_SiO2_Eq1 env df = Ok v →
  ∀ n, n ∈ Zhang17_sites → has_col df n = true.
Proof.
  unfold Zhang17_SiO2_Eq1. intros H.
  repeat (apply col_bind_Ok in H as [? [? H]]).
  intros n Hn. unfold Zhang17_sites in Hn.
  repeat (apply elem_of_cons in Hn as [->|Hn]);
    [done..|by apply elem_of_nil in Hn].
Qed.

(** X26: with [equation="Zhang17"], an error of the site routine is the
    error of the call, and a site table that lacks one of the eleven ideal
    site columns gives the [KeyError] of a column it lacks: no prediction
    is returned for part of the formulas. The warning about the
    temperature is issued before either. *)
Theorem Zhang17_needs_every_site_column env core (T_K : option val) t :
  (∀ e, get_amp_sites_avferric_zhang core t = Raise e →
        returned (calculate_amp_only_melt_comps env core (Some "Zhang17")
                    T_K t) = Raise e)
  ∧ (∀ sites n,
       get_amp_sites_avferric_zhang core t = Ok sites →
       n ∈ Zhang17_sites → has_col sites n = false →
       ∃ m, m ∈ Zhang17_sites ∧ has_col sites m = false
            ∧ returned (calculate_amp_only_melt_comps env core
                          (Some "Zhang17") T_K t) = Raise (KeyError m))
  ∧ warnings (calculate_amp_only_melt_comps env core (Some "Zhang17") T_K t)
    = (if T_K is Some _ then [] else [Zhang17_warning]).
Proof.
  rewrite melt_Zhang17. cbn [returned warnings].
  split; [by intros e ->|]. split; [|done].
  intros sites n -> Hn Hno. cbn [mbind result_bind].
  unfold Zhang17_columns at 1. rewrite <- app_comm_cons, for_each_cons.
  change (assigned ("SiO2_Eq1", Zhang17_SiO2_Eq1 env) sites)
    with (v ← Zhang17_SiO2_Eq1 env sites; Ok (set_col sites "SiO2_Eq1" v)).
  destruct (Zhang17_columns_read env ("SiO2_Eq1", Zhang17_SiO2_Eq1 env))
    as (_ & _ & Hneeds); [apply list_elem_of_here|].
  specialize (Hneeds sites). cbn [snd] in Hneeds.
  destruct (Zhang17_SiO2_Eq1 env sites) as [v|e] eqn:E.
  - rewrite (Zhang17_SiO2_Eq1_reads_all env sites v E n Hn) in Hno.
    discriminate.
  - destruct Hneeds as (m & Hm & Hmno & ->). by exists m.
Qed.

(** ** The pressure of a row that passes the checks *)

Lemma vlen_col df name v : col df name = Ok v → vlen v = Ok (df_len df).
Proof.
  intros H. destruct (col_Ok _ _ _ H) as (xs & -> & Hlen). simpl.
  by rewrite Hlen.
Qed.

Lemma vlen_series v n : vlen v = Ok n → ∃ xs, v = Series xs ∧ length xs = n.
Proof. destruct v as [x|xs]; [done|]. intros [= <-]. by exists xs. Qed.

Lemma vlen_lift1 f v n : vlen v = Ok n → vlen (lift1 f v) = Ok n.
Proof.
  intros (xs & -> & <-)%vlen_series. simpl. by rewrite length_fmap.
Qed.

Lemma vlen_lift2 op u v n :
  vlen u = Ok n → vlen v = Ok n → vlen (lift2 op u v) = Ok n.
Proof.
  intros (xs & -> & <-)%vlen_series (ys & -> & Hys)%vlen_series. simpl.
  by rewrite align_length_same.
Qed.

Lemma vlen_lift2_l op k v n :
  vlen v = Ok n → vlen (lift2 op (Scalar k) v) = Ok n.
Proof.
  intros (xs & -> & <-)%vlen_series. simpl. by rewrite length_fmap.
Qed.

Lemma vlen_lift2_r op u k n :
  vlen u = Ok n → vlen (lift2 op u (Scalar k)) = Ok n.
Proof.
  intros (xs & -> & <-)%vlen_series. simpl. by rewrite length_fmap.
Qed.

Lemma vlen_vindex v n i :
  vlen v = Ok n → i < n → vindex v i = Ok (default nan (vget v i)).
Proof.
  intros (xs & -> & <-)%vlen_series Hi. simpl.
  by destruct (lookup_lt_is_Some_2 xs i Hi) as [x ->].
Qed.

Lemma vindex_vget v i x : vindex v i = Ok x → vget v i = Some x.
Proof.
  destruct v as [?|xs]; [done|]. simpl.
  by destruct (xs !! i) as [y|]; intros [= <-].
Qed.

Ltac widths :=
  repeat first
    [ eassumption
    | apply vlen_lift1
    | apply vlen_lift2_l
    | apply vlen_lift2_r
    | apply vlen_lift2 ].

(** Each of the five equations, called on the columns of the table of
    cations, gives one value per row. *)
Lemma Ridolfi2012_widths env f cat13 kw x v :
  f ∈ [P_Ridolfi2012_1a env; P_Ridolfi2012_1b env; P_Ridolfi2012_1c;
       P_Ridolfi2012_1d; P_Ridolfi2012_1e env] →
  kwargs_from cat13 (kwonly f) = Ok kw →
  call f (Some x) kw = Ok v →
  vlen v = Ok (df_len cat13).
Proof.
  intros Hf Hkw Hv.
  repeat (apply elem_of_cons in Hf as [->|Hf]);
    [..|by apply elem_of_nil in Hf].
  all: cbn [kwonly P_Ridolfi2012_1a P_Ridolfi2012_1b P_Ridolfi2012_1c
            P_Ridolfi2012_1d P_Ridolfi2012_1e kwargs_from] in Hkw.
  all: repeat match type of Hkw with
         | context [col ?df ?nm] =>
             let E := fresh "E" in
             destruct (col df nm) as [?|?] eqn:E;
             cbn [mbind result_bind] in Hkw; [|discriminate];
             apply vlen_col in E
         end.
  all: injection Hkw as <-.
  all: cbn [call body P_Ridolfi2012_1a P_Ridolfi2012_1b P_Ridolfi2012_1c
            P_Ridolfi2012_1d P_Ridolfi2012_1e] in Hv.
  all: repeat match type of Hv with
         | context [arg ?kw ?name] =>
             let r := eval lazy [arg dict_get String.eqb Ascii.eqb Bool.eqb]
                      in (arg kw name) in
             change (arg kw name) with r in Hv
         end.
  all: cbn [mbind result_bind] in Hv.
  all: injection Hv as <-.
  all: widths.
Qed.

Lemma for_each_seq_Ok {St} (body : nat → St → result St) k m st st' :
  for_each (seq k m) body st = Ok st' →
  ∀ i, k ≤ i < k + m → ∃ s1 s2, body i s1 = Ok s2.
Proof.
  revert k st. induction m as [|m IH]; intros k st H i Hi; [lia|].
  cbn [seq] in H. rewrite for_each_cons in H.
  destruct (body k st) as [st1|e] eqn:Hb; cbn [mbind result_bind] in H;
    [|discriminate].
  destruct (decide (i = k)) as [->|Hne]; [by eauto|].
  apply (IH (S k) st1 H). lia.
Qed.

Lemma loop_body_reads_the_sum A B C D E X Dl S i st st' :
  Selection.loop_body A B C D E X Dl S i st = Ok st' →
  ∃ s, vindex S i = Ok s.
Proof.
  unfold Selection.loop_body. intros H.
  destruct (vindex S i) as [s|e]; [by eauto|]. exfalso.
  destruct (vindex B i); cbn [mbind result_bind] in H; [|discriminate].
  match type of H with
  | (?m ≫= _) = _ => destruct m; cbn [mbind result_bind] in H
  end; discriminate.
Qed.

(** The loop on five Series of one length: where it returns, it has
    stored for each row what the chain selects. *)
Lemma selection_loop_rows empty_float empty_str A B C D E S n P name i :
  vlen A = Ok n → vlen B = Ok n → vlen C = Ok n → vlen D = Ok n →
  vlen E = Ok n →
  Selection.selection_loop empty_float empty_str A B C D E S
  = Ok (P, name) →
  i < n →
  ∃ a b c d e s,
    vget A i = Some a ∧ vget B i = Some b ∧ vget C i = Some c
    ∧ vget D i = Some d ∧ vget E i = Some e ∧ vget S i = Some s
    ∧ P !! i = Some (if (s <? 90)%float then nan
                     else (Selection.select a b c d e).1)
    ∧ name !! i = Some (Selection.select a b c d e).2.
Proof.
  intros HA HB HC HD HE Hrun Hi.
  unfold Selection.selection_loop in Hrun. rewrite HA in Hrun.
  cbn [mbind result_bind] in Hrun.
  set (body := Selection.loop_body _ _ _ _ _ _ _ _) in Hrun.
  set (st0 := (empty_float <$> seq 0 n, empty_str <$> seq 0 n)) in Hrun.
  assert (∀ j, j < n → ∃ s, vindex S j = Ok s) as HS.
  { intros j Hj.
    destruct (for_each_seq_Ok body 0 n st0 _ Hrun j) as (s1 & s2 & Hb);
      [lia|].
    by apply loop_body_reads_the_sum in Hb. }
  set (sel := λ j, Selection.select (default nan (vget A j))
                     (default nan (vget B j)) (default nan (vget C j))
                     (default nan (vget D j)) (default nan (vget E j))).
  set (fP := λ j, if (default nan (vget S j) <? 90)%float then nan
                  else (sel j).1).
  assert (∀ j st, j < n →
            body j st = Ok (<[j := fP j]> st.1, <[j := (sel j).2]> st.2))
    as Hbody.
  { intros j st Hj. destruct (HS j Hj) as [s Hs].
    unfold body, fP, sel. rewrite (vindex_vget _ _ _ Hs). cbn [default].
    apply loop_body_ok;
      try solve [eapply vlen_vindex; eassumption]; try done.
    - apply vindex_lift2; [apply vindex_lift2|];
        eapply vlen_vindex; eassumption.
    - apply vindex_lift2; eapply vlen_vindex; eassumption. }
  destruct (fill_loop body fst fP n) with (st := st0)
    as (st1 & Hrun1 & Hfst).
  { intros j st Hj _. rewrite (Hbody j st Hj). eauto. }
  { unfold st0. simpl. by rewrite length_fmap, length_seq. }
  destruct (fill_loop body snd (λ j, (sel j).2) n) with (st := st0)
    as (st2 & Hrun2 & Hsnd).
  { intros j st Hj _. rewrite (Hbody j st Hj). eauto. }
  { unfold st0. simpl. by rewrite length_fmap, length_seq. }
  rewrite Hrun1 in Hrun2. injection Hrun2 as <-.
  rewrite Hrun in Hrun1. injection Hrun1 as <-. simpl in Hfst, Hsnd.
  destruct (HS i Hi) as [s Hs]. apply vindex_vget in Hs as Hs'.
  pose proof (vlen_vindex _ _ i HA Hi) as Ha%vindex_vget.
  pose proof (vlen_vindex _ _ i HB Hi) as Hb%vindex_vget.
  pose proof (vlen_vindex _ _ i HC Hi) as Hc%vindex_vget.
  pose proof (vlen_vindex _ _ i HD Hi) as Hd%vindex_vget.
  pose proof (vlen_vindex _ _ i HE Hi) as He%vindex_vget.
  eexists _, _, _, _, _, s.
  repeat (split; [eassumption|]).
  rewrite Hfst, Hsnd, !list_lookup_fmap, lookup_seq_lt by done.
  cbn [fmap option_fmap option_map Nat.add]. unfold fP, sel.
  by rewrite Hs'.
Qed.
(** What the path ran to return: the five equations on the columns of the
    table of cations, the selection loop on their pressures in MPa, and
    the input checks on the arrays it filled. *)
Lemma press_Ridolfi2021_run env T deltaNNO t r :
  returned (calculate_amp_only_press env "P_Ridolfi2021" T deltaNNO t) = Ok r →
  ∃ cat13 amp Sum_input kwa kwb kwc kwd kwe a b c d e P_MPa name Calcs_R,
    kwargs_from cat13 (kwonly (P_Ridolfi2012_1a env)) = Ok kwa
    ∧ kwargs_from cat13 (kwonly (P_Ridolfi2012_1b env)) = Ok kwb
    ∧ kwargs_from cat13 (kwonly P_Ridolfi2012_1c) = Ok kwc
    ∧ kwargs_from cat13 (kwonly P_Ridolfi2012_1d) = Ok kwd
    ∧ kwargs_from cat13 (kwonly (P_Ridolfi2012_1e env)) = Ok kwe
    ∧ call (P_Ridolfi2012_1a env) (Some (Scalar 0)) kwa = Ok a
    ∧ call (P_Ridolfi2012_1b env) (Some (Scalar 0)) kwb = Ok b
    ∧ call P_Ridolfi2012_1c (Some (Scalar 0)) kwc = Ok c
    ∧ call P_Ridolfi2012_1d (Some (Scalar 0)) kwd = Ok d
    ∧ call (P_Ridolfi2012_1e env) (Some (Scalar 0)) kwe = Ok e
    ∧ Selection.selection_loop (np_empty_float env) (np_empty_str env)
        (#100 * a) (#100 * b) (#100 * c) (#100 * d) (#100 * e) Sum_input
      = Ok (P_MPa, name)
    ∧ input_checks cat13 amp Sum_input (#100 * a) P_MPa name = Ok Calcs_R
    ∧ r = CalcsFrame Calcs_R.
Proof.
  unfold calculate_amp_only_press. decide_closed. intros H.
  rewrite run_mret_bind in H.
  apply bind_Ok in H as (df & t1 & _ & _ & H).
  apply bind_Ok in H as (? & t2 & _ & _ & H).
  unfold ridolfi_branch in H.
  do 4 (cbv zeta in H; apply bind_Ok in H as (? & ? & _ & _ & H)).
  apply bind_Ok in H as (kwa & ? & Hkwa%lift_Ok & _ & H).
  apply bind_Ok in H as (kwb & ? & Hkwb%lift_Ok & _ & H).
  apply bind_Ok in H as (kwc & ? & Hkwc%lift_Ok & _ & H).
  apply bind_Ok in H as (kwd & ? & Hkwd%lift_Ok & _ & H).
  apply bind_Ok in H as (kwe & ? & Hkwe%lift_Ok & _ & H).
  apply bind_Ok in H as (a & ? & Ha%lift_Ok & _ & H). cbv zeta in H.
  apply bind_Ok in H as (b & ? & Hb%lift_Ok & _ & H). cbv zeta in H.
  apply bind_Ok in H as (c & ? & Hc%lift_Ok & _ & H). cbv zeta in H.
  apply bind_Ok in H as (d & ? & Hd%lift_Ok & _ & H). cbv zeta in H.
  apply bind_Ok in H as (e & ? & He%lift_Ok & _ & H). cbv zeta in H.
  rewrite bool_decide_true in H by done.
  apply bind_Ok in H as (sel & t3 & Hsel & _ & H).
  apply bind_Ok in Hsel as ([P_MPa name] & t4 & Hloop%lift_Ok & _ & Hsel).
  injection Hsel as <-.
  apply bind_Ok in H as (Calcs_R & t5 & Hchecks%lift_Ok & _ & H).
  injection H as <-.
  eexists _, _, _, kwa, kwb, kwc, kwd, kwe, a, b, c, d, e, P_MPa, name,
    Calcs_R.
  repeat (split; [eassumption|]). done.
Qed.

Lemma P_MPa_in_row f cat13 kw v i x :
  kwargs_from cat13 (kwonly f) = Ok kw →
  call f (Some (Scalar 0)) kw = Ok v →
  vget (#100 * v) i = Some x →
  P_MPa_in f cat13 i = Some x.
Proof. unfold P_MPa_in. by intros -> ->. Qed.

(** X27: in what the P_Ridolfi2021 path returns, a row whose pass flag is
    set holds, divided by 100, the pressure that the chain of lines 356-388
    selects among the five pressures in MPa that the equations 1a to 1e of
    Ridolfi and Renzulli (2012) give for that row of the table of cations,
    and the column [equation] holds the label of the selection. *)
Theorem a_passing_row_holds_the_selected_pressure env T deltaNNO t Calcs_R
    i :
  returned (calculate_amp_only_press env "P_Ridolfi2021" T deltaNNO t)
  = Ok (CalcsFrame Calcs_R) →
  i < df_len (Calcs.cat13_columns Calcs_R) →
  Calcs.Input_Check Calcs_R !! i = Some true →
  ∃ a b c d e,
    P_MPa_in (P_Ridolfi2012_1a env) (Calcs.cat13_columns Calcs_R) i = Some a
    ∧ P_MPa_in (P_Ridolfi2012_1b env) (Calcs.cat13_columns Calcs_R) i
      = Some b
    ∧ P_MPa_in P_Ridolfi2012_1c (Calcs.cat13_columns Calcs_R) i = Some c
    ∧ P_MPa_in P_Ridolfi2012_1d (Calcs.cat13_columns Calcs_R) i = Some d
    ∧ P_MPa_in (P_Ridolfi2012_1e env) (Calcs.cat13_columns Calcs_R) i
      = Some e
    ∧ Calcs.P_kbar_calc Calcs_R !! i
      = Some ((Selection.select a b c d e).1 / 100)%float
    ∧ Calcs.equation Calcs_R !! i = Some (Selection.select a b c d e).2.
Proof.
  intros H Hi Hflag.
  apply press_Ridolfi2021_run in H
    as (cat13 & amp & S & kwa & kwb & kwc & kwd & kwe & a & b & c & d & e
        & P & name & ? & Hkwa & Hkwb & Hkwc & Hkwd & Hkwe & Ha & Hb & Hc
        & Hd & He & Hloop & Hchecks & [= <-]).
  pose proof (input_checks_row _ _ _ _ _ _ _ i Hchecks) as Hrow.
  pose proof (input_checks_cat13 _ _ _ _ _ _ _ Hchecks) as Hcat.
  rewrite Hcat in Hi |- *. destruct (Hrow Hi) as (_ & _ & HIC & HP).
  rewrite HIC in Hflag. injection Hflag as Hpass. rewrite Hpass in HP.
  assert (∀ f kw v,
            f ∈ [P_Ridolfi2012_1a env; P_Ridolfi2012_1b env;
                 P_Ridolfi2012_1c; P_Ridolfi2012_1d; P_Ridolfi2012_1e env] →
            kwargs_from cat13 (kwonly f) = Ok kw →
            call f (Some (Scalar 0)) kw = Ok v →
            vlen (#100 * v) = Ok (df_len cat13)) as Hwide.
  { intros f kw v Hf Hkw Hv. apply vlen_lift2_l.
    by apply (Ridolfi2012_widths env f cat13 kw (Scalar 0) v). }
  destruct (selection_loop_rows (np_empty_float env) (np_empty_str env)
              (#100 * a) (#100 * b) (#100 * c) (#100 * d) (#100 * e) S
              (df_len cat13) P name i)
    as (a' & b' & c' & d' & e' & s & Ga & Gb & Gc & Gd & Ge & Gs & GP & Gn);
    [apply (Hwide (P_Ridolfi2012_1a env) kwa a); [listed|done..]
    |apply (Hwide (P_Ridolfi2012_1b env) kwb b); [listed|done..]
    |apply (Hwide P_Ridolfi2012_1c kwc c); [listed|done..]
    |apply (Hwide P_Ridolfi2012_1d kwd d); [listed|done..]
    |apply (Hwide (P_Ridolfi2012_1e env) kwe e); [listed|done..]
    |done|done|].
  exists a', b', c', d', e'.
  split; [by apply (P_MPa_in_row _ _ kwa a)|].
  split; [by apply (P_MPa_in_row _ _ kwb b)|].
  split; [by apply (P_MPa_in_row _ _ kwc c)|].
  split; [by apply (P_MPa_in_row _ _ kwd d)|].
  split; [by apply (P_MPa_in_row _ _ kwe e)|].
  assert ((s <? 90)%float = false) as Hsum.
  { unfold Gate.checks_in_order in Hpass.
    destruct (Gate.cell (Calcs.Sum_input _) i <? 90)%float eqn:Hlow;
      [by rewrite passes_false_head in Hpass|].
    revert Hlow. unfold Gate.cell.
    unfold input_checks in Hchecks.
    repeat match type of Hchecks with
           | context [col ?df ?nm] =>
               destruct (col df nm);
               cbn [mbind result_bind] in Hchecks; [|discriminate]
           end.
    injection Hchecks as <-. cbn [Calcs.Sum_input].
    by rewrite as_column_lookup, Gs by done. }
  rewrite Hsum in GP. split.
  - rewrite HP, GP. done.
  - unfold input_checks in Hchecks.
    repeat match type of Hchecks with
           | context [col ?df ?nm] =>
               destruct (col df nm);
               cbn [mbind result_bind] in Hchecks; [|discriminate]
           end.
    injection Hchecks as <-. done.
Qed.

(** The first row of the example batch, the one that passes. *)
Lemma passing_row_witness :
  ∃ Calcs_R,
    returned (calculate_amp_only_press Example.env "P_Ridolfi2021" PyNone
                None (Some Example.batch))
    = Ok (CalcsFrame Calcs_R)
    ∧ Calcs.Input_Check Calcs_R = [true; false; false]
    ∧ ∃ a b c d e,
        P_MPa_in (P_Ridolfi2012_1a Example.env)
          (Calcs.cat13_columns Calcs_R) 0 = Some a
        ∧ P_MPa_in (P_Ridolfi2012_1b Example.env)
            (Calcs.cat13_columns Calcs_R) 0 = Some b
        ∧ P_MPa_in P_Ridolfi2012_1c (Calcs.cat13_columns Calcs_R) 0 = Some c
        ∧ P_MPa_in P_Ridolfi2012_1d (Calcs.cat13_columns Calcs_R) 0 = Some d
        ∧ P_MPa_in (P_Ridolfi2012_1e Example.env)
            (Calcs.cat13_columns Calcs_R) 0 = Some e
        ∧ Calcs.P_kbar_calc Calcs_R !! 0
          = Some ((Selection.select a b c d e).1 / 100)%float
        ∧ Calcs.equation Calcs_R !! 0
          = Some (Selection.select a b c d e).2.
Proof.
  eexists. split; [vm_compute; reflexivity|].
  split; [vm_compute; reflexivity|].
  apply (a_passing_row_holds_the_selected_pressure Example.env PyNone None
           (Some Example.batch) _ 0).
  - vm_compute; reflexivity.
  - vm_compute. lia.
  - vm_compute; reflexivity.
Defined.

(** ** All the barometers at once *)





(** ** The matched table and the flag of the equilibrium test *)

Lemma press_liq_on_meltmatch env core liq_comps m equationP f H2O_Liq t :
  liq_comps = None ∨ t = None →
  Amp_Liq_P_funcs_by_name env !! equationP = Some f →
  calculate_amp_liq_press env core liq_comps (Some m) equationP PyNone
    PyFalse H2O_Liq t
  = Outcome (kw ← kwargs_from m (kwonly f);
             v ← call f None kw;
             Ok (Plain (Value v))) t [] [].
Proof.
  intros Hnone Hf. destruct (Amp_Liq_P_default _ _ _ Hf) as [Hd _].
  unfold calculate_amp_liq_press. rewrite run_bind.
  rewrite (liq_lookup_and_check_default _ _ _ _ _ _ _ PyNone _ Hf Hd I).
  cbn [said after app returned amp_comps stdout warnings].
  rewrite run_bind. unfold the_amp_comps at 1.
  cbn [after app returned amp_comps stdout warnings].
  assert (match liq_comps, t with
          | Some liq, Some _ => False
          | _, _ => True
          end) as Hcase.
  { by destruct Hnone as [-> | ->]; [|destruct liq_comps]. }
  destruct liq_comps as [liq|], t as [amp|]; try done.
  all: rewrite run_mret_bind; cbn [fst snd]; rewrite run_mret_bind.
  all: rewrite run_bind; unfold lift at 1.
  all: destruct (kwargs_from m (kwonly f)) as [kw|e]; [|done].
  all: cbn [after app returned amp_comps stdout warnings mbind result_bind].
  all: unfold evaluate_liq; rewrite !run_bind; unfold lift at 1.
  all: destruct (call f None kw) as [v|e]; [|done].
  all: cbn [after app returned amp_comps stdout warnings mbind result_bind].
  all: by rewrite run_mret.
Qed.

(** X29: [calculate_amp_liq_press] reads [meltmatch] only when the liquids
    or the amphiboles are missing. Given both, it builds its table from the
    two and the matched table is overwritten. Given a matched table and not
    both, it evaluates the equation on the columns of the matched table:
    no routine of the core is called, [H2O_Liq] is not used and nothing is
    printed. *)
Theorem meltmatch_is_read_without_a_table_only env core :
  (∀ liq amp meltmatch equationP T eq_tests H2O_Liq,
     calculate_amp_liq_press env core (Some liq) meltmatch equationP T
       eq_tests H2O_Liq (Some amp)
     = calculate_amp_liq_press env core (Some liq) None equationP T eq_tests
         H2O_Liq (Some amp))
  ∧ (∀ m equationP f H2O_Liq t,
       Amp_Liq_P_funcs_by_name env !! equationP = Some f →
       calculate_amp_liq_press env core None (Some m) equationP PyNone
         PyFalse H2O_Liq t
       = Outcome (kw ← kwargs_from m (kwonly f);
                  v ← call f None kw;
                  Ok (Plain (Value v))) t [] [])
  ∧ (∀ liq_comps m equationP f H2O_Liq,
       Amp_Liq_P_funcs_by_name env !! equationP = Some f →
       calculate_amp_liq_press env core liq_comps (Some m) equationP PyNone
         PyFalse H2O_Liq None
       = Outcome (kw ← kwargs_from m (kwonly f);
                  v ← call f None kw;
                  Ok (Plain (Value v))) None [] []).
Proof.
  split; [|split].
  - intros. unfold calculate_amp_liq_press.
    apply bind_ext_Ok. intros func _.
    rewrite leaves_liq_lookup_and_check. reflexivity.
  - intros. apply press_liq_on_meltmatch; [by left|done].
  - intros. apply press_liq_on_meltmatch; [by right|done].
Qed.

(** The matched table of the example, without liquids and without
    amphiboles. *)
Lemma meltmatch_witness :
  calculate_amp_liq_press Example.env Example_liq.core None
    (Some (Example_liq.first_of_each_name
             [Example_liq.amp; Example_liq.liq]))
    "P_Put2016_eq7c" PyNone PyFalse None None
  = Outcome (Ok (Plain (Value (Series [3.8446026337652448;
                                       3.8446026337652448;
                                       3.8446026337652448]%float))))
      None [] [].
Proof.
  etransitivity.
  - apply (proj1 (proj2 (meltmatch_is_read_without_a_table_only Example.env
                           Example_liq.core))
             _ "P_Put2016_eq7c" (P_Put2016_eq7c Example.env)).
    generalize Example.env. intros env. vm_compute; reflexivity.
  - vm_compute; reflexivity.
Defined.

(** X30: the flag [eq_tests] is compared with [is]: a value that is neither
    [True] nor [False] ([None], [0], [1]) makes [calculate_amp_liq_press]
    and [calculate_amp_liq_temp] raise, at the latest on [Out], which
    nothing has assigned. *)
Theorem eq_tests_is_True_or_False env core :
  (∀ liq_comps meltmatch equationP T H2O_Liq t,
     raises (calculate_amp_liq_press env core liq_comps meltmatch equationP
               T PyOtherFlag H2O_Liq t))
  ∧ (∀ liq_comps equationT P H2O_Liq t,
       raises (calculate_amp_liq_temp env core liq_comps equationT P H2O_Liq
                 PyOtherFlag t))
  ∧ (∀ local column calc hy t,
       finish env core local column calc hy PyOtherFlag t
       = Outcome (Raise (UnboundLocalError "Out")) t [] []).
Proof.
  split; [|split].
  - intros. unfold calculate_amp_liq_press.
    do 6 (cbv zeta; apply bind_raises; intros ? ?). by eexists.
  - intros. unfold calculate_amp_liq_temp.
    do 8 (cbv zeta; apply bind_raises; intros ? ?). by eexists.
  - reflexivity.
Qed.
